(** * CAQE route handlers ([caqe/views.py]): workflow controller, hearing
    screening and evaluation submission.

    The handlers are embedded as state-passing functions over a [World]
    (client session, participant and trial tables, log, flashed messages).
    Python exceptions are values of [exn]; a view either answers or raises.
    Code of other modules of the application ([experiment], [utilities],
    [models], [settings]) is taken through the class [Collaborators]. *)

From Stdlib Require Import ZArith Lia Bool Ascii String List.
From stdpp Require Import base option strings gmap list pretty sorting.
Import ListNotations.

#[local] Set Warnings "-register-all".
Local Open Scope string_scope.
Local Open Scope list_scope.
Local Open Scope Z_scope.

(** ** Python values, exceptions and results *)

Module Py.

(** The exception classes the handlers can meet. *)
Inductive exn :=
| AssertionError
| AttributeError
| BadRequestKeyError (key : string)
| KeyError (key : string)
| NameError (name : string)
| TypeError
| ValueError
| ZeroDivisionError
| DatabaseError
| InvalidParticipant (participant_id : Z)
| CollaboratorError (detail : string)
| BuildError (endpoint : string).

Inductive result (A : Type) :=
| Ok (a : A)
| Raise (e : exn).
Arguments Ok {A} a.
Arguments Raise {A} e.

Definition bind {A B} (r : result A) (k : A -> result B) : result B :=
  match r with
  | Ok a => k a
  | Raise e => Raise e
  end.

(** [str(e)], what the evaluation handler signs into its error reply. *)
Definition str_exn (e : exn) : string :=
  match e with
  | AssertionError => ""
  | AttributeError => "object has no attribute"
  | BadRequestKeyError _ => "400: Bad Request"
  | KeyError k => k
  | NameError n => ("local variable referenced before assignment: " ++ n)%string
  | TypeError => "wrong operand type"
  | ValueError => "invalid literal"
  | ZeroDivisionError => "integer division or modulo by zero"
  | DatabaseError => "database error"
  | InvalidParticipant _ => "session['participant_id'] is invalid."
  | CollaboratorError d => d
  | BuildError endpoint => ("Could not build url for endpoint " ++ endpoint)%string
  end.

(** JSON documents as [json.loads] returns them (numbers: integers). *)
Inductive json :=
| JNull
| JBool (b : bool)
| JNum (n : Z)
| JStr (s : string)
| JArr (items : list json)
| JObj (fields : list (string * json)).

(** What the client session and the handlers' variables hold. *)
Inductive pyval :=
| PyNone
| PyInt (n : Z)
| PyStr (s : string)
| PyIntList (l : list Z)
| PyDict (d : list (string * pyval)).

(** *** [int(...)] *)

Definition digit_of (c : ascii) : option Z :=
  let n := Z.of_N (N_of_ascii c) in
  if (48 <=? n) && (n <=? 57) then Some (n - 48) else None.

Fixpoint digits_value (acc : Z) (s : string) : option Z :=
  match s with
  | EmptyString => Some acc
  | String c s' =>
      match digit_of c with
      | Some d => digits_value (10 * acc + d) s'
      | None => None
      end
  end.

Definition is_blank (c : ascii) : bool :=
  let n := N_of_ascii c in
  (n =? 32)%N || ((9 <=? n)%N && (n <=? 13)%N).

Fixpoint lstrip (s : string) : string :=
  match s with
  | String c s' => if is_blank c then lstrip s' else s
  | EmptyString => EmptyString
  end.

Definition strip (s : string) : string :=
  String.rev (lstrip (String.rev (lstrip s))).

(** [int(s)] on a string of ASCII characters: blanks around, an optional
    sign, decimal digits. The digits and blanks of Unicode beyond ASCII,
    which [int] also takes in a [unicode] value, are not represented. *)
Definition int_of_str (s : string) : result Z :=
  let unsigned (t : string) : result Z :=
    match t with
    | EmptyString => Raise ValueError
    | _ => match digits_value 0 t with
           | Some n => Ok n
           | None => Raise ValueError
           end
    end in
  match strip s with
  | String "-" t => bind (unsigned t) (fun n => Ok (- n))
  | String "+" t => unsigned t
  | t => unsigned t
  end.

Definition int_of_pyval (v : pyval) : result Z :=
  match v with
  | PyInt n => Ok n
  | PyStr s => int_of_str s
  | PyNone | PyIntList _ | PyDict _ => Raise TypeError
  end.

Definition int_of_json (v : json) : result Z :=
  match v with
  | JNum n => Ok n
  | JBool b => Ok (if b then 1 else 0)
  | JStr s => int_of_str s
  | JNull | JArr _ | JObj _ => Raise TypeError
  end.

(** Python 2 [a / b] on integers: floor division, [ZeroDivisionError] at 0. *)
Definition floordiv (a b : Z) : result Z :=
  if b =? 0 then Raise ZeroDivisionError else Ok (a / b).

(** [for x in v] on a JSON document: a list yields its items, an object its
    keys, a string its characters; the rest is not iterable. *)
Definition chars (s : string) : list json :=
  map (fun c => JStr (String c EmptyString)) (list_ascii_of_string s).

Definition iterate (v : json) : result (list json) :=
  match v with
  | JArr items => Ok items
  | JObj fields => Ok (map (fun kv => JStr (fst kv)) fields)
  | JStr s => Ok (chars s)
  | JNull | JBool _ | JNum _ => Raise TypeError
  end.

Fixpoint assoc {A} (k : string) (l : list (string * A)) : option A :=
  match l with
  | [] => None
  | (k', v) :: l' => if String.eqb k k' then Some v else assoc k l'
  end.

(** [v[key]] with a string key. *)
Definition getitem (v : json) (key : string) : result json :=
  match v with
  | JObj fields =>
      match assoc key fields with
      | Some x => Ok x
      | None => Raise (KeyError key)
      end
  | _ => Raise TypeError
  end.

End Py.
Export Py.

Notation "x <- c ;; k" := (Py.bind c (fun x => k))
  (at level 100, c at next level, right associativity).

(** ** Data model *)

(** A row of [models.Participant]; the primary key is the key of the table. *)
Record Participant := {
  gave_consent : bool;
  hearing_test_attempts : Z;
  passed_hearing_test : option bool;
  hearing_test_last_attempt : option Z;
  pre_test_survey : option json;
  post_test_survey : option json;
  hearing_response_estimation : option json
}.

(** A row of [models.Trial], as [Trial(participant_id, condition_id, data,
    crowd_data, participant_passed_hearing_test)] builds it; the table keeps
    it with the primary key that the database gives it. *)
Record Trial := {
  participant_id : Z;
  condition_id : Z;
  data : json;
  crowd_data : pyval;
  participant_passed_hearing_test : option bool
}.

Inductive log_entry :=
| LogInfo (message : string)
| LogWarning (message : string)
| LogError (message : string).

Record World := {
  session : gmap string pyval;
  participants : gmap Z Participant;
  trials : list (Z * Trial);
  log : list log_entry;
  flashes : list string
}.

Definition set_session (key : string) (v : pyval) (w : World) : World :=
  {| session := <[key := v]> (session w); participants := participants w;
     trials := trials w; log := log w; flashes := flashes w |}.

Definition set_participant (pid : Z) (p : Participant) (w : World) : World :=
  {| session := session w; participants := <[pid := p]> (participants w);
     trials := trials w; log := log w; flashes := flashes w |}.

Definition add_trials (new : list (Z * Trial)) (w : World) : World :=
  {| session := session w; participants := participants w;
     trials := trials w ++ new; log := log w; flashes := flashes w |}.

Definition logger (entry : log_entry) (w : World) : World :=
  {| session := session w; participants := participants w;
     trials := trials w; log := log w ++ [entry]; flashes := flashes w |}.

Definition flash (message : string) (w : World) : World :=
  {| session := session w; participants := participants w;
     trials := trials w; log := log w; flashes := flashes w ++ [message] |}.

(** What a view returns. *)
Inductive response :=
| Sorry (message : string)
| Render (template : string)
| Redirect (endpoint : string)
| Json (error : bool) (message : string) (trial_id : option string).

(** The keys of [CONFIGURATION] the handlers read. *)
Record Configuration := {
  obtain_consent : bool;
  hearing_screening_test_enabled : bool;
  max_hearing_test_attempts : Z;
  hearing_test_rejection_enabled : bool;
  pre_test_survey_enabled : bool;
  pre_test_survey_inclusion_criteria : json
}.

(** Functions and constants of the modules [experiment], [utilities],
    [models] and [settings], which the handlers call and this file does not
    define. [has_passed_hearing_test_recently] is the method of the
    participant row, called without argument; what it answers is taken as a
    function of the row and of the time at which it is called. *)
Class Collaborators := {
  is_pre_test_survey_valid : json -> json -> bool;
  decrypt_audio_stimuli : json -> result json;
  has_passed_hearing_test_recently : Participant -> Z -> bool;
  encrypt_data : Z -> string;
  decrypt_data : pyval -> result pyval;
  sign_data : pyval -> string;
  MIN_HEARING_TEST_AUDIO_INDEX : Z;
  MAX_HEARING_TEST_AUDIO_INDEX : Z;
  HEARING_TEST_AUDIO_FILES_PER_TONES : Z
}.

(** What the world outside the handler answers during one request: the
    condition allocator, the database at commit (whether it succeeds, and the
    primary key of the [k]-th row the request adds), the clock and the random
    generator (the [k]-th pair of [randint] draws of the request). *)
Record Oracle := {
  assign_conditions : result (option (list Z));
  commit_succeeds : bool;
  primary_key : nat -> Z;
  now : Z;
  randint_pairs : nat -> Z * Z
}.

(** ** Messages *)

Definition third_party_cookies : string :=
  "An error has occurred. Please make sure that third-party cookies are enabled in your browser and then reload this page. (Note that by default these are disabled in Safari, but are enabled in Chrome and Firefox".
Definition no_more_tasks_for_you : string :=
  "We're sorry, but there are no more tasks available for you.".
Definition inclusion_criteria_not_met : string :=
  "Unfortunately, you do not meet the inclusion criteria for this study. Sorry.".
Definition attempts_exceeded : string :=
  "Sorry. You have exceed the number of allowed attempts. Please try again tomorrow.".
Definition answered_incorrectly : string :=
  "You answered incorrectly. If you are unable to pass this test, it is likely that your output device (e.g. your headphones) is not producing the full range of frequencies required for this task. Try using better headphones.".

(** ** The current participant *)

(** What [get_current_participant(session)] hands back: a participant row,
    or the rendered apology page it returns in place of one. *)
Inductive current :=
| Found (id : Z) (row : Participant)
| Page (r : response).

(** [participant.attribute]: the rendered page has none of the attributes. *)
Definition attr {A} (f : Participant -> A) (c : current) : result A :=
  match c with
  | Found _ row => Ok (f row)
  | Page _ => Raise AttributeError
  end.

Definition participant_pk (c : current) : result Z :=
  match c with
  | Found id _ => Ok id
  | Page _ => Raise AttributeError
  end.

(** [get_current_participant(current_session)] with [allow_none=False]. *)
Definition get_current_participant (w : World) : result current * World :=
  match session w !! "participant_id" with
  | None | Some PyNone =>
      (Ok (Page (Sorry third_party_cookies)),
       logger (LogError "session['participant_id']=None is invalid. This could mean that third party cookies are not enabled.") w)
  | Some (PyInt pid) =>
      match participants w !! pid with
      | Some row => (Ok (Found pid row), w)
      | None => (Raise (InvalidParticipant pid), w)
      end
  | Some _ => (Raise TypeError, w)
  end.

(** ** Workflow controller *)

Section Handlers.
Context `{Collaborators}.
Variable CONFIGURATION : Configuration.

(** [a and b], where [b] is evaluated only when [a] holds. *)
Definition and_then (a : bool) (b : result bool) : result bool :=
  if a then b else Ok false.

Definition no_conditions (ids : option (list Z)) : bool :=
  match ids with
  | None => true
  | Some l => (Z.of_nat (length l) =? 0)
  end.

Definition condition_ids_value (ids : option (list Z)) : pyval :=
  match ids with
  | None => PyNone
  | Some l => PyIntList l
  end.

(** [pre_evaluation_tasks()]. *)
Definition pre_evaluation_tasks (o : Oracle) (w : World) : result response * World :=
  let '(got, w) := get_current_participant w in
  match got with
  | Raise e => (Raise e, w)
  | Ok participant =>
      match assign_conditions o with
      | Raise e => (Raise e, w)
      | Ok ids =>
          let w := set_session "condition_ids" (condition_ids_value ids) w in
          if no_conditions ids then (Ok (Sorry no_more_tasks_for_you), w)
          else
            (consent_due <- and_then (obtain_consent CONFIGURATION)
                              (c <- attr gave_consent participant ;; Ok (negb c)) ;;
             if consent_due : bool then Ok (Redirect "consent") else
             hearing_due <- and_then (hearing_screening_test_enabled CONFIGURATION)
                              (r <- attr has_passed_hearing_test_recently participant ;;
                               Ok (negb (r (now o)))) ;;
             if hearing_due : bool then Ok (Redirect "hearing_test") else
             if pre_test_survey_enabled CONFIGURATION then
               survey <- attr pre_test_survey participant ;;
               match survey with
               | None => Ok (Redirect "pre_test_survey")
               | Some answers =>
                   if negb (is_pre_test_survey_valid answers
                              (pre_test_survey_inclusion_criteria CONFIGURATION))
                   then Ok (Sorry inclusion_criteria_not_met)
                   else Ok (Redirect "evaluation")
               end
             else Ok (Redirect "evaluation"),
             w)
      end
  end.

(** The session of [w] names participant [pid], whose row is [row]. *)
Definition resolves (w : World) (pid : Z) (row : Participant) : Prop :=
  session w !! "participant_id" = Some (PyInt pid) /\ participants w !! pid = Some row.

(** The step the controller answers at [time] for a participant whose
    conditions were assigned. *)
Definition next_step (time : Z) (row : Participant) : response :=
  if obtain_consent CONFIGURATION && negb (gave_consent row) then Redirect "consent"
  else if hearing_screening_test_enabled CONFIGURATION
          && negb (has_passed_hearing_test_recently row time) then Redirect "hearing_test"
  else if pre_test_survey_enabled CONFIGURATION then
    match pre_test_survey row with
    | None => Redirect "pre_test_survey"
    | Some answers =>
        if is_pre_test_survey_valid answers
             (pre_test_survey_inclusion_criteria CONFIGURATION)
        then Redirect "evaluation"
        else Sorry inclusion_criteria_not_met
    end
  else Redirect "evaluation".

(** ** Hearing screening *)

(** Modelled from the spec: [Participant.set_passed_hearing_test] of
    [models.py], which is not among the sources. The spec has "record pass,
    increment attempts" and "record failure, increment attempts", and a
    "pass/fail outcome with timestamp". *)
Definition set_passed_hearing_test (passed : bool) (time : Z) (p : Participant)
  : Participant :=
  {| gave_consent := gave_consent p;
     hearing_test_attempts := hearing_test_attempts p + 1;
     passed_hearing_test := Some passed;
     hearing_test_last_attempt := Some time;
     pre_test_survey := pre_test_survey p;
     post_test_survey := post_test_survey p;
     hearing_response_estimation := hearing_response_estimation p |}.

(** [db.session.commit()] after a change of the participant's row. *)
Definition commit_participant (o : Oracle) (c : current) (w : World)
  : result unit * World :=
  if commit_succeeds o then
    match c with
    | Found id row => (Ok tt, set_participant id row w)
    | Page _ => (Ok tt, w)
    end
  else (Raise DatabaseError, w).

Inductive http_method := GET | POST.

(** The [while True] loop of the GET branch: iteration [k] draws the pair
    [randint_pairs k] and leaves the loop when its two indices differ.
    [None]: still looping after [fuel] iterations. *)
Fixpoint draw_indices (fuel : nat) (pairs : nat -> Z * Z) (k : nat)
  : option (Z * Z) :=
  match fuel with
  | O => None
  | S fuel' =>
      let '(hearing_test_audio_index1, hearing_test_audio_index2) := pairs k in
      if negb (hearing_test_audio_index1 =? hearing_test_audio_index2)
      then Some (hearing_test_audio_index1, hearing_test_audio_index2)
      else draw_indices fuel' pairs (S k)
  end.

(** The values [random.randint(MIN_HEARING_TEST_AUDIO_INDEX,
    MAX_HEARING_TEST_AUDIO_INDEX)] returns, each as likely as the others; the
    pairs one iteration of the loop can draw; the runs of [n] iterations. *)
Definition audio_indices : list Z :=
  seqZ MIN_HEARING_TEST_AUDIO_INDEX
    (MAX_HEARING_TEST_AUDIO_INDEX - MIN_HEARING_TEST_AUDIO_INDEX + 1).

Definition pair_draws : list (Z * Z) := list_prod audio_indices audio_indices.

Fixpoint runs (n : nat) : list (list (Z * Z)) :=
  match n with
  | O => [[]]
  | S n' => map (fun pr => pr.1 :: pr.2) (list_prod pair_draws (runs n'))
  end.

(** The two draws of an iteration are equal. *)
Definition same_index (p : Z * Z) : bool := p.1 =? p.2.

(** The generator that draws the pairs of [run], one per iteration. *)
Definition replay (run : list (Z * Z)) : nat -> Z * Z :=
  fun k => nth k run (0, 0).

(** The loop is still running after the iterations of [run]. *)
Definition still_looping (run : list (Z * Z)) : bool :=
  match draw_indices (length run) (replay run) 0 with
  | None => true
  | Some _ => false
  end.

(** [request.form[key]]. *)
Definition form_get (form : gmap string string) (key : string) : result string :=
  match form !! key with
  | Some v => Ok v
  | None => Raise (BadRequestKeyError key)
  end.

(** [int(request.form[key])]. *)
Definition reported_tones (form : gmap string string) (key : string) : result Z :=
  answer <- form_get form key ;;
  int_of_str answer.

(** [int(utilities.decrypt_data(token))]. *)
Definition decoded_index (token : pyval) : result Z :=
  plain <- decrypt_data token ;;
  int_of_pyval plain.

(** [int(utilities.decrypt_data(token)) / HEARING_TEST_AUDIO_FILES_PER_TONES]. *)
Definition expected_tones (token : pyval) : result Z :=
  index <- decoded_index token ;;
  floordiv index HEARING_TEST_AUDIO_FILES_PER_TONES.

(** One comparison of the [if] of the POST branch: left operand first. *)
Definition tones_match (form : gmap string string) (key : string) (token : pyval)
  : result bool :=
  tones <- reported_tones form key ;;
  expected <- expected_tones token ;;
  Ok (tones =? expected).

(** The condition of the [if] of the POST branch. *)
Definition tone_counts_match (form : gmap string string) (token1 token2 : pyval)
  : result bool :=
  first <- tones_match form "audiofile1_tones" token1 ;;
  and_then first (tones_match form "audiofile2_tones" token2).

(** The [try: ... except KeyError] that reads the two tokens of the session. *)
Definition read_challenge (w : World) : pyval * pyval * World :=
  match session w !! "hearing_test_audio_index1" with
  | None =>
      (PyNone, PyNone,
       logger (LogError "Invalid state - KeyError('hearing_test_audio_index1',)") w)
  | Some token1 =>
      match session w !! "hearing_test_audio_index2" with
      | None =>
          (PyNone, PyNone,
           logger (LogError "Invalid state - KeyError('hearing_test_audio_index2',)") w)
      | Some token2 => (token1, token2, w)
      end
  end.

(** [participant.set_passed_hearing_test(passed)] on the current participant. *)
Definition record_attempt (passed : bool) (o : Oracle) (c : current) : result current :=
  match c with
  | Found id row => Ok (Found id (set_passed_hearing_test passed (now o) row))
  | Page _ => Raise AttributeError
  end.

(** The world after a failed attempt of participant [pid] was committed. *)
Definition failed_attempt (o : Oracle) (pid : Z) (row : Participant) (w : World)
  : World :=
  set_participant pid (set_passed_hearing_test false (now o) row)
    (logger (LogInfo "Hearing test failed") (read_challenge w).2).

(** Every draw of the generator is within the configured range, as
    [random.randint] has it. *)
Definition draws_in_range (o : Oracle) : Prop :=
  forall k,
    (MIN_HEARING_TEST_AUDIO_INDEX <= (randint_pairs o k).1 <= MAX_HEARING_TEST_AUDIO_INDEX)
    /\ (MIN_HEARING_TEST_AUDIO_INDEX <= (randint_pairs o k).2 <= MAX_HEARING_TEST_AUDIO_INDEX).

(** [hearing_test()]. [None]: the challenge loop of the GET branch has not
    ended after [fuel] iterations. *)
Definition hearing_test (fuel : nat) (method : http_method)
    (form : gmap string string) (o : Oracle) (w : World)
  : option (result response * World) :=
  let '(got, w) := get_current_participant w in
  match got with
  | Raise e => Some (Raise e, w)
  | Ok participant =>
      match method with
      | GET =>
          match attr hearing_test_attempts participant with
          | Raise e => Some (Raise e, w)
          | Ok attempts =>
              if attempts >=? max_hearing_test_attempts CONFIGURATION then
                Some (Ok (Sorry attempts_exceeded),
                      logger (LogInfo "Max hearing test attempts reached") w)
              else if MAX_HEARING_TEST_AUDIO_INDEX <? MIN_HEARING_TEST_AUDIO_INDEX then
                Some (Raise ValueError, w)
              else
                match draw_indices fuel (randint_pairs o) 0 with
                | None => None
                | Some (hearing_test_audio_index1, hearing_test_audio_index2) =>
                    let w := logger (LogInfo "Hearing test indices assigned") w in
                    let w := set_session "hearing_test_audio_index1"
                               (PyStr (encrypt_data hearing_test_audio_index1)) w in
                    let w := set_session "hearing_test_audio_index2"
                               (PyStr (encrypt_data hearing_test_audio_index2)) w in
                    Some (Ok (Render "hearing_screening.html"), w)
                end
          end
      | POST =>
          let '(hearing_test_audio_index1, hearing_test_audio_index2, w) :=
            read_challenge w in
          match tone_counts_match form hearing_test_audio_index1 hearing_test_audio_index2
          with
          | Raise e => Some (Raise e, w)
          | Ok true =>
              let w := logger (LogInfo "Hearing test passed") w in
              match record_attempt true o participant with
              | Raise e => Some (Raise e, w)
              | Ok participant =>
                  let '(committed, w) := commit_participant o participant w in
                  match committed with
                  | Raise e => Some (Raise e, w)
                  | Ok _ => Some (pre_evaluation_tasks o w)
                  end
              end
          | Ok false =>
              let w := logger (LogInfo "Hearing test failed") w in
              match record_attempt false o participant with
              | Raise e => Some (Raise e, w)
              | Ok participant =>
                  let '(committed, w) := commit_participant o participant w in
                  match committed, attr hearing_test_attempts participant with
                  | Raise e, _ | _, Raise e => Some (Raise e, w)
                  | Ok _, Ok attempts =>
                      if attempts <? max_hearing_test_attempts CONFIGURATION then
                        Some (Ok (Redirect "hearing_test"), flash answered_incorrectly w)
                      else if negb (hearing_test_rejection_enabled CONFIGURATION) then
                        Some (pre_evaluation_tasks o
                                (logger (LogInfo "Hearing test rejection enabled. Passing failed participant to evaluation.") w))
                      else Some (Ok (Redirect "hearing_test"), w)
                  end
              end
          end
      end
  end.

(** ** Consent *)

Definition thank_you_for_your_interest : string :=
  "Thank you for your interest in the study.".

(** [participant.gave_consent = True]. *)
Definition give_consent (c : current) : result current :=
  match c with
  | Found id row =>
      Ok (Found id
            {| gave_consent := true;
               hearing_test_attempts := hearing_test_attempts row;
               passed_hearing_test := passed_hearing_test row;
               hearing_test_last_attempt := hearing_test_last_attempt row;
               pre_test_survey := pre_test_survey row;
               post_test_survey := post_test_survey row;
               hearing_response_estimation := hearing_response_estimation row |})
  | Page _ => Raise AttributeError
  end.

(** [consent()]. *)
Definition consent (method : http_method) (form : gmap string string)
    (o : Oracle) (w : World) : result response * World :=
  match method with
  | POST =>
      match form_get form "consent" with
      | Raise e => (Raise e, w)
      | Ok answer =>
          if String.eqb answer "agree" then
            let '(got, w) := get_current_participant w in
            match participant <- got ;; give_consent participant with
            | Raise e => (Raise e, w)
            | Ok participant =>
                let '(committed, w) := commit_participant o participant w in
                match committed with
                | Raise e => (Raise e, w)
                | Ok _ => pre_evaluation_tasks o w
                end
            end
          else if String.eqb answer "disagree" then
            (Ok (Sorry thank_you_for_your_interest), w)
          else (Ok (Render "consent.html"), w)
      end
  | GET => (Ok (Render "consent.html"), w)
  end.

(** ** Evaluation submission *)

(** The two fields of [request.values] the POST branch reads;
    [completedConditionData] after [json.loads] ([Some None]: not JSON). *)
Record Submission := {
  participant_id_value : option string;
  completedConditionData : option (option json)
}.

Definition submitted_participant_id (rq : Submission) : result Z :=
  match participant_id_value rq with
  | Some v => int_of_str v
  | None => Raise (BadRequestKeyError "participant_id")
  end.

Definition submitted_condition_data (rq : Submission) : result json :=
  match completedConditionData rq with
  | Some (Some v) => Ok v
  | Some None => Raise ValueError
  | None => Raise (BadRequestKeyError "completedConditionData")
  end.

(** One turn of [for cd in condition_data], up to [Trial(...)]. *)
Definition new_trial (participant : current) (participant_id : Z) (crowd : pyval)
    (cd : json) : result Trial :=
  conditionID <- getitem cd "conditionID" ;;
  condition_id <- int_of_json conditionID ;;
  cd <- decrypt_audio_stimuli cd ;;
  passed <- attr passed_hearing_test participant ;;
  Ok {| participant_id := participant_id; condition_id := condition_id;
        data := cd; crowd_data := crowd;
        participant_passed_hearing_test := passed |}.

(** The loop: [pending] are the trials given to [db.session.add] so far. *)
Fixpoint add_trial_loop (participant : current) (participant_id : Z) (crowd : pyval)
    (condition_data : list json) (pending : list Trial) (w : World)
  : result (list Trial) * World :=
  match condition_data with
  | [] => (Ok pending, w)
  | cd :: rest =>
      match new_trial participant participant_id crowd cd with
      | Raise e => (Raise e, w)
      | Ok trial =>
          add_trial_loop participant participant_id crowd rest (pending ++ [trial])
            (logger (LogInfo "Results saved for trial") w)
      end
  end.

(** The statements of the [try] block before the loop. *)
Definition checked_submission (participant : current) (rq : Submission)
  : result (Z * list json) :=
  participant_id <- submitted_participant_id rq ;;
  pk <- participant_pk participant ;;
  if negb (pk =? participant_id) then Raise AssertionError else
  condition_data <- submitted_condition_data rq ;;
  items <- iterate condition_data ;;
  Ok (participant_id, items).

(** The pending trials with the keys they get at the commit. *)
Definition keyed (o : Oracle) (pending : list Trial) : list (Z * Trial) :=
  imap (fun k trial => (primary_key o k, trial)) pending.

(** The [except Exception as e] branch. The message is the text of the
    reply without the quotes that [%r] puts around the signed string. *)
Definition error_saving (e : exn) (w : World) : result response * World :=
  (Ok (Json true ("Error saving data. Error " ++ sign_data (PyStr (str_exn e)))%string
         None),
   logger (LogWarning "Error saving results.") w).

(** [evaluation()] at [request.method == 'POST']. Trials that were added and
    not committed when an exception is caught are dropped with the request. *)
Definition evaluation (rq : Submission) (o : Oracle) (w : World)
  : result response * World :=
  let '(got, w) := get_current_participant w in
  match got with
  | Raise e => (Raise e, w)
  | Ok _ =>
      let '(got, w) := get_current_participant w in
      match got with
      | Raise e => error_saving e w
      | Ok participant =>
          let crowd := default PyNone (session w !! "crowd_data") in
          match checked_submission participant rq with
          | Raise e => error_saving e w
          | Ok (participant_id, condition_data) =>
              let '(added, w) :=
                add_trial_loop participant participant_id crowd condition_data [] w in
              match added with
              | Raise e => error_saving e w
              | Ok pending =>
                  if commit_succeeds o then
                    let w := add_trials (keyed o pending) w in
                    match last (keyed o pending) with
                    | None => error_saving (NameError "trial") w
                    | Some (id, trial) =>
                        (Ok (Json false "Data is saved!" (Some (sign_data (PyInt id)))),
                         w)
                    end
                  else error_saving DatabaseError w
              end
          end
      end
  end.

(** The trials of a submission, one per item, or the exception of the
    first item that has one. *)
Fixpoint new_trials (participant : current) (participant_id : Z) (crowd : pyval)
    (condition_data : list json) : result (list Trial) :=
  match condition_data with
  | [] => Ok []
  | cd :: rest =>
      trial <- new_trial participant participant_id crowd cd ;;
      others <- new_trials participant participant_id crowd rest ;;
      Ok (trial :: others)
  end.

(** What the [try] block commits when it reaches its [return], and the
    exception that ends it otherwise. *)
Definition committed_trials (participant : current) (crowd : pyval)
    (rq : Submission) (o : Oracle) : result (list Trial) :=
  checked <- checked_submission participant rq ;;
  pending <- new_trials participant checked.1 crowd checked.2 ;;
  if commit_succeeds o then
    match last pending with
    | None => Raise (NameError "trial")
    | Some _ => Ok pending
    end
  else Raise DatabaseError.

(** The success reply, for the rows that the request stored. *)
Definition data_is_saved (stored : list (Z * Trial)) : response :=
  Json false "Data is saved!"
    ((fun kt => sign_data (PyInt kt.1)) <$> last stored).

End Handlers.

(** ** Sample collaborators and worlds, for closed examples *)

Module Sample.

(** A survey is valid when it has the field the criteria name. *)
Definition valid (answers criteria : json) : bool :=
  match criteria, answers with
  | JStr field, JObj fields => bool_decide (is_Some (assoc field fields))
  | _, _ => true
  end.

(** Tokens are the decimal digit of a small index behind a tag; decoding
    raises on anything else. *)
Definition encrypt (index : Z) : string :=
  String "#" (String (ascii_of_N (Z.to_N (48 + index))) EmptyString).

Definition decrypt (token : pyval) : result pyval :=
  match token with
  | PyStr (String "#" digits) => Ok (PyStr digits)
  | PyStr _ => Raise (CollaboratorError "bad signature")
  | _ => Raise TypeError
  end.

Definition sign (v : pyval) : string :=
  match v with
  | PyInt n => encrypt n
  | PyStr s => String "#" s
  | _ => "#"
  end.

(** A pass counts as recent for a day (86400 seconds) after the attempt. *)
Definition recent (p : Participant) (time : Z) : bool :=
  default false (passed_hearing_test p)
  && match hearing_test_last_attempt p with
     | Some attempt => time - attempt <? 86400
     | None => false
     end.

Definition collaborators : Collaborators :=
  {| is_pre_test_survey_valid := valid;
     decrypt_audio_stimuli := Ok;
     has_passed_hearing_test_recently := recent;
     encrypt_data := encrypt;
     decrypt_data := decrypt;
     sign_data := sign;
     MIN_HEARING_TEST_AUDIO_INDEX := 0;
     MAX_HEARING_TEST_AUDIO_INDEX := 7;
     HEARING_TEST_AUDIO_FILES_PER_TONES := 2 |}.

Definition configuration : Configuration :=
  {| obtain_consent := true;
     hearing_screening_test_enabled := true;
     max_hearing_test_attempts := 2;
     hearing_test_rejection_enabled := true;
     pre_test_survey_enabled := true;
     pre_test_survey_inclusion_criteria := JStr "headphones" |}.

Definition newcomer : Participant :=
  {| gave_consent := false;
     hearing_test_attempts := 0;
     passed_hearing_test := None;
     hearing_test_last_attempt := None;
     pre_test_survey := None;
     post_test_survey := None;
     hearing_response_estimation := None |}.

(** Consent given, hearing test passed at the first attempt. *)
Definition screened (survey : option json) : Participant :=
  {| gave_consent := true;
     hearing_test_attempts := 1;
     passed_hearing_test := Some true;
     hearing_test_last_attempt := Some 100;
     pre_test_survey := survey;
     post_test_survey := None;
     hearing_response_estimation := None |}.

(** Consent given, [attempts] failed attempts at the hearing test. *)
Definition failed (attempts : Z) : Participant :=
  {| gave_consent := true;
     hearing_test_attempts := attempts;
     passed_hearing_test := Some false;
     hearing_test_last_attempt := Some 100;
     pre_test_survey := None;
     post_test_survey := None;
     hearing_response_estimation := None |}.

(** A visit of participant 5 with the session that [create_participant]
    leaves. *)
Definition visit (row : Participant) (extra : list (string * pyval)) : World :=
  {| session := list_to_map (("participant_id", PyInt 5) :: extra);
     participants := {[ 5 := row ]};
     trials := [];
     log := [];
     flashes := [] |}.

Definition oracle (ids : option (list Z)) (pairs : nat -> Z * Z) : Oracle :=
  {| assign_conditions := Ok ids;
     commit_succeeds := true;
     primary_key := fun k => 1 + Z.of_nat k;
     now := 200;
     randint_pairs := pairs |}.

(** The same request a day later. *)
Definition a_day_later (o : Oracle) : Oracle :=
  {| assign_conditions := assign_conditions o;
     commit_succeeds := commit_succeeds o;
     primary_key := primary_key o;
     now := now o + 86400;
     randint_pairs := randint_pairs o |}.

(** The same configuration with rejection at the hearing test disabled. *)
Definition lenient : Configuration :=
  {| obtain_consent := true;
     hearing_screening_test_enabled := true;
     max_hearing_test_attempts := 2;
     hearing_test_rejection_enabled := false;
     pre_test_survey_enabled := true;
     pre_test_survey_inclusion_criteria := JStr "headphones" |}.

(** A generator that draws (3, 3) twice and (3, 5) from then on, and one
    that always draws (3, 5). *)
Definition third_time_lucky (k : nat) : Z * Z :=
  if (k <? 2)%nat then (3, 3) else (3, 5).
Definition three_five (k : nat) : Z * Z := (3, 5).

(** A challenge with the indices 3 and 5 in the session: one and two tones. *)
Definition challenged (row : Participant) : World :=
  visit row [("hearing_test_audio_index1", PyStr (encrypt 3));
             ("hearing_test_audio_index2", PyStr (encrypt 5))].

Definition answers (tones1 tones2 : string) : gmap string string :=
  {[ "audiofile1_tones" := tones1; "audiofile2_tones" := tones2 ]}.

(** Surveys that meet and do not meet the criteria of [configuration]. *)
Definition with_headphones : json := JObj [("headphones", JStr "yes")].
Definition without_headphones : json := JObj [("age", JStr "30")].

(** A visit to which condition 1 alone was assigned, and submissions by
    participants 5 and 6 of one result, for condition 2. *)
Definition assigned_one : World :=
  visit (screened (Some with_headphones)) [("condition_ids", PyIntList [1])].

Definition submission (participant : string) : Submission :=
  {| participant_id_value := Some participant;
     completedConditionData :=
       Some (Some (JArr [JObj [("conditionID", JNum 2); ("ratings", JArr [JNum 80])]])) |}.

(** A session that names participant 7, of whom the table has no row. *)
Definition dangling : World :=
  {| session := {[ "participant_id" := PyInt 7 ]};
     participants := {[ 5 := newcomer ]};
     trials := [];
     log := [];
     flashes := [] |}.

End Sample.

(** ** More of Python: comparison, membership, subscripts *)

Module PyOps.

(** [a == b]. Values of different types are not equal; two dicts are equal
    when they have as many items and every item of one is in the other. *)
Fixpoint py_eqb (a b : pyval) : bool :=
  match a, b with
  | PyNone, PyNone => true
  | PyInt m, PyInt n => m =? n
  | PyStr s, PyStr t => String.eqb s t
  | PyIntList l, PyIntList l' =>
      (length l =? length l')%nat && forallb (fun mn => mn.1 =? mn.2) (combine l l')
  | PyDict d, PyDict d' =>
      (length d =? length d')%nat
      && forallb (fun kv => match kv with
                            | (k, v) => match assoc k d' with
                                        | Some v' => py_eqb v v'
                                        | None => false
                                        end
                            end) d
  | _, _ => false
  end.

(** [needle in hay] on strings. *)
Fixpoint contains (hay needle : string) : bool :=
  String.prefix needle hay
  || match hay with
     | EmptyString => false
     | String _ rest => contains rest needle
     end.

(** [x in container]. *)
Definition py_in (x container : pyval) : result bool :=
  match container with
  | PyIntList l => Ok (existsb (fun n => py_eqb x (PyInt n)) l)
  | PyDict d =>
      match x with
      | PyStr k => Ok (bool_decide (is_Some (assoc k d)))
      | PyNone | PyInt _ => Ok false
      | PyIntList _ | PyDict _ => Raise TypeError
      end
  | PyStr s =>
      match x with
      | PyStr t => Ok (contains s t)
      | _ => Raise TypeError
      end
  | PyNone | PyInt _ => Raise TypeError
  end.

(** [v[key]] with a string key, on a session value. *)
Definition py_getitem (v : pyval) (key : string) : result pyval :=
  match v with
  | PyDict d =>
      match assoc key d with
      | Some x => Ok x
      | None => Raise (KeyError key)
      end
  | _ => Raise TypeError
  end.

(** [session[key]]. *)
Definition session_getitem (s : gmap string pyval) (key : string) : result pyval :=
  match s !! key with
  | Some v => Ok v
  | None => Raise (KeyError key)
  end.

(** [request.args.get(key, default)]. *)
Definition args_get (args : gmap string string) (key : string) (default : pyval)
  : pyval :=
  match args !! key with
  | Some v => PyStr v
  | None => default
  end.

(** Python 2 [a % b] on integers: the sign of the divisor. *)
Definition modulo (a b : Z) : result Z :=
  if b =? 0 then Raise ZeroDivisionError else Ok (a mod b).

End PyOps.
Export PyOps.

(** ** The other views *)

(** The keys of [CONFIGURATION] that the entry views and
    [post_evaluation_tasks] read. *)
Record Options := {
  anonymous_participants_enabled : bool;
  acceptable_browsers : option (list string);
  begin_button_enabled : bool;
  hearing_response_estimation_enabled : bool;
  post_test_survey_enabled : bool
}.

(** Code of [models] and of the standard library that these views call:
    the columns that [Participant(participant_type, crowd_worker_id=...,
    ip_address=...)] gives a new row, and [urlparse.urljoin]. *)
Class Platform := {
  Participant_ : string -> string -> string -> Participant;
  urljoin : string -> string -> string
}.

(** The identity columns of a participant row. *)
Record Identity := {
  participant_type : string;
  crowd_worker_id : string;
  ip_address : string
}.

(** [url_for(endpoint, **values)]. *)
Record target := {
  endpoint : string;
  values : list (string * pyval)
}.

(** What the entry views return: a page or redirect without arguments; a
    redirect to a URL built from values and from the arguments of a request
    ([**request.args]); or a template that is given a link (the empty string
    when [None]), built likewise, and those arguments as further context.
    The other variables of the templates are values of the configuration. *)
Inductive reply :=
| Plain (r : response)
| RedirectTo (t : target) (args : gmap string string)
| RenderLink (template : string) (link : option target) (args : gmap string string).

(** What [hearing_test_audio] opens: the calibration tone, or the file
    [tones<num_tones>_<file_num>.wav]. *)
Inductive audio_file :=
| Calibration
| Tones (num_tones file_num : Z).

Definition clear_session (w : World) : World :=
  {| session := ∅; participants := participants w;
     trials := trials w; log := log w; flashes := flashes w |}.

(** [json.dumps(request.form)], as the document it denotes. *)
Definition form_document (form : gmap string string) : json :=
  JObj (map (fun kv => (kv.1, JStr kv.2)) (map_to_list form)).

Definition with_pre_test_survey (answers : json) (row : Participant) : Participant :=
  {| gave_consent := gave_consent row;
     hearing_test_attempts := hearing_test_attempts row;
     passed_hearing_test := passed_hearing_test row;
     hearing_test_last_attempt := hearing_test_last_attempt row;
     pre_test_survey := Some answers;
     post_test_survey := post_test_survey row;
     hearing_response_estimation := hearing_response_estimation row |}.

Definition with_post_test_survey (answers : json) (row : Participant) : Participant :=
  {| gave_consent := gave_consent row;
     hearing_test_attempts := hearing_test_attempts row;
     passed_hearing_test := passed_hearing_test row;
     hearing_test_last_attempt := hearing_test_last_attempt row;
     pre_test_survey := pre_test_survey row;
     post_test_survey := Some answers;
     hearing_response_estimation := hearing_response_estimation row |}.

Definition with_hearing_response_estimation (answers : json) (row : Participant)
  : Participant :=
  {| gave_consent := gave_consent row;
     hearing_test_attempts := hearing_test_attempts row;
     passed_hearing_test := passed_hearing_test row;
     hearing_test_last_attempt := hearing_test_last_attempt row;
     pre_test_survey := pre_test_survey row;
     post_test_survey := post_test_survey row;
     hearing_response_estimation := Some answers |}.

(** [participant.column = value]: the rendered page takes no attribute. *)
Definition assign (update : Participant -> Participant) (c : current) : result current :=
  match c with
  | Found id row => Ok (Found id (update row))
  | Page _ => Raise AttributeError
  end.

(** [x is None]. *)
Definition is_none {A} (x : option A) : bool :=
  match x with
  | None => true
  | Some _ => false
  end.

(** [s] between double quotes. *)
Definition quoted (s : string) : string :=
  String "034" (s ++ String "034" EmptyString)%string.

(** The message of [begin] for a browser that is not accepted. *)
Definition browser_not_supported : string :=
  ("We're sorry, but your web browser is not supported. Please try again using <a href="
   ++ quoted "http://www.google.com/chrome" ++ " target=" ++ quoted "_blank"
   ++ ">Chrome</a>.")%string.

Module Route.
Section Views.
Context `{Collaborators} `{Platform}.
Variable CONFIGURATION : Configuration.
Variable OPTIONS : Options.

(** [participant.column = json.dumps(request.form); db.session.commit()]. *)
Definition store_form (update : json -> Participant -> Participant)
    (form : gmap string string) (o : Oracle) (w : World) : result unit * World :=
  let '(got, w) := get_current_participant w in
  match participant <- got ;; assign (update (form_document form)) participant with
  | Raise e => (Raise e, w)
  | Ok participant => commit_participant o participant w
  end.

(** [redirect(url_for('end', platform=session.get('platform', None), ...))].
    The route is [/end/<platform>]: [url_for] leaves out a value that is
    [None], and cannot build the URL without the platform. *)
Definition redirect_to_end (w : World) : result reply :=
  match default PyNone (session w !! "platform") with
  | PyNone => Raise (BuildError "end")
  | platform => Ok (RedirectTo {| endpoint := "end";
                                  values := [("platform", platform)] |} ∅)
  end.

(** [post_evaluation_tasks()]. *)
Definition post_evaluation_tasks (w : World) : result reply * World :=
  let '(got, w) := get_current_participant w in
  match got with
  | Raise e => (Raise e, w)
  | Ok participant =>
      (estimation_due <- and_then (hearing_response_estimation_enabled OPTIONS)
                           (v <- attr hearing_response_estimation participant ;;
                            Ok (is_none v)) ;;
       if estimation_due : bool
       then Ok (Plain (Redirect "hearing_response_estimation")) else
       survey_due <- and_then (post_test_survey_enabled OPTIONS)
                       (v <- attr post_test_survey participant ;;
                        Ok (is_none v)) ;;
       if survey_due : bool then Ok (Plain (Redirect "post_test_survey")) else
       redirect_to_end w,
       w)
  end.

(** [pre_test_survey()]. *)
Definition pre_test_survey (method : http_method) (form : gmap string string)
    (o : Oracle) (w : World) : result response * World :=
  match method with
  | POST =>
      let '(stored, w) := store_form with_pre_test_survey form o w in
      match stored with
      | Raise e => (Raise e, w)
      | Ok _ =>
          if is_pre_test_survey_valid (form_document form)
               (pre_test_survey_inclusion_criteria CONFIGURATION)
          then pre_evaluation_tasks CONFIGURATION o w
          else (Ok (Sorry inclusion_criteria_not_met), w)
      end
  | GET => (Ok (Render "pre_test_survey.html"), w)
  end.


(** [hearing_response_estimation()] at [request.method == 'POST']. *)
Definition hearing_response_estimation (form : gmap string string)
    (o : Oracle) (w : World) : result reply * World :=
  let '(stored, w) := store_form with_hearing_response_estimation form o w in
  match stored with
  | Raise e => (Raise e, w)
  | Ok _ => post_evaluation_tasks w
  end.

(** [post_test_survey()]. *)
Definition post_test_survey (method : http_method) (form : gmap string string)
    (o : Oracle) (w : World) : result reply * World :=
  match method with
  | POST =>
      let '(stored, w) := store_form with_post_test_survey form o w in
      match stored with
      | Raise e => (Raise e, w)
      | Ok _ => post_evaluation_tasks w
      end
  | GET => (Ok (Plain (Render "post_test_survey.html")), w)
  end.

(** [end(platform)]. *)
Definition end_ (platform : string) : response :=
  if String.eqb platform "mturk" then Render "mturk/end.html" else Render "end.html".

(** The first row of the participant table with this [crowd_worker_id]. *)
Definition find_worker (worker : string) (directory : list (Z * Identity))
  : option Z :=
  fst <$> List.find (fun row => String.eqb (crowd_worker_id row.2) worker) directory.

(** [create_participant(participant_type, crowd_worker_id)]; [directory] has
    the identity columns of the participant table, in the order of the rows. *)
Definition create_participant (type worker remote_addr : string)
    (args : gmap string string) (o : Oracle) (w : World)
    (directory : list (Z * Identity))
  : result response * World * list (Z * Identity) :=
  let w := clear_session w in
  let enter (id : Z) (w : World) (directory : list (Z * Identity)) :=
    let w := set_session "participant_id" (PyInt id) w in
    let w := set_session "crowd_data"
               (PyDict [("hit_id", args_get args "hitId" PyNone);
                        ("assignment_id",
                         args_get args "assignmentId" (PyStr "ASSIGNMENT_ID_NOT_AVAILABLE"));
                        ("turk_submit_to",
                         args_get args "turkSubmitTo" (PyStr "TURK_SUBMIT_TO_NOT_AVAILABLE"))])
               w in
    (pre_evaluation_tasks CONFIGURATION o w, directory) in
  match find_worker worker directory with
  | None =>
      if commit_succeeds o then
        let id := primary_key o 0 in
        let w := set_participant id (Participant_ type worker remote_addr) w in
        let directory :=
          directory ++ [(id, {| participant_type := type; crowd_worker_id := worker;
                                ip_address := remote_addr |})] in
        let '(answer, directory) := enter id (logger (LogInfo "New Participant") w) directory in
        (answer.1, answer.2, directory)
      else (Raise DatabaseError, w, directory)
  | Some id =>
      let '(answer, directory) :=
        enter id (logger (LogInfo "Participant has returned") w) directory in
      (answer.1, answer.2, directory)
  end.

(** [anonymous()]. *)
Definition anonymous (args : gmap string string) : result reply * list log_entry :=
  match int_of_pyval (args_get args "preview" (PyInt 0)) with
  | Raise e => (Raise e, [])
  | Ok preview =>
      if negb (anonymous_participants_enabled OPTIONS) then
        (Ok (Plain (Sorry "This experiment is currently closed to anonymous participants.")),
         [LogInfo "Anonymous participant attempted access, but anonymous participants is disabled."])
      else
        (Ok (RedirectTo
               {| endpoint := "begin";
                  values := [("platform", PyStr "anonymous");
                             ("preview", PyInt preview);
                             ("submission_url", PyStr "");
                             ("crowd_worker_id", PyStr "ANONYMOUS");
                             ("crowd_assignment_id", PyNone);
                             ("crowd_assignment_type", PyNone)] |} ∅),
         [])
  end.

(** [request.args[key]]. *)
Definition args_getitem (args : gmap string string) (key : string) : result string :=
  match args !! key with
  | Some v => Ok v
  | None => Raise (BadRequestKeyError key)
  end.

(** [mturk()]. *)
Definition mturk (args : gmap string string) : result reply :=
  assignmentId <- args_getitem args "assignmentId" ;;
  if String.eqb assignmentId "ASSIGNMENT_ID_NOT_AVAILABLE"
     || py_eqb (args_get args "workerId" (PyStr "WORKER_ID_NOT_AVAILABLE"))
          (PyStr "WORKER_ID_NOT_AVAILABLE")
  then
    Ok (RedirectTo
          {| endpoint := "begin";
             values := [("platform", PyStr "mturk");
                        ("crowd_worker_id", PyStr "WORKER_ID_NOT_AVAILABLE");
                        ("submission_url", PyNone);
                        ("crowd_assignment_id", PyNone);
                        ("crowd_assignment_type", PyNone);
                        ("preview", PyInt 1)] |} ∅)
  else
    Ok (RedirectTo
          {| endpoint := "begin";
             values := [("platform", PyStr "mturk");
                        ("crowd_worker_id",
                         args_get args "workerId" (PyStr "WORKER_ID_NOT_AVAILABLE"));
                        ("submission_url",
                         PyStr (urljoin
                                  (default "TURK_SUBMIT_TO_NOT_AVAILABLE"
                                     (args !! "turkSubmitTo"))
                                  "mturk/externalSubmit"));
                        ("crowd_assignment_id",
                         args_get args "assignmentId" (PyStr "ASSIGNMENT_ID_NOT_AVAILABLE"));
                        ("crowd_assignment_type", args_get args "hitId" PyNone);
                        ("preview", PyInt 0)] |} ∅).

(** A call with the keywords [names] and [**request.args]: an argument of
    the request that is named like one of them is a [TypeError]. *)
Definition collides (names : list string) (args : gmap string string) : bool :=
  existsb (fun name => bool_decide (is_Some (args !! name))) names.

(** [url_for('create_participant', participant_type=platform,
    crowd_worker_id=crowd_worker_id, _external=True, _scheme=URL_SCHEME,
    **request.args)]. *)
Definition create_participant_url (platform worker : string)
    (args : gmap string string) : result target :=
  if collides ["endpoint"; "participant_type"; "crowd_worker_id"; "_external"; "_scheme"]
       args
  then Raise TypeError
  else Ok {| endpoint := "create_participant";
             values := [("participant_type", PyStr platform);
                        ("crowd_worker_id", PyStr worker)] |}.

(** [begin(platform, crowd_worker_id)], for the browser of the request
    ([None] when unknown) and the count of the available conditions. *)
Definition begin (platform worker : string) (browser : option string)
    (available : Z) (args : gmap string string) : result reply :=
  if match acceptable_browsers OPTIONS, browser with
     | None, _ => false
     | Some accepted, Some b => negb (existsb (String.eqb b) accepted)
     | Some accepted, None => true
     end
  then Ok (Plain (Sorry browser_not_supported))
  else if available =? 0
  then Ok (Plain (Sorry "We're sorry, but there are no more tasks available."))
  else
    preview <- int_of_pyval (args_get args "preview" (PyInt 0)) ;;
    if negb (preview =? 0) then
      if collides ["template_name_or_list"; "link"; "preview_html"] args
      then Raise TypeError
      else Ok (RenderLink "preview.html" None args)
    else if begin_button_enabled OPTIONS then
      if String.eqb platform "mturk" then
        link <- create_participant_url platform worker args ;;
        if collides ["template_name_or_list"; "link"; "width"; "height";
                     "worker_id"; "assignment_id"; "hit_id"] args
        then Raise TypeError
        else Ok (RenderLink "mturk/begin.html" (Some link) args)
      else
        link <- create_participant_url platform worker args ;;
        if collides ["template_name_or_list"; "link"; "width"; "height"] args
        then Raise TypeError
        else Ok (RenderLink "begin.html" (Some link) args)
    else
      link <- create_participant_url platform worker args ;;
      Ok (RedirectTo link args).

(** [audio(audio_file_key)]: the value given to [send_from_directory]. *)
Definition audio (audio_file_key : string) (w : World) : result pyval :=
  audio_file_dict <- decrypt_data (PyStr audio_file_key) ;;
  p_id <- py_getitem audio_file_dict "p_id" ;;
  participant_id <- session_getitem (session w) "participant_id" ;;
  if negb (py_eqb p_id participant_id) then Raise AssertionError else
  c_id <- py_getitem audio_file_dict "c_id" ;;
  condition_ids <- session_getitem (session w) "condition_ids" ;;
  assigned <- py_in c_id condition_ids ;;
  if negb assigned then Raise AssertionError else
  py_getitem audio_file_dict "URL".

(** [hearing_test_audio(example_num)]: the file it opens. *)
Definition hearing_test_audio (example_num : string) (w : World)
  : result audio_file * World :=
  if String.eqb example_num "0" then (Ok Calibration, w)
  else
    match
      token <- session_getitem (session w) ("hearing_test_audio_index" ++ example_num) ;;
      hearing_test_audio_index <- decoded_index token ;;
      num_tones <- floordiv hearing_test_audio_index HEARING_TEST_AUDIO_FILES_PER_TONES ;;
      file_num <- modulo hearing_test_audio_index HEARING_TEST_AUDIO_FILES_PER_TONES ;;
      Ok (Tones num_tones file_num)
    with
    | Raise e => (Raise e, w)
    | Ok file => (Ok file, logger (LogInfo "hearing_test") w)
    end.

End Views.
End Route.

(** The reply holds a link or a redirect to [t]. *)
Definition offers (r : reply) (t : target) : Prop :=
  (exists args, r = RedirectTo t args)
  \/ (exists template args, r = RenderLink template (Some t) args).

(** The browser of the request passes the check of [begin]. *)
Definition browser_accepted (OPTIONS : Options) (browser : option string) : Prop :=
  match acceptable_browsers OPTIONS with
  | None => True
  | Some accepted => exists b, browser = Some b /\ b ∈ accepted
  end.

(** *** Trial statistics *)

(** [counts[condition_id] += 1]. *)
Definition count_one (condition : Z) (counts : gmap Z Z) : result (gmap Z Z) :=
  match counts !! condition with
  | Some n => Ok (<[condition := n + 1]> counts)
  | None => Raise (KeyError (pretty condition))
  end.

(** The loop over the trials, for the two dicts of counts. *)
Fixpoint count_trials (all : list (Z * Trial)) (passed failed : gmap Z Z)
  : result (gmap Z Z * gmap Z Z) :=
  match all with
  | [] => Ok (passed, failed)
  | (_, trial) :: rest =>
      if default false (participant_passed_hearing_test trial) then
        passed <- count_one (condition_id trial) passed ;;
        count_trials rest passed failed
      else
        failed <- count_one (condition_id trial) failed ;;
        count_trials rest passed failed
  end.

(** [dict[key]] on a dict of counts. *)
Definition count_of (counts : gmap Z Z) (condition : Z) : result Z :=
  match counts !! condition with
  | Some n => Ok n
  | None => Raise (KeyError (pretty condition))
  end.

(** The list comprehension that makes the rows. *)
Fixpoint stat_rows (ids : list Z) (passed failed : gmap Z Z)
  : result (list (Z * Z * Z)) :=
  match ids with
  | [] => Ok []
  | i :: rest =>
      p <- count_of passed i ;;
      f <- count_of failed i ;;
      rows <- stat_rows rest passed failed ;;
      Ok ((i, p, f) :: rows)
  end.

(** The number of trials of a condition whose participant had passed
    ([true]) or had not passed ([false]) the hearing test. *)
Definition tally (passed : bool) (condition : Z) (all : list (Z * Trial)) : Z :=
  Z.of_nat
    (length
       (List.filter
          (fun kt => (condition_id kt.2 =? condition)
                     && Bool.eqb (default false (participant_passed_hearing_test kt.2))
                          passed)
          all)).

(** [admin_stats()], for the ids of [Condition.query.all()]: the rows given
    to the template, as (condition, passed, failed). *)
Definition admin_stats (conditions : list Z) (w : World)
  : result (list (Z * Z * Z)) :=
  let passed_hearing_condition_count : gmap Z Z :=
    list_to_map (map (fun cond => (cond, 0)) conditions) in
  let failed_hearing_condition_count : gmap Z Z :=
    list_to_map (map (fun cond => (cond, 0)) conditions) in
  counts <- count_trials (trials w) passed_hearing_condition_count
              failed_hearing_condition_count ;;
  let ids := merge_sort Z.le (map fst (map_to_list counts.1)) in
  stat_rows ids counts.1 counts.2.

(** ** Sample platform, options and tables, for closed examples *)

Module Tour.
Import Sample.

(** A new row is the row of a newcomer; URLs are joined with a slash. *)
Definition platform : Platform :=
  {| Participant_ := fun _ _ _ => newcomer;
     urljoin := fun base url => (base ++ "/" ++ url)%string |}.

Definition options : Options :=
  {| anonymous_participants_enabled := true;
     acceptable_browsers := Some ["chrome"; "firefox"];
     begin_button_enabled := true;
     hearing_response_estimation_enabled := true;
     post_test_survey_enabled := true |}.

(** The identity columns of the table of [visit]: worker W5 is participant 5. *)
Definition directory : list (Z * Identity) :=
  [(5, {| participant_type := "mturk"; crowd_worker_id := "W5";
          ip_address := "10.0.0.5" |})].

(** The oracle of a request whose commit gives the new row the key 9. *)
Definition registrar : Oracle :=
  {| assign_conditions := Ok (Some [1]);
     commit_succeeds := true;
     primary_key := fun k => 9 + Z.of_nat k;
     now := 300;
     randint_pairs := three_five |}.

(** Collaborators whose keys decode to the file of participant 5 and
    condition 1. *)
Definition file_key : pyval :=
  PyDict [("p_id", PyInt 5); ("c_id", PyInt 1); ("URL", PyStr "stimuli/a.wav")].

Definition keyholders : Collaborators :=
  {| is_pre_test_survey_valid := valid;
     decrypt_audio_stimuli := Ok;
     has_passed_hearing_test_recently := recent;
     encrypt_data := encrypt;
     decrypt_data := fun _ => Ok file_key;
     sign_data := sign;
     MIN_HEARING_TEST_AUDIO_INDEX := 0;
     MAX_HEARING_TEST_AUDIO_INDEX := 7;
     HEARING_TEST_AUDIO_FILES_PER_TONES := 2 |}.

(** Collaborators whose [decrypt_data] answers 0 for [None]. *)
Definition forgiving : Collaborators :=
  {| is_pre_test_survey_valid := valid;
     decrypt_audio_stimuli := Ok;
     has_passed_hearing_test_recently := recent;
     encrypt_data := encrypt;
     decrypt_data := fun token =>
                       match token with
                       | PyNone => Ok (PyInt 0)
                       | _ => decrypt token
                       end;
     sign_data := sign;
     MIN_HEARING_TEST_AUDIO_INDEX := 0;
     MAX_HEARING_TEST_AUDIO_INDEX := 7;
     HEARING_TEST_AUDIO_FILES_PER_TONES := 2 |}.

(** The arguments of a request of a worker who has accepted the HIT. *)
Definition accepted_hit : gmap string string :=
  {[ "assignmentId" := "A1"; "workerId" := "W5"; "hitId" := "H1" ]}.

(** The row of a participant who has finished the evaluation and the
    hearing response estimation. *)
Definition estimated : Participant :=
  with_hearing_response_estimation (JObj []) (screened (Some with_headphones)).

Definition trial_of (condition : Z) (passed : option bool) : Trial :=
  {| participant_id := 5; condition_id := condition; data := JObj [];
     crowd_data := PyNone; participant_passed_hearing_test := passed |}.

(** A trial table: two trials of condition 1, one of them by a participant
    who passed the hearing test, and then [last]. *)
Definition tried (last : list (Z * Trial)) : World :=
  {| session := ∅;
     participants := ∅;
     trials := [(1, trial_of 1 (Some true)); (2, trial_of 1 None)] ++ last;
     log := [];
     flashes := [] |}.

End Tour.

(** ** The workflow controller: next step *)

Section ControllerFacts.
Context `{Collaborators}.
Variable CONFIGURATION : Configuration.

Lemma get_current_participant_found w pid row :
  resolves w pid row -> get_current_participant w = (Ok (Found pid row), w).
Proof.
  intros [Hs Hp]. unfold get_current_participant. by rewrite Hs, Hp.
Qed.

Lemma pre_evaluation_tasks_found o w pid row ids :
  resolves w pid row ->
  assign_conditions o = Ok ids ->
  pre_evaluation_tasks CONFIGURATION o w =
    (Ok (if no_conditions ids then Sorry no_more_tasks_for_you
         else next_step CONFIGURATION (now o) row),
     set_session "condition_ids" (condition_ids_value ids) w).
Proof.
  intros Hr Ha. unfold pre_evaluation_tasks.
  rewrite (get_current_participant_found _ _ _ Hr), Ha.
  destruct (no_conditions ids); [done|].
  unfold next_step. f_equal.
  destruct (obtain_consent CONFIGURATION), (gave_consent row) eqn:?; simpl;
    rewrite ?Heqb; simpl; try done;
    destruct (hearing_screening_test_enabled CONFIGURATION),
      (has_passed_hearing_test_recently row (now o)); simpl; try done;
    destruct (pre_test_survey_enabled CONFIGURATION); simpl; try done;
    destruct (pre_test_survey row) as [answers|]; simpl; try done;
    by destruct (is_pre_test_survey_valid _ _).
Qed.

Lemma pre_evaluation_tasks_raises o w pid row e :
  resolves w pid row ->
  assign_conditions o = Raise e ->
  pre_evaluation_tasks CONFIGURATION o w = (Raise e, w).
Proof.
  intros Hr Ha. unfold pre_evaluation_tasks.
  by rewrite (get_current_participant_found _ _ _ Hr), Ha.
Qed.

(** C7, as the code has it. Two invocations of [pre_evaluation_tasks] for
    the same participant row, under the same configuration and with the same
    answer of the condition allocator, give the same result (the same
    redirect or page) when the participant's check of a recent pass of the
    hearing test answers the same at the two moments, whatever else the two
    sessions, the tables, the log and the oracles hold. Where that check
    decides the step (conditions assigned, consent not due, screening
    enabled), the two results are the same only then. *)
Theorem pre_evaluation_tasks_same_step o1 o2 w1 w2 pid row :
  resolves w1 pid row ->
  resolves w2 pid row ->
  assign_conditions o1 = assign_conditions o2 ->
  (has_passed_hearing_test_recently row (now o1)
     = has_passed_hearing_test_recently row (now o2) ->
   fst (pre_evaluation_tasks CONFIGURATION o1 w1)
     = fst (pre_evaluation_tasks CONFIGURATION o2 w2))
  /\ (forall ids,
        assign_conditions o1 = Ok ids -> no_conditions ids = false ->
        obtain_consent CONFIGURATION && negb (gave_consent row) = false ->
        hearing_screening_test_enabled CONFIGURATION = true ->
        fst (pre_evaluation_tasks CONFIGURATION o1 w1)
          = fst (pre_evaluation_tasks CONFIGURATION o2 w2) ->
        has_passed_hearing_test_recently row (now o1)
          = has_passed_hearing_test_recently row (now o2)).
Proof.
  intros H1 H2 Ha. split.
  - intros Hrecent. destruct (assign_conditions o1) as [ids|e] eqn:E1.
    + rewrite (pre_evaluation_tasks_found o1 w1 pid row ids H1 E1).
      rewrite (pre_evaluation_tasks_found o2 w2 pid row ids H2) by done.
      simpl. unfold next_step. by rewrite Hrecent.
    + rewrite (pre_evaluation_tasks_raises o1 w1 pid row e H1 E1).
      by rewrite (pre_evaluation_tasks_raises o2 w2 pid row e H2).
  - intros ids E1 Hno Hc Hen.
    rewrite (pre_evaluation_tasks_found o1 w1 pid row ids H1 E1).
    rewrite (pre_evaluation_tasks_found o2 w2 pid row ids H2) by (by rewrite <- Ha).
    simpl. rewrite Hno. unfold next_step. rewrite Hc, Hen. simpl.
    destruct (has_passed_hearing_test_recently row (now o1)),
      (has_passed_hearing_test_recently row (now o2)); simpl; try done;
      intros [= Hs]; repeat case_match; discriminate.
Qed.

Lemma next_step_has_tasks time row :
  next_step CONFIGURATION time row <> Sorry no_more_tasks_for_you.
Proof.
  unfold next_step.
  repeat (case_match; try discriminate).
Qed.

(** C8, as the code has it. Every invocation of [pre_evaluation_tasks]
    overwrites [session['condition_ids']] with the present answer of the
    allocator and leaves the other keys alone; the answer is the page "no
    more tasks" exactly when that answer is [None] or empty, so the workflow
    goes on only with a non-empty set. *)
Theorem pre_evaluation_tasks_assigns o w pid row ids :
  resolves w pid row ->
  assign_conditions o = Ok ids ->
  session (snd (pre_evaluation_tasks CONFIGURATION o w))
    = <["condition_ids" := condition_ids_value ids]> (session w)
  /\ (fst (pre_evaluation_tasks CONFIGURATION o w) = Ok (Sorry no_more_tasks_for_you)
      <-> ids = None \/ ids = Some [])
  /\ (fst (pre_evaluation_tasks CONFIGURATION o w) <> Ok (Sorry no_more_tasks_for_you)
      -> exists l, ids = Some l /\ l <> []
         /\ session (snd (pre_evaluation_tasks CONFIGURATION o w)) !! "condition_ids"
            = Some (PyIntList l)).
Proof.
  intros Hr Ha. rewrite (pre_evaluation_tasks_found o w pid row ids Hr Ha). simpl.
  assert (Hno : no_conditions ids = true <-> ids = None \/ ids = Some []).
  { destruct ids as [[|c l]|]; simpl.
    - split; [by right | done].
    - split; [done | intros [|]; done].
    - split; [by left | done]. }
  split; [done|]. split.
  - destruct (no_conditions ids) eqn:E.
    + split; [intros _; by apply Hno | done].
    + split.
      * intros [=Hs]. by destruct (next_step_has_tasks (now o) row).
      * intros Hi. apply Hno in Hi. discriminate.
  - intros Hne. destruct ids as [[|c l]|]; simpl in *; try done.
    exists (c :: l). split; [done|]. split; [done|]. by rewrite lookup_insert_eq.
Qed.

(** C9, as the code has it. With the pre-test survey enabled: the controller
    redirects to the survey only when none is recorded, and to the evaluation
    only when a recorded survey meets the inclusion criteria; once conditions
    are assigned and consent and hearing screening are not due, it redirects
    to the survey when none is recorded, answers the page "inclusion criteria
    not met" when the recorded one fails them, and goes to the evaluation
    otherwise. *)
Theorem pre_evaluation_tasks_survey_step o w pid row :
  resolves w pid row ->
  pre_test_survey_enabled CONFIGURATION = true ->
  (fst (pre_evaluation_tasks CONFIGURATION o w) = Ok (Redirect "pre_test_survey")
     -> pre_test_survey row = None)
  /\ (fst (pre_evaluation_tasks CONFIGURATION o w) = Ok (Redirect "evaluation")
     -> exists answers, pre_test_survey row = Some answers
          /\ is_pre_test_survey_valid answers
               (pre_test_survey_inclusion_criteria CONFIGURATION) = true)
  /\ (forall ids, assign_conditions o = Ok ids -> no_conditions ids = false ->
      obtain_consent CONFIGURATION && negb (gave_consent row) = false ->
      hearing_screening_test_enabled CONFIGURATION
        && negb (has_passed_hearing_test_recently row (now o)) = false ->
      fst (pre_evaluation_tasks CONFIGURATION o w)
        = Ok match pre_test_survey row with
             | None => Redirect "pre_test_survey"
             | Some answers =>
                 if is_pre_test_survey_valid answers
                      (pre_test_survey_inclusion_criteria CONFIGURATION)
                 then Redirect "evaluation"
                 else Sorry inclusion_criteria_not_met
             end).
Proof.
  intros Hr Hen.
  assert (Hstep : forall step,
    fst (pre_evaluation_tasks CONFIGURATION o w) = Ok (Redirect step) ->
    next_step CONFIGURATION (now o) row = Redirect step).
  { intros step. destruct (assign_conditions o) as [ids|e] eqn:Ha.
    - rewrite (pre_evaluation_tasks_found o w pid row ids Hr Ha). simpl.
      destruct (no_conditions ids); [discriminate | congruence].
    - by rewrite (pre_evaluation_tasks_raises o w pid row e Hr Ha). }
  split; [|split].
  - intros Hs. apply Hstep in Hs. unfold next_step in Hs. rewrite Hen in Hs.
    repeat (case_match; try discriminate). done.
  - intros Hs. apply Hstep in Hs. unfold next_step in Hs. rewrite Hen in Hs.
    repeat (case_match; try discriminate). eauto.
  - intros ids Ha Hno Hc Hh.
    rewrite (pre_evaluation_tasks_found o w pid row ids Hr Ha), Hno. simpl.
    unfold next_step. by rewrite Hc, Hh, Hen.
Qed.

End ControllerFacts.

(** ** Hearing screening: attempts, outcome, tokens *)

Section HearingTestFacts.
Context `{Collaborators}.
Variable CONFIGURATION : Configuration.

Lemma read_challenge_keeps w :
  session (read_challenge w).2 = session w
  /\ participants (read_challenge w).2 = participants w
  /\ trials (read_challenge w).2 = trials w.
Proof.
  unfold read_challenge. by repeat case_match.
Qed.

Lemma read_challenge_resolves w pid row :
  resolves w pid row -> resolves (read_challenge w).2 pid row.
Proof.
  intros [Hs Hp]. destruct (read_challenge_keeps w) as (Es & Ep & _).
  unfold resolves. by rewrite Es, Ep.
Qed.

Lemma read_challenge_present w token1 token2 :
  session w !! "hearing_test_audio_index1" = Some token1 ->
  session w !! "hearing_test_audio_index2" = Some token2 ->
  read_challenge w = (token1, token2, w).
Proof.
  intros H1 H2. unfold read_challenge. by rewrite H1, H2.
Qed.

Lemma read_challenge_missing w :
  session w !! "hearing_test_audio_index1" = None
  \/ session w !! "hearing_test_audio_index2" = None ->
  exists key,
    read_challenge w
      = (PyNone, PyNone, logger (LogError ("Invalid state - KeyError('" ++ key ++ "',)")%string) w)
    /\ session w !! key = None.
Proof.
  intros Hm. unfold read_challenge.
  destruct (session w !! "hearing_test_audio_index1") eqn:E1.
  - destruct (session w !! "hearing_test_audio_index2") eqn:E2.
    + by destruct Hm.
    + by exists "hearing_test_audio_index2".
  - by exists "hearing_test_audio_index1".
Qed.

Lemma pre_evaluation_tasks_keeps_tables o w :
  participants (snd (pre_evaluation_tasks CONFIGURATION o w)) = participants w
  /\ trials (snd (pre_evaluation_tasks CONFIGURATION o w)) = trials w.
Proof.
  unfold pre_evaluation_tasks, get_current_participant.
  by repeat case_match; simplify_eq.
Qed.

Lemma hearing_test_GET_exhausted fuel form o w pid row :
  resolves w pid row ->
  max_hearing_test_attempts CONFIGURATION <= hearing_test_attempts row ->
  hearing_test CONFIGURATION fuel GET form o w
    = Some (Ok (Sorry attempts_exceeded),
            logger (LogInfo "Max hearing test attempts reached") w).
Proof.
  intros Hr Hmax. unfold hearing_test.
  rewrite (get_current_participant_found _ _ _ Hr). simpl.
  destruct (Z.geb_spec (hearing_test_attempts row)
              (max_hearing_test_attempts CONFIGURATION)); [done | lia].
Qed.

Lemma hearing_test_POST_raises fuel form o w pid row e :
  resolves w pid row ->
  tone_counts_match form (read_challenge w).1.1 (read_challenge w).1.2 = Raise e ->
  hearing_test CONFIGURATION fuel POST form o w = Some (Raise e, (read_challenge w).2).
Proof.
  intros Hr Hm. unfold hearing_test.
  rewrite (get_current_participant_found _ _ _ Hr).
  destruct (read_challenge w) as [[token1 token2] w1]. simpl in *. by rewrite Hm.
Qed.

Lemma hearing_test_POST_passed fuel form o w pid row :
  resolves w pid row ->
  tone_counts_match form (read_challenge w).1.1 (read_challenge w).1.2 = Ok true ->
  commit_succeeds o = true ->
  hearing_test CONFIGURATION fuel POST form o w
    = Some (pre_evaluation_tasks CONFIGURATION o
              (set_participant pid (set_passed_hearing_test true (now o) row)
                 (logger (LogInfo "Hearing test passed") (read_challenge w).2))).
Proof.
  intros Hr Hm Hc. unfold hearing_test.
  rewrite (get_current_participant_found _ _ _ Hr).
  destruct (read_challenge w) as [[token1 token2] w1]. simpl in *. rewrite Hm.
  simpl. unfold commit_participant. by rewrite Hc.
Qed.

Lemma hearing_test_POST_failed fuel form o w pid row :
  resolves w pid row ->
  tone_counts_match form (read_challenge w).1.1 (read_challenge w).1.2 = Ok false ->
  commit_succeeds o = true ->
  hearing_test CONFIGURATION fuel POST form o w
    = if hearing_test_attempts row + 1 <? max_hearing_test_attempts CONFIGURATION
      then Some (Ok (Redirect "hearing_test"),
                 flash answered_incorrectly (failed_attempt o pid row w))
      else if negb (hearing_test_rejection_enabled CONFIGURATION)
      then Some (pre_evaluation_tasks CONFIGURATION o
                   (logger (LogInfo "Hearing test rejection enabled. Passing failed participant to evaluation.")
                      (failed_attempt o pid row w)))
      else Some (Ok (Redirect "hearing_test"), failed_attempt o pid row w).
Proof.
  intros Hr Hm Hc. unfold hearing_test, failed_attempt.
  rewrite (get_current_participant_found _ _ _ Hr).
  destruct (read_challenge w) as [[token1 token2] w1]. simpl in *. rewrite Hm.
  simpl. unfold commit_participant. rewrite Hc. simpl.
  by repeat case_match.
Qed.

Lemma failed_attempt_resolves o w pid row :
  resolves w pid row ->
  resolves (failed_attempt o pid row w) pid (set_passed_hearing_test false (now o) row).
Proof.
  intros [Hs Hp]. destruct (read_challenge_keeps w) as (Es & _).
  unfold resolves, failed_attempt. simpl. rewrite Es. split; [done|].
  apply lookup_insert_eq.
Qed.

(** Exhausted attempts. For a participant whose attempts have reached the
    configured maximum, a GET of the hearing test issues no challenge and
    answers the page "attempts exceeded", whether rejection is enabled or not.
    A failed POST that brings the attempts to the maximum redirects to that
    GET, hence to that page, when rejection is enabled, and hands over to the
    workflow controller when it is disabled. *)
Theorem hearing_test_attempts_exhausted fuel form o w pid row :
  resolves w pid row ->
  (max_hearing_test_attempts CONFIGURATION <= hearing_test_attempts row ->
   hearing_test CONFIGURATION fuel GET form o w
     = Some (Ok (Sorry attempts_exceeded),
             logger (LogInfo "Max hearing test attempts reached") w))
  /\ (tone_counts_match form (read_challenge w).1.1 (read_challenge w).1.2 = Ok false ->
      commit_succeeds o = true ->
      max_hearing_test_attempts CONFIGURATION <= hearing_test_attempts row + 1 ->
      if hearing_test_rejection_enabled CONFIGURATION
      then hearing_test CONFIGURATION fuel POST form o w
             = Some (Ok (Redirect "hearing_test"), failed_attempt o pid row w)
           /\ forall fuel' form' o',
               hearing_test CONFIGURATION fuel' GET form' o' (failed_attempt o pid row w)
                 = Some (Ok (Sorry attempts_exceeded),
                         logger (LogInfo "Max hearing test attempts reached")
                           (failed_attempt o pid row w))
      else hearing_test CONFIGURATION fuel POST form o w
             = Some (pre_evaluation_tasks CONFIGURATION o
                       (logger (LogInfo "Hearing test rejection enabled. Passing failed participant to evaluation.")
                          (failed_attempt o pid row w)))).
Proof.
  intros Hr. split.
  - intros Hmax. by apply (hearing_test_GET_exhausted _ _ _ _ pid row).
  - intros Hm Hc Hmax.
    rewrite (hearing_test_POST_failed fuel form o w pid row Hr Hm Hc).
    destruct (Z.ltb_spec (hearing_test_attempts row + 1)
                (max_hearing_test_attempts CONFIGURATION)); [lia|].
    destruct (hearing_test_rejection_enabled CONFIGURATION); simpl; [|done].
    split; [done|]. intros fuel' form' o'.
    apply (hearing_test_GET_exhausted _ _ _ _ pid
             (set_passed_hearing_test false (now o) row)).
    + by apply failed_attempt_resolves.
    + simpl. lia.
Qed.

Lemma logger_resolves entry w pid row :
  resolves w pid row -> resolves (logger entry w) pid row.
Proof. by intros [Hs Hp]. Qed.

Lemma set_condition_ids_resolves v w pid row :
  resolves w pid row -> resolves (set_session "condition_ids" v w) pid row.
Proof.
  intros [Hs Hp]. split; [|done]. simpl. by rewrite lookup_insert_ne.
Qed.

(** C4, where the code departs from it. With rejection disabled, a
    participant whose attempts have reached the maximum is not passed
    through: a GET of the hearing test answers the page "attempts exceeded",
    as it does with rejection enabled. The failed POST that brings the
    attempts to the maximum hands over to the workflow controller, which,
    with conditions assigned, consent not due, screening enabled and no
    recent pass of the participant who has just failed, redirects back to
    the hearing test, and every GET that follows answers that page. *)
Theorem hearing_test_lenient_not_passed_through fuel form o w pid row :
  resolves w pid row ->
  hearing_test_rejection_enabled CONFIGURATION = false ->
  (max_hearing_test_attempts CONFIGURATION <= hearing_test_attempts row ->
   hearing_test CONFIGURATION fuel GET form o w
     = Some (Ok (Sorry attempts_exceeded),
             logger (LogInfo "Max hearing test attempts reached") w))
  /\ (forall ids,
        tone_counts_match form (read_challenge w).1.1 (read_challenge w).1.2
          = Ok false ->
        commit_succeeds o = true ->
        max_hearing_test_attempts CONFIGURATION <= hearing_test_attempts row + 1 ->
        assign_conditions o = Ok ids ->
        no_conditions ids = false ->
        obtain_consent CONFIGURATION && negb (gave_consent row) = false ->
        hearing_screening_test_enabled CONFIGURATION = true ->
        has_passed_hearing_test_recently
          (set_passed_hearing_test false (now o) row) (now o) = false ->
        exists w',
          hearing_test CONFIGURATION fuel POST form o w
            = Some (Ok (Redirect "hearing_test"), w')
          /\ forall fuel' form' o',
               hearing_test CONFIGURATION fuel' GET form' o' w'
                 = Some (Ok (Sorry attempts_exceeded),
                         logger (LogInfo "Max hearing test attempts reached") w')).
Proof.
  intros Hr Hlenient. split.
  - intros Hmax. by apply (hearing_test_GET_exhausted _ _ _ _ pid row).
  - intros ids Hm Hc Hmax Ha Hno Hcon Hen Hrecent.
    rewrite (hearing_test_POST_failed fuel form o w pid row Hr Hm Hc).
    destruct (Z.ltb_spec (hearing_test_attempts row + 1)
                (max_hearing_test_attempts CONFIGURATION)); [lia|].
    rewrite Hlenient. simpl.
    set (row' := set_passed_hearing_test false (now o) row).
    set (w0 := logger _ (failed_attempt o pid row w)).
    assert (Hr0 : resolves w0 pid row')
      by apply logger_resolves, failed_attempt_resolves, Hr.
    rewrite (pre_evaluation_tasks_found CONFIGURATION o w0 pid row' ids Hr0 Ha), Hno.
    unfold next_step. change (gave_consent row') with (gave_consent row).
    fold row' in Hrecent. rewrite Hcon, Hen, Hrecent. simpl.
    eexists. split; [done|]. intros fuel' form' o'.
    apply (hearing_test_GET_exhausted _ _ _ _ pid row').
    + by apply set_condition_ids_resolves.
    + simpl. lia.
Qed.

Lemma hearing_test_POST_records fuel form o w pid row passed :
  resolves w pid row ->
  tone_counts_match form (read_challenge w).1.1 (read_challenge w).1.2 = Ok passed ->
  commit_succeeds o = true ->
  exists r w',
    hearing_test CONFIGURATION fuel POST form o w = Some (r, w')
    /\ participants w' !! pid = Some (set_passed_hearing_test passed (now o) row).
Proof.
  intros Hr Hm Hc. destruct passed.
  - rewrite (hearing_test_POST_passed fuel form o w pid row Hr Hm Hc).
    match goal with |- context [pre_evaluation_tasks _ _ ?w0] =>
      destruct (pre_evaluation_tasks_keeps_tables o w0) as [Hk _];
      destruct (pre_evaluation_tasks CONFIGURATION o w0) as [r w'] end.
    exists r, w'. split; [done|]. simpl in Hk. rewrite Hk. apply lookup_insert_eq.
  - rewrite (hearing_test_POST_failed fuel form o w pid row Hr Hm Hc).
    repeat case_match.
    + eexists _, _. split; [done|]. apply lookup_insert_eq.
    + match goal with |- context [pre_evaluation_tasks _ _ ?w0] =>
        destruct (pre_evaluation_tasks_keeps_tables o w0) as [Hk _];
        destruct (pre_evaluation_tasks CONFIGURATION o w0) as [r w'] end.
      exists r, w'. split; [done|]. simpl in Hk. rewrite Hk. apply lookup_insert_eq.
    + eexists _, _. split; [done|]. apply lookup_insert_eq.
Qed.

Lemma tone_counts_match_decoded form token1 token2 a1 a2 i1 i2 :
  reported_tones form "audiofile1_tones" = Ok a1 ->
  reported_tones form "audiofile2_tones" = Ok a2 ->
  decoded_index token1 = Ok i1 ->
  decoded_index token2 = Ok i2 ->
  HEARING_TEST_AUDIO_FILES_PER_TONES <> 0 ->
  tone_counts_match form token1 token2
    = Ok ((a1 =? i1 / HEARING_TEST_AUDIO_FILES_PER_TONES)
          && (a2 =? i2 / HEARING_TEST_AUDIO_FILES_PER_TONES)).
Proof.
  intros Ha1 Ha2 Hi1 Hi2 HK.
  unfold tone_counts_match, tones_match, expected_tones, floordiv.
  rewrite Ha1, Ha2, Hi1, Hi2. simpl.
  destruct (Z.eqb_spec HEARING_TEST_AUDIO_FILES_PER_TONES 0); [done|]. simpl.
  by destruct (a1 =? _).
Qed.

(** C5. A hearing-test POST whose two answers are integers and whose two
    stored tokens decode to the indices [i1] and [i2] records one more
    attempt, and records a pass exactly when both answers equal the index
    divided (integer division) by [HEARING_TEST_AUDIO_FILES_PER_TONES]; it
    records a failure when either differs. *)
Theorem hearing_test_records_pass_iff fuel form o w pid row token1 token2 a1 a2 i1 i2 :
  resolves w pid row ->
  session w !! "hearing_test_audio_index1" = Some token1 ->
  session w !! "hearing_test_audio_index2" = Some token2 ->
  reported_tones form "audiofile1_tones" = Ok a1 ->
  reported_tones form "audiofile2_tones" = Ok a2 ->
  decoded_index token1 = Ok i1 ->
  decoded_index token2 = Ok i2 ->
  HEARING_TEST_AUDIO_FILES_PER_TONES <> 0 ->
  commit_succeeds o = true ->
  exists r w' row',
    hearing_test CONFIGURATION fuel POST form o w = Some (r, w')
    /\ participants w' !! pid = Some row'
    /\ hearing_test_attempts row' = hearing_test_attempts row + 1
    /\ (passed_hearing_test row' = Some true
        <-> a1 = i1 / HEARING_TEST_AUDIO_FILES_PER_TONES
            /\ a2 = i2 / HEARING_TEST_AUDIO_FILES_PER_TONES)
    /\ (passed_hearing_test row' = Some false
        <-> a1 <> i1 / HEARING_TEST_AUDIO_FILES_PER_TONES
            \/ a2 <> i2 / HEARING_TEST_AUDIO_FILES_PER_TONES).
Proof.
  intros Hr Ht1 Ht2 Ha1 Ha2 Hi1 Hi2 HK Hc.
  pose proof (tone_counts_match_decoded form token1 token2 a1 a2 i1 i2
                Ha1 Ha2 Hi1 Hi2 HK) as Hm.
  assert (Hm' : tone_counts_match form (read_challenge w).1.1 (read_challenge w).1.2
                = Ok ((a1 =? i1 / HEARING_TEST_AUDIO_FILES_PER_TONES)
                      && (a2 =? i2 / HEARING_TEST_AUDIO_FILES_PER_TONES)))
    by (by rewrite (read_challenge_present w _ _ Ht1 Ht2)).
  destruct (hearing_test_POST_records fuel form o w pid row _ Hr Hm' Hc)
    as (r & w' & Hh & Hl).
  exists r, w', (set_passed_hearing_test
                   ((a1 =? i1 / HEARING_TEST_AUDIO_FILES_PER_TONES)
                    && (a2 =? i2 / HEARING_TEST_AUDIO_FILES_PER_TONES))
                   (now o) row).
  split; [done|]. split; [done|]. split; [done|]. simpl.
  destruct (Z.eqb_spec a1 (i1 / HEARING_TEST_AUDIO_FILES_PER_TONES)),
           (Z.eqb_spec a2 (i2 / HEARING_TEST_AUDIO_FILES_PER_TONES)); simpl;
    split; split; try done; try tauto; intros [=].
Qed.

Lemma tone_counts_match_first_raises form token1 token2 a1 e :
  reported_tones form "audiofile1_tones" = Ok a1 ->
  decoded_index token1 = Raise e ->
  tone_counts_match form token1 token2 = Raise e.
Proof.
  intros Ha Hd. unfold tone_counts_match, tones_match, expected_tones.
  by rewrite Ha, Hd.
Qed.

(** Exceptions of the comparison. A hearing-test POST whose session lacks
    a challenge token catches the [KeyError], logs the invalid state at error
    level and replaces both tokens by [None] before the comparison. An
    exception raised while the comparison is evaluated, as when the first
    token is decoded, is not caught: the request ends with that exception,
    and neither a failure nor an attempt is recorded. *)
Theorem hearing_test_decoding_not_caught fuel form o w pid row a1 :
  resolves w pid row ->
  reported_tones form "audiofile1_tones" = Ok a1 ->
  (session w !! "hearing_test_audio_index1" = None
   \/ session w !! "hearing_test_audio_index2" = None ->
   exists key,
     session w !! key = None
     /\ read_challenge w
        = (PyNone, PyNone,
           logger (LogError ("Invalid state - KeyError('" ++ key ++ "',)")%string) w))
  /\ (forall e,
        decoded_index (read_challenge w).1.1 = Raise e ->
        tone_counts_match form (read_challenge w).1.1 (read_challenge w).1.2 = Raise e)
  /\ (forall e,
        tone_counts_match form (read_challenge w).1.1 (read_challenge w).1.2 = Raise e ->
        hearing_test CONFIGURATION fuel POST form o w
          = Some (Raise e, (read_challenge w).2)
        /\ participants (read_challenge w).2 = participants w
        /\ session (read_challenge w).2 = session w).
Proof.
  intros Hr Ha. split; [|split].
  - intros Hm. destruct (read_challenge_missing w Hm) as (key & Hk & Hs).
    by exists key.
  - intros e Hd. by apply (tone_counts_match_first_raises _ _ _ a1).
  - intros e Hm. destruct (read_challenge_keeps w) as (Hs & Hp & _).
    split; [|done]. by apply (hearing_test_POST_raises _ _ _ _ pid row).
Qed.

(** C6, where the code departs from it. A hearing-test POST whose session
    lacks a challenge token catches the [KeyError], logs the invalid state
    and goes on to the comparison with [None] for both tokens: the attempt
    is not failed there. When decoding [None] raises, the request ends with
    that exception, and neither a failure nor an attempt is recorded. When
    decoding [None] gives an index, the answers are compared with it like
    any others, and the answers that match it record a pass. *)
Theorem hearing_test_missing_token_not_failed fuel form o w pid row a1 a2 :
  resolves w pid row ->
  session w !! "hearing_test_audio_index1" = None
  \/ session w !! "hearing_test_audio_index2" = None ->
  reported_tones form "audiofile1_tones" = Ok a1 ->
  reported_tones form "audiofile2_tones" = Ok a2 ->
  exists key,
    session w !! key = None
    /\ read_challenge w
       = (PyNone, PyNone,
          logger (LogError ("Invalid state - KeyError('" ++ key ++ "',)")%string) w)
    /\ (forall e,
          decoded_index PyNone = Raise e ->
          hearing_test CONFIGURATION fuel POST form o w
            = Some (Raise e,
                    logger (LogError ("Invalid state - KeyError('" ++ key ++ "',)")%string)
                      w))
    /\ (forall index,
          decoded_index PyNone = Ok index ->
          HEARING_TEST_AUDIO_FILES_PER_TONES <> 0 ->
          commit_succeeds o = true ->
          a1 = index / HEARING_TEST_AUDIO_FILES_PER_TONES ->
          a2 = index / HEARING_TEST_AUDIO_FILES_PER_TONES ->
          exists r w',
            hearing_test CONFIGURATION fuel POST form o w = Some (r, w')
            /\ participants w' !! pid
               = Some (set_passed_hearing_test true (now o) row)).
Proof.
  intros Hr Hmiss Ha1 Ha2.
  destruct (read_challenge_missing w Hmiss) as (key & Hrc & Hk).
  exists key. split; [done|]. split; [done|]. split.
  - intros e Hd.
    rewrite (hearing_test_POST_raises fuel form o w pid row e Hr); [by rewrite Hrc|].
    rewrite Hrc. simpl. by apply (tone_counts_match_first_raises _ _ _ a1).
  - intros index Hd HK Hc -> ->.
    apply (hearing_test_POST_records fuel form o w pid row true Hr); [|done].
    rewrite Hrc. simpl.
    rewrite (tone_counts_match_decoded form PyNone PyNone _ _ index index
               Ha1 Ha2 Hd Hd HK).
    by rewrite !Z.eqb_refl.
Qed.

(** *** The challenge loop *)

Lemma draw_indices_stops pairs n : forall fuel k,
  (pairs (k + n)%nat).1 <> (pairs (k + n)%nat).2 ->
  (n < fuel)%nat ->
  exists m, (m <= n)%nat
    /\ draw_indices fuel pairs k = Some (pairs (k + m)%nat)
    /\ (pairs (k + m)%nat).1 <> (pairs (k + m)%nat).2.
Proof.
  induction n as [|n IH]; intros fuel k Hd Hf.
  - destruct fuel as [|fuel]; [lia|]. exists 0%nat. simpl.
    rewrite Nat.add_0_r in *. destruct (pairs k) as [i1 i2]. simpl in *.
    destruct (Z.eqb_spec i1 i2); [done|]. simpl. by split.
  - destruct fuel as [|fuel]; [lia|]. simpl.
    destruct (pairs k) as [i1 i2] eqn:Ek.
    destruct (Z.eqb_spec i1 i2) as [Heq|Hne]; simpl.
    + destruct (IH fuel (S k)) as (m & Hm & Hs & Hd'); [|lia|].
      * by replace (S k + n)%nat with (k + S n)%nat by lia.
      * exists (S m). replace (k + S m)%nat with (S k + m)%nat by lia.
        split; [lia|]. by split.
    + exists 0%nat. rewrite Nat.add_0_r, Ek. simpl. split; [lia|]. by split.
Qed.

Lemma draw_indices_loops pairs :
  (forall k, (pairs k).1 = (pairs k).2) ->
  forall fuel k, draw_indices fuel pairs k = None.
Proof.
  intros Heq. induction fuel as [|fuel IH]; intros k; [done|]. simpl.
  specialize (Heq k). destruct (pairs k) as [i1 i2]. simpl in Heq. subst.
  rewrite Z.eqb_refl. simpl. apply IH.
Qed.

Lemma still_looping_from run : forall pre,
  match draw_indices (length run) (replay (pre ++ run)) (length pre) with
  | None => true
  | Some _ => false
  end = forallb same_index run.
Proof.
  induction run as [|p run IH]; intros pre; [done|]. simpl.
  unfold replay at 1. rewrite nth_middle.
  destruct p as [i1 i2]. unfold same_index at 1. simpl.
  destruct (i1 =? i2); simpl; [|done].
  specialize (IH (pre ++ [(i1, i2)])).
  by rewrite <- app_assoc, length_app, Nat.add_1_r in IH.
Qed.

Lemma still_looping_same_index run :
  still_looping run = forallb same_index run.
Proof. apply (still_looping_from run []). Qed.

Lemma filter_none {A} (l : list A) : List.filter (fun _ => false) l = [].
Proof. by induction l. Qed.

Lemma filter_list_prod {A B} (f : A -> bool) (g : B -> bool) l1 l2 :
  List.filter (fun ab => f ab.1 && g ab.2) (list_prod l1 l2)
    = list_prod (List.filter f l1) (List.filter g l2).
Proof.
  induction l1 as [|a l1 IH]; [done|]. simpl.
  rewrite List.filter_app, IH, filter_map_swap. simpl.
  destruct (f a); simpl; [done|]. by rewrite filter_none.
Qed.

Lemma filter_eqb_absent (a : Z) l : a ∉ l -> List.filter (Z.eqb a) l = [].
Proof.
  induction l as [|x l IH]; [done|]. intros Hn. simpl.
  apply not_elem_of_cons in Hn as [Hx Hl].
  destruct (Z.eqb_spec a x); [done|]. by apply IH.
Qed.

Lemma filter_eqb_once (a : Z) l :
  NoDup l -> a ∈ l -> length (List.filter (Z.eqb a) l) = 1%nat.
Proof.
  induction l as [|x l IH]; intros Hnd Hin.
  - by apply elem_of_nil in Hin.
  - apply NoDup_cons in Hnd as [Hx Hnd]. simpl.
    destruct (Z.eqb_spec a x) as [->|Hne].
    + by rewrite filter_eqb_absent.
    + apply elem_of_cons in Hin as [?|Hin]; [done|]. by apply IH.
Qed.

Lemma same_index_count l' : NoDup l' -> forall l,
  (forall a, a ∈ l -> a ∈ l') ->
  length (List.filter same_index (list_prod l l')) = length l.
Proof.
  intros Hnd. induction l as [|a l IH]; intros Hsub; [done|]. simpl.
  rewrite List.filter_app, length_app, filter_map_swap, length_map.
  unfold same_index at 1. simpl.
  rewrite filter_eqb_once; [|done|apply Hsub; left].
  rewrite IH; [done|]. intros b Hb. apply Hsub. by right.
Qed.

Lemma runs_count n :
  length (runs n) = (length pair_draws ^ n)%nat
  /\ length (List.filter still_looping (runs n)) = (length audio_indices ^ n)%nat.
Proof.
  rewrite (List.filter_ext _ _ still_looping_same_index).
  induction n as [|n [IHall IHloop]]; [done|]. simpl. split.
  - by rewrite length_map, length_prod, IHall.
  - rewrite filter_map_swap, length_map. simpl.
    rewrite (filter_list_prod same_index (forallb same_index)), length_prod, IHloop.
    unfold pair_draws. rewrite same_index_count; [done| |done].
    apply NoDup_seqZ.
Qed.

(** C10. For a participant with attempts left and a generator that draws
    within the configured range: as soon as some iteration draws two
    different indices, which takes a range of at least two values, the GET
    ends, by that iteration at the latest, with the challenge page and the
    tokens of two distinct indices of the range in the session; with a range
    of a single value the loop is still running after any number of
    iterations. With a range of [N >= 2] values, of the [(N * N) ^ n] equally
    likely runs of [n] iterations only [N ^ n] leave the loop running: it
    goes on beyond [n] iterations with probability [1 / N ^ n]. *)
Theorem hearing_test_challenge_loop form o w pid row :
  resolves w pid row ->
  hearing_test_attempts row < max_hearing_test_attempts CONFIGURATION ->
  draws_in_range o ->
  (forall n, (randint_pairs o n).1 <> (randint_pairs o n).2 ->
     MIN_HEARING_TEST_AUDIO_INDEX < MAX_HEARING_TEST_AUDIO_INDEX
     /\ forall fuel, (n < fuel)%nat ->
        exists index1 index2 w',
          hearing_test CONFIGURATION fuel GET form o w
            = Some (Ok (Render "hearing_screening.html"), w')
          /\ index1 <> index2
          /\ MIN_HEARING_TEST_AUDIO_INDEX <= index1 <= MAX_HEARING_TEST_AUDIO_INDEX
          /\ MIN_HEARING_TEST_AUDIO_INDEX <= index2 <= MAX_HEARING_TEST_AUDIO_INDEX
          /\ session w' !! "hearing_test_audio_index1" = Some (PyStr (encrypt_data index1))
          /\ session w' !! "hearing_test_audio_index2" = Some (PyStr (encrypt_data index2)))
  /\ (MIN_HEARING_TEST_AUDIO_INDEX = MAX_HEARING_TEST_AUDIO_INDEX ->
      forall fuel, hearing_test CONFIGURATION fuel GET form o w = None)
  /\ (MIN_HEARING_TEST_AUDIO_INDEX < MAX_HEARING_TEST_AUDIO_INDEX ->
      let N := Z.to_nat (MAX_HEARING_TEST_AUDIO_INDEX - MIN_HEARING_TEST_AUDIO_INDEX + 1) in
      (2 <= N)%nat
      /\ forall n,
          length (runs n) = ((N * N) ^ n)%nat
          /\ length (List.filter still_looping (runs n)) = (N ^ n)%nat).
Proof.
  intros Hr Hatt Hrange. split; [|split].
  - intros n Hd.
    assert (Hlt : MIN_HEARING_TEST_AUDIO_INDEX < MAX_HEARING_TEST_AUDIO_INDEX).
    { destruct (Hrange n) as [H1 H2]. lia. }
    split; [done|]. intros fuel Hf.
    destruct (draw_indices_stops (randint_pairs o) n fuel 0%nat Hd Hf)
      as (m & _ & Hs & Hne).
    simpl in Hs, Hne. destruct (Hrange m) as [R1 R2].
    destruct (randint_pairs o m) as [index1 index2]. simpl in *.
    eexists index1, index2, _. unfold hearing_test.
    rewrite (get_current_participant_found _ _ _ Hr). simpl.
    destruct (Z.geb_spec (hearing_test_attempts row)
                (max_hearing_test_attempts CONFIGURATION)); [lia|].
    destruct (Z.ltb_spec MAX_HEARING_TEST_AUDIO_INDEX MIN_HEARING_TEST_AUDIO_INDEX);
      [lia|].
    rewrite Hs. split; [done|]. split; [done|]. split; [done|]. split; [done|].
    simpl. split; [by rewrite lookup_insert_ne, lookup_insert_eq
                  | by rewrite lookup_insert_eq].
  - intros Heq fuel. unfold hearing_test.
    rewrite (get_current_participant_found _ _ _ Hr). simpl.
    destruct (Z.geb_spec (hearing_test_attempts row)
                (max_hearing_test_attempts CONFIGURATION)); [lia|].
    destruct (Z.ltb_spec MAX_HEARING_TEST_AUDIO_INDEX MIN_HEARING_TEST_AUDIO_INDEX);
      [lia|].
    rewrite draw_indices_loops; [done|].
    intros k. destruct (Hrange k) as [R1 R2]. lia.
  - intros Hlt N. split; [subst N; lia|]. intros n.
    destruct (runs_count n) as [Hall Hloop].
    unfold pair_draws in Hall. rewrite length_prod in Hall.
    unfold audio_indices in Hall, Hloop. rewrite length_seqZ in Hall, Hloop.
    by split.
Qed.

End HearingTestFacts.

(** ** Evaluation submission: what is stored, what is answered *)

Section EvaluationFacts.
Context `{Collaborators}.

Lemma new_trial_fields c pid crowd cd t :
  new_trial c pid crowd cd = Ok t ->
  participant_id t = pid
  /\ crowd_data t = crowd
  /\ (conditionID <- getitem cd "conditionID" ;; int_of_json conditionID)
     = Ok (condition_id t)
  /\ decrypt_audio_stimuli cd = Ok (data t)
  /\ attr passed_hearing_test c = Ok (participant_passed_hearing_test t).
Proof.
  unfold new_trial. intros Hn.
  destruct (getitem cd "conditionID") as [v|]; simpl in *; [|done].
  destruct (int_of_json v) as [n|]; simpl in *; [|done].
  destruct (decrypt_audio_stimuli cd) as [cd'|]; simpl in *; [|done].
  destruct (attr passed_hearing_test c) as [b|]; simpl in *; [|done].
  by simplify_eq.
Qed.

Lemma add_trial_loop_keeps c pid crowd items : forall pending w,
  let r := add_trial_loop c pid crowd items pending w in
  session r.2 = session w /\ participants r.2 = participants w
  /\ trials r.2 = trials w /\ flashes r.2 = flashes w.
Proof.
  induction items as [|cd items IH]; intros pending w; simpl; [done|].
  destruct (new_trial c pid crowd cd) as [t|e]; [|done].
  destruct (IH (pending ++ [t]) (logger (LogInfo "Results saved for trial") w))
    as (? & ? & ? & ?).
  by repeat split.
Qed.

Lemma add_trial_loop_new_trials c pid crowd items : forall pending w,
  (add_trial_loop c pid crowd items pending w).1
    = (new <- new_trials c pid crowd items ;; Ok (pending ++ new)).
Proof.
  induction items as [|cd items IH]; intros pending w; simpl.
  - by rewrite app_nil_r.
  - destruct (new_trial c pid crowd cd) as [t|e]; [|done]. simpl.
    rewrite IH. destruct (new_trials c pid crowd items); [|done]. simpl.
    by rewrite <- app_assoc.
Qed.

Lemma get_current_participant_again w c w1 :
  get_current_participant w = (Ok c, w1) ->
  session w1 = session w /\ participants w1 = participants w
  /\ trials w1 = trials w
  /\ exists w2, get_current_participant w1 = (Ok c, w2)
       /\ session w2 = session w /\ participants w2 = participants w
       /\ trials w2 = trials w.
Proof.
  unfold get_current_participant.
  destruct (session w !! "participant_id") as [[]|] eqn:Es; intros Hg;
    try discriminate; try (destruct (participants w !! n) eqn:Ep);
    simplify_eq; simpl; rewrite ?Es, ?Ep; split_and!; try done;
    eexists; split; try done.
Qed.

Lemma get_current_participant_raises w e w1 :
  get_current_participant w = (Raise e, w1) -> w1 = w.
Proof.
  unfold get_current_participant. intros Hg. by repeat case_match; simplify_eq.
Qed.

Lemma last_keyed o pending trial :
  last pending = Some trial ->
  exists id, last (keyed o pending) = Some (id, trial).
Proof.
  unfold keyed. generalize (primary_key o).
  induction pending as [|t pending IH]; intros key; [done|].
  destruct pending as [|t' pending]; simpl.
  - intros [= <-]. by eexists.
  - intros Hl. apply (IH (key ∘ S)) in Hl. exact Hl.
Qed.

(** The handler when the lookup before the [try] block returns [c]: reply
    and stored trials are those of [committed_trials]. *)
Lemma evaluation_returns rq o w c :
  (get_current_participant w).1 = Ok c ->
  let attempt :=
    committed_trials c (default PyNone (session w !! "crowd_data")) rq o in
  (evaluation rq o w).1
    = match attempt with
      | Ok new => Ok (data_is_saved (keyed o new))
      | Raise e => (error_saving e w).1
      end
  /\ trials (evaluation rq o w).2
     = match attempt with
       | Ok new => trials w ++ keyed o new
       | Raise e => trials w
       end
  /\ participants (evaluation rq o w).2 = participants w
  /\ session (evaluation rq o w).2 = session w.
Proof.
  intros Hc. unfold evaluation, committed_trials.
  destruct (get_current_participant w) as [got w1] eqn:E1. simpl in Hc. subst got.
  destruct (get_current_participant_again w c w1 E1)
    as (_ & _ & _ & w2 & E2 & Hs & Hp & Ht).
  rewrite E2, Hs. clear E1 E2.
  destruct (checked_submission c rq) as [[pid items]|e]; simpl; [|done].
  pose proof (add_trial_loop_new_trials c pid
                (default PyNone (session w !! "crowd_data")) items [] w2) as Hl.
  pose proof (add_trial_loop_keeps c pid
                (default PyNone (session w !! "crowd_data")) items [] w2) as Hk.
  destruct (add_trial_loop c pid _ items [] w2) as [added w3]. simpl in Hl, Hk.
  destruct Hk as (Hs3 & Hp3 & Ht3 & _). subst added.
  destruct (new_trials c pid _ items) as [new|e]; simpl.
  - destruct (commit_succeeds o); simpl.
    + destruct (last new) as [t|] eqn:El; simpl.
      * destruct (last_keyed o new t El) as (id & Ek).
        rewrite Ek. simpl. unfold data_is_saved.
        by rewrite Ek, ?Ht3, ?Hp3, ?Hs3, ?Ht, ?Hp, ?Hs.
      * apply last_None in El. subst new. simpl.
        by rewrite app_nil_r, ?Ht3, ?Hp3, ?Hs3, ?Ht, ?Hp, ?Hs.
    + by rewrite ?Ht3, ?Hp3, ?Hs3.
  - by rewrite ?Ht3, ?Hp3, ?Hs3.
Qed.

Lemma evaluation_lookup_raises rq o w e :
  (get_current_participant w).1 = Raise e ->
  evaluation rq o w = (Raise e, w).
Proof.
  intros He. unfold evaluation.
  destruct (get_current_participant w) as [got w1] eqn:E1. simpl in He. subst got.
  by rewrite (get_current_participant_raises w e w1 E1).
Qed.

Lemma new_trials_each c pid crowd items : forall new,
  new_trials c pid crowd items = Ok new ->
  Forall2 (fun cd t => new_trial c pid crowd cd = Ok t) items new.
Proof.
  induction items as [|cd items IH]; intros new; simpl.
  - intros [= <-]. constructor.
  - destruct (new_trial c pid crowd cd) as [t|] eqn:Et; simpl; [|done].
    destruct (new_trials c pid crowd items) as [ts|]; simpl; [|done].
    intros [= <-]. constructor; [done|]. by apply IH.
Qed.

Lemma committed_trials_ok c crowd rq o new :
  committed_trials c crowd rq o = Ok new ->
  exists pid items,
    checked_submission c rq = Ok (pid, items)
    /\ new_trials c pid crowd items = Ok new
    /\ new <> [] /\ commit_succeeds o = true.
Proof.
  unfold committed_trials.
  destruct (checked_submission c rq) as [[pid items]|]; simpl; [|done].
  destruct (new_trials c pid crowd items) as [pending|] eqn:En; simpl; [|done].
  destruct (commit_succeeds o); [|done].
  destruct (last pending) eqn:El; [|done].
  intros [= <-]. exists pid, items. split_and!; try done.
  intros ->. discriminate.
Qed.

Lemma checked_submission_ok c rq pid items :
  checked_submission c rq = Ok (pid, items) ->
  submitted_participant_id rq = Ok pid
  /\ participant_pk c = Ok pid
  /\ (condition_data <- submitted_condition_data rq ;; iterate condition_data)
     = Ok items.
Proof.
  unfold checked_submission.
  destruct (submitted_participant_id rq) as [n|]; simpl; [|done].
  destruct (participant_pk c) as [pk|]; simpl; [|done].
  destruct (Z.eqb_spec pk n); simpl; [|done].
  destruct (submitted_condition_data rq) as [doc|]; simpl; [|done].
  destruct (iterate doc); simpl; [|done].
  intros [= <- <-]. by subst.
Qed.

Lemma get_current_participant_other_key key v w :
  key <> "participant_id" ->
  (get_current_participant (set_session key v w)).1 = (get_current_participant w).1.
Proof.
  intros Hk. unfold get_current_participant. simpl.
  rewrite lookup_insert_ne by done. by repeat case_match.
Qed.

(** C1, as the code has it. An evaluation POST does not read
    [session['condition_ids']]: whatever that key holds, the reply and the
    stored trials are the same; and a POST that is answered "Data is saved!"
    has stored one trial for each item of the submission, in order, each
    under the item's own [conditionID]. *)
Theorem evaluation_ignores_assigned_conditions rq o w v :
  (evaluation rq o (set_session "condition_ids" v w)).1 = (evaluation rq o w).1
  /\ trials (evaluation rq o (set_session "condition_ids" v w)).2
     = trials (evaluation rq o w).2
  /\ (forall trial_id,
        (evaluation rq o w).1 = Ok (Json false "Data is saved!" trial_id) ->
        exists items new,
          (condition_data <- submitted_condition_data rq ;; iterate condition_data)
            = Ok items
          /\ trials (evaluation rq o w).2 = trials w ++ keyed o new
          /\ Forall2 (fun cd trial =>
                        (conditionID <- getitem cd "conditionID" ;;
                         int_of_json conditionID) = Ok (condition_id trial))
                items new).
Proof.
  pose proof (get_current_participant_other_key "condition_ids" v w) as Hg.
  destruct (get_current_participant w).1 as [c|e] eqn:Ec.
  - destruct (evaluation_returns rq o w c Ec) as (Hr & Ht & _).
    destruct (evaluation_returns rq o (set_session "condition_ids" v w) c)
      as (Hr' & Ht' & _); [by rewrite Hg|].
    simpl in Hr', Ht'. rewrite lookup_insert_ne in Hr', Ht' by done.
    rewrite Hr, Hr', Ht, Ht'. split; [done|]. split; [done|].
    intros trial_id.
    destruct (committed_trials c _ rq o) as [new|e] eqn:Ea; [|done].
    intros _. destruct (committed_trials_ok _ _ _ _ _ Ea)
      as (pid & items & Hcs & Hn & _ & _).
    destruct (checked_submission_ok _ _ _ _ Hcs) as (_ & _ & Hit).
    exists items, new. split; [done|]. split; [done|].
    eapply Forall2_impl; [by apply new_trials_each|].
    intros cd t Hnt. by destruct (new_trial_fields _ _ _ _ _ Hnt) as (_ & _ & ? & _).
  - rewrite (evaluation_lookup_raises rq o w e Ec).
    rewrite (evaluation_lookup_raises rq o (set_session "condition_ids" v w) e)
      by (by rewrite Hg).
    simpl. split; [done|]. split; [done|]. done.
Qed.

(** C2. An evaluation POST whose [participant_id] is not the key of the
    participant the session names (another integer, or no integer at all) is
    answered with the JSON error reply, made from the failed assertion when
    the value is an integer, and neither the trial table nor the participant
    table changes. *)
Theorem evaluation_participant_mismatch rq o w pid row :
  resolves w pid row ->
  submitted_participant_id rq <> Ok pid ->
  (exists e,
     (evaluation rq o w).1
       = Ok (Json true ("Error saving data. Error "
                        ++ sign_data (PyStr (str_exn e)))%string None)
     /\ (forall n, submitted_participant_id rq = Ok n -> e = AssertionError))
  /\ trials (evaluation rq o w).2 = trials w
  /\ participants (evaluation rq o w).2 = participants w.
Proof.
  intros Hr Hne.
  destruct (evaluation_returns rq o w (Found pid row)) as (Hf & Ht & Hp & _).
  { by rewrite (get_current_participant_found _ _ _ Hr). }
  assert (Ha : forall crowd, exists e,
             committed_trials (Found pid row) crowd rq o = Raise e
             /\ (forall n, submitted_participant_id rq = Ok n -> e = AssertionError)).
  { intros crowd. unfold committed_trials, checked_submission.
    destruct (submitted_participant_id rq) as [n|e]; simpl.
    - destruct (Z.eqb_spec pid n); [by subst|]. simpl. by exists AssertionError.
    - exists e. split; [done|]. by intros n. }
  destruct (Ha (default PyNone (session w !! "crowd_data"))) as (e & He & Hn).
  rewrite He in Hf, Ht. split; [|by split].
  exists e. by split.
Qed.

(** C3, as the code has it. An evaluation POST ends in one of three ways.
    Either every item of the submission gave a trial, the trials were
    committed together, in order, and the reply is "Data is saved!" with the
    signed key of the last trial written. Or an exception was caught: no trial is
    stored and the reply is the JSON error with the signed text of the
    exception. Or the lookup of the participant that precedes the [try]
    block raised: the request ends with that exception and nothing changes. *)
Theorem evaluation_atomic rq o w :
  (exists c pid items new,
     (get_current_participant w).1 = Ok c
     /\ checked_submission c rq = Ok (pid, items)
     /\ Forall2 (fun cd trial =>
                   new_trial c pid (default PyNone (session w !! "crowd_data")) cd
                     = Ok trial) items new
     /\ trials (evaluation rq o w).2 = trials w ++ keyed o new
     /\ exists id trial,
          last (keyed o new) = Some (id, trial)
          /\ (evaluation rq o w).1
             = Ok (Json false "Data is saved!" (Some (sign_data (PyInt id)))))
  \/ (exists e,
        (evaluation rq o w).1
          = Ok (Json true ("Error saving data. Error "
                           ++ sign_data (PyStr (str_exn e)))%string None)
        /\ trials (evaluation rq o w).2 = trials w)
  \/ (exists e,
        (get_current_participant w).1 = Raise e
        /\ evaluation rq o w = (Raise e, w)).
Proof.
  destruct (get_current_participant w).1 as [c|e] eqn:Ec.
  - destruct (evaluation_returns rq o w c Ec) as (Hr & Ht & _).
    destruct (committed_trials c _ rq o) as [new|e] eqn:Ea.
    + left. destruct (committed_trials_ok _ _ _ _ _ Ea)
        as (pid & items & Hcs & Hn & Hne & _).
      exists c, pid, items, new. split_and!; try done; [by apply new_trials_each|].
      destruct (last new) as [t|] eqn:El; [|by apply last_None in El].
      destruct (last_keyed o new t El) as (id & Ek).
      exists id, t. split; [done|]. rewrite Hr. unfold data_is_saved. by rewrite Ek.
    + right; left. by exists e.
  - right; right. exists e. split; [done|]. by apply evaluation_lookup_raises.
Qed.

End EvaluationFacts.

(** ** Closed instances *)

Import Sample.

(** C1 fails as stated: with condition 1 alone assigned to the session, a
    submission for condition 2 is stored as a trial. *)
Lemma evaluation_stores_unassigned_condition :
  session assigned_one !! "condition_ids" = Some (PyIntList [1])
  /\ (@evaluation collaborators (submission "5") (oracle None three_five)
        assigned_one).1
     = Ok (Json false "Data is saved!" (Some (sign (PyInt 1))))
  /\ map (fun kt => condition_id kt.2)
       (trials (@evaluation collaborators (submission "5") (oracle None three_five)
                  assigned_one).2)
     = [2].
Proof. by vm_compute. Qed.

Lemma evaluation_ignores_assigned_conditions_witness :
  (@evaluation collaborators (submission "5") (oracle None three_five)
     (set_session "condition_ids" (PyIntList [2; 3]) assigned_one)).1
  = (@evaluation collaborators (submission "5") (oracle None three_five)
       assigned_one).1.
Proof.
  apply (@evaluation_ignores_assigned_conditions collaborators (submission "5")
           (oracle None three_five) assigned_one (PyIntList [2; 3])).
Defined.

Lemma evaluation_participant_mismatch_witness :
  resolves assigned_one 5 (screened (Some with_headphones))
  /\ submitted_participant_id (submission "6") = Ok 6
  /\ trials (@evaluation collaborators (submission "6") (oracle None three_five)
               assigned_one).2
     = trials assigned_one.
Proof.
  assert (Hr : resolves assigned_one 5 (screened (Some with_headphones)))
    by (split; reflexivity).
  split; [exact Hr|]. split; [reflexivity|].
  apply (@evaluation_participant_mismatch collaborators (submission "6")
           (oracle None three_five) assigned_one 5 _ Hr).
  discriminate.
Defined.

(** C3 fails as stated: when the session names a participant of whom there is
    no row, the request ends with the exception of the lookup, not with a
    JSON reply. *)
Lemma evaluation_dangling_session_raises :
  @evaluation collaborators (submission "7") (oracle None three_five) dangling
  = (Raise (InvalidParticipant 7), dangling).
Proof. reflexivity. Qed.

Lemma evaluation_atomic_witness :
  exists new,
    trials (@evaluation collaborators (submission "5") (oracle None three_five)
              assigned_one).2
    = trials assigned_one ++ keyed (oracle None three_five) new
    /\ exists id trial, last (keyed (oracle None three_five) new) = Some (id, trial).
Proof.
  destruct (@evaluation_atomic collaborators (submission "5")
              (oracle None three_five) assigned_one)
    as [(c & pid & items & new & _ & _ & _ & Ht & id & t & Hl & _)
       |[(e & He & _)|(e & He & _)]].
  - exists new. split; [exact Ht|]. exists id, t. exact Hl.
  - vm_compute in He. discriminate He.
  - vm_compute in He. discriminate He.
Defined.

(** The code at an input where it departs from C4: with rejection disabled,
    a participant whose attempts equal the maximum gets the page "attempts
    exceeded" at the GET of the hearing test; the participant is not passed
    on. *)
Lemma hearing_test_GET_exhausted_lenient :
  hearing_test_attempts (failed 2) = max_hearing_test_attempts lenient
  /\ hearing_test_rejection_enabled lenient = false
  /\ fst <$> @hearing_test collaborators lenient 1 GET ∅ (oracle (Some [1]) three_five)
               (visit (failed 2) [])
     = Some (Ok (Sorry attempts_exceeded)).
Proof. by vm_compute. Qed.

Lemma hearing_test_attempts_exhausted_witness :
  resolves (visit (failed 2) []) 5 (failed 2)
  /\ @hearing_test collaborators lenient 1 GET ∅ (oracle (Some [1]) three_five)
       (visit (failed 2) [])
     = Some (Ok (Sorry attempts_exceeded),
             logger (LogInfo "Max hearing test attempts reached") (visit (failed 2) [])).
Proof.
  assert (Hr : resolves (visit (failed 2) []) 5 (failed 2)) by (split; reflexivity).
  split; [exact Hr|].
  apply (@hearing_test_attempts_exhausted collaborators lenient 1 ∅
           (oracle (Some [1]) three_five) _ 5 _ Hr).
  simpl. lia.
Defined.

Lemma hearing_test_records_pass_iff_witness :
  exists r w' row',
    @hearing_test collaborators configuration 0 POST (answers "1" "2")
      (oracle (Some [1]) three_five) (challenged (failed 1)) = Some (r, w')
    /\ participants w' !! 5 = Some row'
    /\ hearing_test_attempts row' = 2
    /\ passed_hearing_test row' = Some true.
Proof.
  destruct (@hearing_test_records_pass_iff collaborators configuration 0
              (answers "1" "2") (oracle (Some [1]) three_five)
              (challenged (failed 1)) 5 (failed 1)
              (PyStr (encrypt 3)) (PyStr (encrypt 5)) 1 2 3 5)
    as (r & w' & row' & Hh & Hp & Ha & Hpass & _);
    try reflexivity; try (split; reflexivity); try discriminate.
  exists r, w', row'. split; [exact Hh|]. split; [exact Hp|]. split; [exact Ha|].
  apply Hpass. split; reflexivity.
Defined.

(** The code at an input where it departs from C6, with a [decrypt_data]
    that raises on [None]: a POST whose session holds no challenge token ends
    with the exception of the decoding step; no failure is recorded and the
    attempts of the participant stay as they were. *)
Lemma hearing_test_missing_token_raises :
  session (visit (failed 0) []) !! "hearing_test_audio_index1" = None
  /\ fst <$> @hearing_test collaborators configuration 0 POST (answers "1" "2")
               (oracle (Some [1]) three_five) (visit (failed 0) [])
     = Some (Raise TypeError)
  /\ (fun r => participants r.2 !! 5)
       <$> @hearing_test collaborators configuration 0 POST (answers "1" "2")
             (oracle (Some [1]) three_five) (visit (failed 0) [])
     = Some (Some (failed 0)).
Proof. by vm_compute. Qed.

Lemma hearing_test_decoding_not_caught_witness :
  resolves (visit (failed 0) []) 5 (failed 0)
  /\ reported_tones (answers "1" "2") "audiofile1_tones" = Ok 1
  /\ @hearing_test collaborators configuration 0 POST (answers "1" "2")
       (oracle (Some [1]) three_five) (visit (failed 0) [])
     = Some (Raise TypeError, (read_challenge (visit (failed 0) [])).2).
Proof.
  assert (Hr : resolves (visit (failed 0) []) 5 (failed 0)) by (split; reflexivity).
  assert (Ha : reported_tones (answers "1" "2") "audiofile1_tones" = Ok 1)
    by reflexivity.
  split; [exact Hr|]. split; [exact Ha|].
  destruct (@hearing_test_decoding_not_caught collaborators configuration 0
              (answers "1" "2") (oracle (Some [1]) three_five) _ 5 _ 1 Hr Ha)
    as (_ & Hdecode & Hraise).
  apply Hraise, Hdecode. reflexivity.
Defined.

(** C7 fails as stated: the same row, the same configuration and the same
    assigned conditions give the evaluation at one moment and the hearing
    test a day later, when the pass is recent no more. *)
Lemma pre_evaluation_tasks_a_day_later :
  assign_conditions (a_day_later (oracle (Some [1; 2]) three_five))
    = assign_conditions (oracle (Some [1; 2]) three_five)
  /\ (@pre_evaluation_tasks collaborators configuration
        (oracle (Some [1; 2]) three_five)
        (visit (screened (Some with_headphones)) [])).1
     = Ok (Redirect "evaluation")
  /\ (@pre_evaluation_tasks collaborators configuration
        (a_day_later (oracle (Some [1; 2]) three_five))
        (visit (screened (Some with_headphones)) [])).1
     = Ok (Redirect "hearing_test").
Proof. by vm_compute. Qed.

Lemma pre_evaluation_tasks_same_step_witness :
  resolves (visit (screened None) []) 5 (screened None)
  /\ resolves (challenged (screened None)) 5 (screened None)
  /\ recent (screened None) (now (oracle (Some [1; 2]) three_five))
     = recent (screened None) (now (oracle (Some [1; 2]) third_time_lucky))
  /\ (@pre_evaluation_tasks collaborators configuration
        (oracle (Some [1; 2]) three_five) (visit (screened None) [])).1
     = (@pre_evaluation_tasks collaborators configuration
          (oracle (Some [1; 2]) third_time_lucky) (challenged (screened None))).1.
Proof.
  assert (H1 : resolves (visit (screened None) []) 5 (screened None))
    by (split; reflexivity).
  assert (H2 : resolves (challenged (screened None)) 5 (screened None))
    by (split; reflexivity).
  split; [exact H1|]. split; [exact H2|]. split; [reflexivity|].
  destruct (@pre_evaluation_tasks_same_step collaborators configuration
              (oracle (Some [1; 2]) three_five) (oracle (Some [1; 2]) third_time_lucky)
              _ _ 5 _ H1 H2 eq_refl) as [Hsame _].
  apply Hsame. reflexivity.
Defined.

(** C8 fails as stated: the controller assigns conditions 1 and 2 when the
    visit begins and sends the newcomer to the consent form; when it is
    invoked again, from the POST of that form, the allocator answers
    condition 3, and the session holds that set from then on. *)
Lemma pre_evaluation_tasks_reassigns :
  @pre_evaluation_tasks collaborators configuration
     (oracle (Some [1; 2]) three_five) (visit newcomer [])
  = (Ok (Redirect "consent"),
     set_session "condition_ids" (PyIntList [1; 2]) (visit newcomer []))
  /\ session (@consent collaborators configuration POST {[ "consent" := "agree" ]}
                (oracle (Some [3]) three_five)
                (set_session "condition_ids" (PyIntList [1; 2]) (visit newcomer []))).2
       !! "condition_ids" = Some (PyIntList [3]).
Proof. split; [reflexivity | by vm_compute]. Qed.

Lemma pre_evaluation_tasks_assigns_witness :
  resolves (visit (screened None) []) 5 (screened None)
  /\ session (@pre_evaluation_tasks collaborators configuration
                (oracle (Some [1; 2]) three_five) (visit (screened None) [])).2
     = <["condition_ids" := PyIntList [1; 2] ]> (session (visit (screened None) [])).
Proof.
  assert (Hr : resolves (visit (screened None) []) 5 (screened None))
    by (split; reflexivity).
  split; [exact Hr|].
  apply (@pre_evaluation_tasks_assigns collaborators configuration
           (oracle (Some [1; 2]) three_five) _ 5 _ (Some [1; 2]) Hr).
  reflexivity.
Defined.

(** C9 fails as stated: a participant whose recorded survey does not meet
    the inclusion criteria is not sent to the survey step; the controller
    answers the page "inclusion criteria not met". *)
Lemma pre_evaluation_tasks_invalid_survey :
  pre_test_survey_enabled configuration = true
  /\ valid without_headphones (pre_test_survey_inclusion_criteria configuration) = false
  /\ (@pre_evaluation_tasks collaborators configuration
        (oracle (Some [1; 2]) three_five)
        (visit (screened (Some without_headphones)) [])).1
     = Ok (Sorry inclusion_criteria_not_met).
Proof. by vm_compute. Qed.

Lemma pre_evaluation_tasks_survey_step_witness :
  resolves (visit (screened None) []) 5 (screened None)
  /\ (@pre_evaluation_tasks collaborators configuration
        (oracle (Some [1; 2]) three_five) (visit (screened None) [])).1
     = Ok (Redirect "pre_test_survey").
Proof.
  assert (Hr : resolves (visit (screened None) []) 5 (screened None))
    by (split; reflexivity).
  split; [exact Hr|].
  destruct (@pre_evaluation_tasks_survey_step collaborators configuration
              (oracle (Some [1; 2]) three_five) _ 5 (screened None) Hr eq_refl)
    as (_ & _ & Hstep).
  apply (Hstep (Some [1; 2])); reflexivity.
Defined.

Lemma hearing_test_challenge_loop_witness :
  resolves (visit (failed 1) []) 5 (failed 1)
  /\ exists index1 index2 w',
       @hearing_test collaborators configuration 3 GET ∅
         (oracle (Some [1]) third_time_lucky) (visit (failed 1) [])
       = Some (Ok (Render "hearing_screening.html"), w')
       /\ index1 <> index2
       /\ session w' !! "hearing_test_audio_index1" = Some (PyStr (encrypt index1))
       /\ session w' !! "hearing_test_audio_index2" = Some (PyStr (encrypt index2)).
Proof.
  assert (Hr : resolves (visit (failed 1) []) 5 (failed 1)) by (split; reflexivity).
  split; [exact Hr|].
  assert (Hrange : @draws_in_range collaborators (oracle (Some [1]) third_time_lucky)).
  { intros k. unfold third_time_lucky, oracle. simpl.
    destruct (k <? 2)%nat; simpl; lia. }
  destruct (@hearing_test_challenge_loop collaborators configuration ∅
              (oracle (Some [1]) third_time_lucky) _ 5 _ Hr ltac:(simpl; lia) Hrange)
    as (Hstop & _ & _).
  destruct (Hstop 2%nat ltac:(simpl; lia)) as [_ Hfuel].
  destruct (Hfuel 3%nat ltac:(lia)) as (i1 & i2 & w' & Hh & Hne & _ & _ & H1 & H2).
  exists i1, i2, w'. by repeat split.
Defined.

Lemma hearing_test_lenient_not_passed_through_witness :
  resolves (challenged (failed 1)) 5 (failed 1)
  /\ hearing_test_rejection_enabled lenient = false
  /\ hearing_test_attempts (failed 1) + 1 = max_hearing_test_attempts lenient
  /\ exists w',
       @hearing_test collaborators lenient 0 POST (answers "9" "9")
         (oracle (Some [1]) three_five) (challenged (failed 1))
       = Some (Ok (Redirect "hearing_test"), w')
       /\ @hearing_test collaborators lenient 1 GET ∅ (oracle (Some [1]) three_five) w'
          = Some (Ok (Sorry attempts_exceeded),
                  logger (LogInfo "Max hearing test attempts reached") w').
Proof.
  assert (Hr : resolves (challenged (failed 1)) 5 (failed 1)) by (split; reflexivity).
  split; [exact Hr|]. split; [reflexivity|]. split; [reflexivity|].
  destruct (@hearing_test_lenient_not_passed_through collaborators lenient 0
              (answers "9" "9") (oracle (Some [1]) three_five) _ 5 _ Hr eq_refl)
    as (_ & Hpost).
  destruct (Hpost (Some [1])) as (w' & Hp & Hget);
    try (by vm_compute).
  exists w'. split; [exact Hp | apply Hget].
Defined.

Lemma hearing_test_missing_token_not_failed_witness :
  resolves (visit (failed 0) []) 5 (failed 0)
  /\ session (visit (failed 0) []) !! "hearing_test_audio_index1" = None
  /\ (exists w',
        @hearing_test collaborators configuration 0 POST (answers "1" "2")
          (oracle (Some [1]) three_five) (visit (failed 0) [])
        = Some (Raise TypeError, w')
        /\ participants w' = participants (visit (failed 0) []))
  /\ exists r w',
       @hearing_test Tour.forgiving configuration 0 POST (answers "0" "0")
         (oracle (Some [1]) three_five) (visit (failed 0) [])
       = Some (r, w')
       /\ participants w' !! 5 = Some (set_passed_hearing_test true 200 (failed 0)).
Proof.
  assert (Hr : resolves (visit (failed 0) []) 5 (failed 0)) by (split; reflexivity).
  assert (Hn : session (visit (failed 0) []) !! "hearing_test_audio_index1" = None)
    by reflexivity.
  split; [exact Hr|]. split; [exact Hn|]. split.
  - destruct (@hearing_test_missing_token_not_failed collaborators configuration 0
                (answers "1" "2") (oracle (Some [1]) three_five) _ 5 _ 1 2 Hr
                (or_introl Hn) eq_refl eq_refl)
      as (key & _ & _ & Hraise & _).
    eexists. split; [apply (Hraise TypeError); reflexivity | reflexivity].
  - destruct (@hearing_test_missing_token_not_failed Tour.forgiving configuration 0
                (answers "0" "0") (oracle (Some [1]) three_five) _ 5 _ 0 0 Hr
                (or_introl Hn) eq_refl eq_refl)
      as (key & _ & _ & _ & Hpass).
    apply (Hpass 0); try reflexivity. discriminate.
Defined.

(** * Further properties of the views *)

(** ** Further properties of the controller and of consent *)

Section WorkflowFacts.
Context `{Collaborators}.
Variable CONFIGURATION : Configuration.

(** X1. The controller offers a step only when the earlier ones are met: it
    sends to the hearing test only with consent given (or not required), to
    the survey only with consent and a recent pass of the hearing test (or
    no screening), and to the evaluation only with conditions assigned and
    consent, hearing test and a valid survey all met or not required. *)
Theorem pre_evaluation_tasks_gates o w pid row :
  resolves w pid row ->
  let consent_met :=
    obtain_consent CONFIGURATION = false \/ gave_consent row = true in
  let hearing_met :=
    hearing_screening_test_enabled CONFIGURATION = false
    \/ has_passed_hearing_test_recently row (now o) = true in
  let survey_met :=
    pre_test_survey_enabled CONFIGURATION = false
    \/ exists answers, pre_test_survey row = Some answers
         /\ is_pre_test_survey_valid answers
              (pre_test_survey_inclusion_criteria CONFIGURATION) = true in
  ((pre_evaluation_tasks CONFIGURATION o w).1 = Ok (Redirect "hearing_test")
     -> consent_met)
  /\ ((pre_evaluation_tasks CONFIGURATION o w).1 = Ok (Redirect "pre_test_survey")
     -> consent_met /\ hearing_met)
  /\ ((pre_evaluation_tasks CONFIGURATION o w).1 = Ok (Redirect "evaluation")
     -> consent_met /\ hearing_met /\ survey_met
        /\ exists ids, assign_conditions o = Ok (Some ids) /\ ids <> []).
Proof.
  intros Hr consent_met hearing_met survey_met.
  assert (Hstep : forall step,
    (pre_evaluation_tasks CONFIGURATION o w).1 = Ok (Redirect step) ->
    next_step CONFIGURATION (now o) row = Redirect step
    /\ exists ids, assign_conditions o = Ok (Some ids) /\ ids <> []).
  { intros step. destruct (assign_conditions o) as [ids|e] eqn:Ha.
    - rewrite (pre_evaluation_tasks_found CONFIGURATION o w pid row ids Hr Ha). simpl.
      destruct ids as [[|c l]|]; simpl; try discriminate.
      intros [= Hs]. split; [done|]. by exists (c :: l).
    - by rewrite (pre_evaluation_tasks_raises CONFIGURATION o w pid row e Hr Ha). }
  subst consent_met hearing_met survey_met.
  split; [|split]; intros Hs; apply Hstep in Hs as [Hs Hids];
    unfold next_step in Hs;
    destruct (obtain_consent CONFIGURATION) eqn:Ec, (gave_consent row) eqn:Eg;
    simpl in Hs; try discriminate;
    destruct (hearing_screening_test_enabled CONFIGURATION) eqn:Eh,
      (has_passed_hearing_test_recently row (now o)) eqn:Er; simpl in Hs; try discriminate;
    destruct (pre_test_survey_enabled CONFIGURATION) eqn:Es; simpl in Hs;
    try (destruct (pre_test_survey row) as [answers|] eqn:Ep);
    try (destruct (is_pre_test_survey_valid answers _) eqn:Ev);
    try discriminate;
    repeat split; try done;
    try (by left); try (by right); try (right; eexists; by split).
Qed.

Lemma pre_evaluation_tasks_keeps_all o w :
  participants (pre_evaluation_tasks CONFIGURATION o w).2 = participants w
  /\ trials (pre_evaluation_tasks CONFIGURATION o w).2 = trials w
  /\ flashes (pre_evaluation_tasks CONFIGURATION o w).2 = flashes w
  /\ forall key, key <> "condition_ids" ->
       session (pre_evaluation_tasks CONFIGURATION o w).2 !! key = session w !! key.
Proof.
  unfold pre_evaluation_tasks, get_current_participant.
  repeat case_match; simplify_eq; simpl; split_and!; try done;
    intros key Hk; by rewrite lookup_insert_ne.
Qed.

(** X2. Whatever the session and the tables hold, an invocation of the
    controller changes no row of a participant, no trial and no key of the
    session other than [condition_ids]; it flashes nothing. *)
Theorem pre_evaluation_tasks_footprint o w :
  participants (pre_evaluation_tasks CONFIGURATION o w).2 = participants w
  /\ trials (pre_evaluation_tasks CONFIGURATION o w).2 = trials w
  /\ flashes (pre_evaluation_tasks CONFIGURATION o w).2 = flashes w
  /\ forall key, key <> "condition_ids" ->
       session (pre_evaluation_tasks CONFIGURATION o w).2 !! key = session w !! key.
Proof. apply pre_evaluation_tasks_keeps_all. Qed.

(** X3. A POST of the consent form with the answer "agree", by a
    participant the session names and with a commit that succeeds, sets
    [gave_consent] in that row, leaves its other columns and the other rows
    as they were, and is never answered by sending back to the consent form. *)
Theorem consent_agree_recorded form o w pid row :
  resolves w pid row ->
  form !! "consent" = Some "agree" ->
  commit_succeeds o = true ->
  exists row',
    participants (consent CONFIGURATION POST form o w).2 = <[pid := row']> (participants w)
    /\ gave_consent row' = true
    /\ hearing_test_attempts row' = hearing_test_attempts row
    /\ passed_hearing_test row' = passed_hearing_test row
    /\ pre_test_survey row' = pre_test_survey row
    /\ (consent CONFIGURATION POST form o w).1 <> Ok (Redirect "consent").
Proof.
  intros Hr Hf Hc. unfold consent, form_get. rewrite Hf. simpl.
  rewrite (get_current_participant_found _ _ _ Hr). simpl.
  unfold commit_participant. rewrite Hc.
  match goal with |- context [set_participant pid ?r w] => set (row' := r) end.
  exists row'.
  assert (Hr' : resolves (set_participant pid row' w) pid row').
  { destruct Hr as [Hs _]. split; [done|]. apply lookup_insert_eq. }
  destruct (pre_evaluation_tasks_keeps_all o (set_participant pid row' w))
    as (Hp & _).
  rewrite Hp. split_and!; try done.
  destruct (assign_conditions o) as [ids|e] eqn:Ha.
  - rewrite (pre_evaluation_tasks_found CONFIGURATION o _ pid row' ids Hr' Ha). simpl.
    destruct (no_conditions ids); [discriminate|].
    unfold next_step. simpl. rewrite andb_false_r. intros [= Hs].
    repeat case_match; discriminate.
  - by rewrite (pre_evaluation_tasks_raises CONFIGURATION o _ pid row' e Hr' Ha).
Qed.

(** X4. Consent is recorded by nothing but an agreeing POST: a GET, and a
    POST whose [consent] field is missing or is anything but "agree", leave
    the session, the tables, the log and the flashes as they were; the
    answer "disagree" gets the closing page, a missing field is a bad
    request, any other answer the form again. *)
Theorem consent_not_agreed method form o w :
  method = GET \/ form !! "consent" <> Some "agree" ->
  (consent CONFIGURATION method form o w).2 = w
  /\ (method = POST -> form !! "consent" = Some "disagree" ->
      (consent CONFIGURATION method form o w).1
        = Ok (Sorry thank_you_for_your_interest))
  /\ (method = POST -> form !! "consent" = None ->
      (consent CONFIGURATION method form o w).1 = Raise (BadRequestKeyError "consent"))
  /\ (forall answer, method = POST -> form !! "consent" = Some answer ->
      answer <> "disagree" ->
      (consent CONFIGURATION method form o w).1 = Ok (Render "consent.html")).
Proof.
  intros Hm. unfold consent, form_get.
  destruct method; [by destruct Hm as [|Hm]; split_and!|].
  destruct Hm as [|Hm]; [done|].
  destruct (form !! "consent") as [answer|] eqn:Hf; simpl.
  - destruct (String.eqb_spec answer "agree") as [->|Hne]; [done|].
    destruct (String.eqb_spec answer "disagree") as [->|Hnd]; split_and!; try done.
    + intros a _ [= <-] Ha. done.
    + intros _ [= ->]. done.
  - split_and!; try done.
Qed.

End WorkflowFacts.

(** ** Further properties of the hearing test *)

Section ChallengeFacts.
Context `{Collaborators}.
Variable CONFIGURATION : Configuration.

Lemma hearing_test_GET_issued fuel form0 o w w' pid row :
  resolves w pid row ->
  draws_in_range o ->
  hearing_test CONFIGURATION fuel GET form0 o w
    = Some (Ok (Render "hearing_screening.html"), w') ->
  exists index1 index2,
    index1 <> index2
    /\ MIN_HEARING_TEST_AUDIO_INDEX <= index1 <= MAX_HEARING_TEST_AUDIO_INDEX
    /\ MIN_HEARING_TEST_AUDIO_INDEX <= index2 <= MAX_HEARING_TEST_AUDIO_INDEX
    /\ session w' !! "hearing_test_audio_index1" = Some (PyStr (encrypt_data index1))
    /\ session w' !! "hearing_test_audio_index2" = Some (PyStr (encrypt_data index2))
    /\ resolves w' pid row.
Proof.
  intros Hr Hrange Hget. unfold hearing_test in Hget.
  rewrite (get_current_participant_found _ _ _ Hr) in Hget. simpl in Hget.
  destruct (hearing_test_attempts row >=? _); [discriminate|].
  destruct (MAX_HEARING_TEST_AUDIO_INDEX <? _); [discriminate|].
  destruct (draw_indices fuel (randint_pairs o) 0) as [[i1 i2]|] eqn:Ed; [|discriminate].
  injection Hget as <-.
  assert (Hdrawn : exists k, randint_pairs o k = (i1, i2) /\ i1 <> i2).
  { clear -Ed. revert Ed. generalize 0%nat.
    induction fuel as [|fuel IH]; intros k; simpl; [done|].
    destruct (randint_pairs o k) as [j1 j2] eqn:Ek.
    destruct (Z.eqb_spec j1 j2); simpl.
    - apply IH.
    - intros [= <- <-]. by exists k. }
  destruct Hdrawn as (k & Hk & Hne). destruct (Hrange k) as [R1 R2].
  rewrite Hk in R1, R2. simpl in R1, R2.
  exists i1, i2. split; [done|]. split; [done|]. split; [done|]. simpl.
  split; [by rewrite lookup_insert_ne, lookup_insert_eq|].
  split; [by rewrite lookup_insert_eq|].
  destruct Hr as [Hs Hp]. split; [|done]. simpl. by rewrite !lookup_insert_ne.
Qed.

(** X5. When decoding undoes encoding on the indices of the configured
    range, a challenge issued by the GET is passed by exactly the right
    answers: the POST that follows records a pass when the two answers are
    the two issued indices divided by [HEARING_TEST_AUDIO_FILES_PER_TONES],
    and a failure when the first or the second differs. *)
Theorem hearing_test_challenge_answered fuel form0 o w w' pid row :
  resolves w pid row ->
  draws_in_range o ->
  (forall index,
     MIN_HEARING_TEST_AUDIO_INDEX <= index <= MAX_HEARING_TEST_AUDIO_INDEX ->
     decoded_index (PyStr (encrypt_data index)) = Ok index) ->
  HEARING_TEST_AUDIO_FILES_PER_TONES <> 0 ->
  hearing_test CONFIGURATION fuel GET form0 o w
    = Some (Ok (Render "hearing_screening.html"), w') ->
  exists index1 index2,
    index1 <> index2
    /\ forall fuel' form o' a1 a2,
         reported_tones form "audiofile1_tones" = Ok a1 ->
         reported_tones form "audiofile2_tones" = Ok a2 ->
         commit_succeeds o' = true ->
         exists r w'',
           hearing_test CONFIGURATION fuel' POST form o' w' = Some (r, w'')
           /\ participants w'' !! pid
              = Some (set_passed_hearing_test
                        (bool_decide
                           (a1 = index1 / HEARING_TEST_AUDIO_FILES_PER_TONES
                            /\ a2 = index2 / HEARING_TEST_AUDIO_FILES_PER_TONES))
                        (now o') row).
Proof.
  intros Hr Hrange Hround HK Hget.
  destruct (hearing_test_GET_issued fuel form0 o w w' pid row Hr Hrange Hget)
    as (i1 & i2 & Hne & R1 & R2 & Ht1 & Ht2 & Hr').
  exists i1, i2. split; [done|]. intros fuel' form o' a1 a2 Ha1 Ha2 Hc.
  pose proof (tone_counts_match_decoded form _ _ a1 a2 i1 i2 Ha1 Ha2
                (Hround i1 R1) (Hround i2 R2) HK) as Hm.
  rewrite <- (f_equal (fun x => tone_counts_match form x.1.1 x.1.2)
                (read_challenge_present w' _ _ Ht1 Ht2)) in Hm.
  simpl in Hm.
  destruct (hearing_test_POST_records CONFIGURATION fuel' form o' w' pid row _
              Hr' Hm Hc) as (r & w'' & Hh & Hp).
  exists r, w''. split; [done|]. rewrite Hp. do 2 f_equal.
  destruct (Z.eqb_spec a1 (i1 / HEARING_TEST_AUDIO_FILES_PER_TONES)),
           (Z.eqb_spec a2 (i2 / HEARING_TEST_AUDIO_FILES_PER_TONES)); simpl;
    symmetry; try (by apply bool_decide_eq_true);
    apply bool_decide_eq_false; tauto.
Qed.

(** X6. The second comparison is evaluated only when the first holds: when
    the first answer is an integer other than the expected count, the POST
    records a failure whatever the second answer and the second token are,
    missing, not a number or not decodable. *)
Theorem hearing_test_first_answer_wrong fuel form o w pid row a1 e1 :
  resolves w pid row ->
  reported_tones form "audiofile1_tones" = Ok a1 ->
  expected_tones (read_challenge w).1.1 = Ok e1 ->
  a1 <> e1 ->
  commit_succeeds o = true ->
  exists r w',
    hearing_test CONFIGURATION fuel POST form o w = Some (r, w')
    /\ participants w' !! pid = Some (set_passed_hearing_test false (now o) row).
Proof.
  intros Hr Ha He Hne Hc.
  apply (hearing_test_POST_records CONFIGURATION fuel form o w pid row false Hr);
    [|done].
  unfold tone_counts_match, tones_match. rewrite Ha, He. simpl.
  by destruct (Z.eqb_spec a1 e1).
Qed.

Lemma get_current_participant_cases w :
  (exists pid row, resolves w pid row
     /\ get_current_participant w = (Ok (Found pid row), w))
  \/ (exists page w0, get_current_participant w = (Ok (Page page), w0)
        /\ session w0 = session w /\ participants w0 = participants w
        /\ trials w0 = trials w /\ flashes w0 = flashes w)
  \/ (exists e, get_current_participant w = (Raise e, w)).
Proof.
  unfold get_current_participant, resolves.
  destruct (session w !! "participant_id") as [[| pid | | |]|] eqn:Es; eauto 10.
  destruct (participants w !! pid) as [row|] eqn:Ep; eauto 10.
Qed.

(** X7. A request to the hearing test, GET or POST, changes no trial; it
    changes no row of a participant other than by recording one attempt of
    the participant the session names, and a GET changes no row at all. *)
Theorem hearing_test_footprint fuel method form o w r w' :
  hearing_test CONFIGURATION fuel method form o w = Some (r, w') ->
  trials w' = trials w
  /\ (method = GET -> participants w' = participants w)
  /\ (participants w' = participants w
      \/ exists pid row passed,
           resolves w pid row
           /\ participants w'
              = <[pid := set_passed_hearing_test passed (now o) row]> (participants w)).
Proof.
  unfold hearing_test. intros Hh.
  destruct (get_current_participant_cases w)
    as [(pid & row & Hr & Eg)|[(page & w0 & Eg & _ & Hp0 & Ht0 & _)|(e & Eg)]];
    rewrite Eg in Hh; clear Eg.
  - destruct method; simpl in Hh.
    + repeat case_match; simplify_eq; simpl; (split_and!; [done | done | by left]).
    + destruct (read_challenge_keeps w) as (Hs & Hp & Ht).
      destruct (read_challenge w) as [[t1 t2] w1]. simpl in *.
      unfold commit_participant in Hh.
      destruct (tone_counts_match form t1 t2) as [[|]|e], (commit_succeeds o);
        simpl in Hh.
      * injection Hh as Hpre.
        match type of Hpre with pre_evaluation_tasks _ _ ?w0 = _ =>
          destruct (pre_evaluation_tasks_keeps_all CONFIGURATION o w0)
            as (Hpp & Hpt & _); rewrite Hpre in Hpp, Hpt; simpl in Hpp, Hpt end.
        rewrite Hpp, Hpt, Hp, Ht. split_and!; try done.
        right. by exists pid, row, true.
      * injection Hh as <- <-. simpl. rewrite Hp, Ht.
        split_and!; [done | done | by left].
      * assert (exists w2, participants w' = participants w2 /\ trials w' = trials w2
                  /\ participants w2
                     = <[pid := set_passed_hearing_test false (now o) row]>
                         (participants w1)
                  /\ trials w2 = trials w1) as (w2 & Hp2 & Ht2 & Hp3 & Ht3).
        { repeat case_match; simplify_eq; try (by eexists; split_and!).
          match goal with Hpre : pre_evaluation_tasks _ _ ?w0 = _ |- _ =>
            destruct (pre_evaluation_tasks_keeps_all CONFIGURATION o w0)
              as (Hpp & Hpt & _); rewrite Hpre in Hpp, Hpt; simpl in Hpp, Hpt end.
          exists (set_participant pid (set_passed_hearing_test false (now o) row) w1).
          by split_and!. }
        rewrite Hp2, Ht2, Hp3, Ht3, Hp, Ht. split_and!; try done.
        right. by exists pid, row, false.
      * injection Hh as <- <-. simpl. rewrite Hp, Ht.
        split_and!; [done | done | by left].
      * injection Hh as <- <-. rewrite Hp, Ht. split_and!; [done | done | by left].
      * injection Hh as <- <-. rewrite Hp, Ht. split_and!; [done | done | by left].
  - destruct method; simpl in Hh.
    + injection Hh as <- <-. rewrite Hp0, Ht0. split_and!; [done | done | by left].
    + destruct (read_challenge_keeps w0) as (Hs & Hp & Ht).
      destruct (read_challenge w0) as [[t1 t2] w1]. simpl in *.
      destruct (tone_counts_match form t1 t2) as [[|]|e]; simpl in Hh;
        injection Hh as <- <-; simpl; rewrite Hp, Ht, Hp0, Ht0;
        (split_and!; [done | done | by left]).
  - injection Hh as <- <-. split_and!; [done | done | by left].
Qed.

End ChallengeFacts.

(** ** Further properties of the evaluation submission *)

Section SubmissionFacts.
Context `{Collaborators}.

Lemma evaluation_saved rq o w message trial_id :
  (evaluation rq o w).1 = Ok (Json false message trial_id) ->
  exists c pid items new,
    (get_current_participant w).1 = Ok c
    /\ checked_submission c rq = Ok (pid, items)
    /\ new_trials c pid (default PyNone (session w !! "crowd_data")) items = Ok new
    /\ new <> []
    /\ trials (evaluation rq o w).2 = trials w ++ keyed o new.
Proof.
  intros Hs. destruct (get_current_participant w).1 as [c|e] eqn:Ec.
  - destruct (evaluation_returns rq o w c Ec) as (Hr & Ht & _).
    destruct (committed_trials c _ rq o) as [new|e] eqn:Ea.
    + destruct (committed_trials_ok _ _ _ _ _ Ea) as (pid & items & Hcs & Hn & Hne & _).
      by exists c, pid, items, new.
    + rewrite Hr in Hs. discriminate.
  - rewrite (evaluation_lookup_raises rq o w e Ec) in Hs. discriminate.
Qed.

(** X8. When an evaluation POST is answered "Data is saved!", the submitted
    participant id is the key of the participant the session names, and the
    request has stored as many trials as the submission has items, each
    under that participant id, with the crowd data of the session and with
    the hearing-test outcome the participant has at that moment. *)
Theorem evaluation_trials_of_submitter rq o w pid row message trial_id :
  resolves w pid row ->
  (evaluation rq o w).1 = Ok (Json false message trial_id) ->
  submitted_participant_id rq = Ok pid
  /\ exists items new,
       (condition_data <- submitted_condition_data rq ;; iterate condition_data)
         = Ok items
       /\ length new = length items
       /\ trials (evaluation rq o w).2 = trials w ++ keyed o new
       /\ Forall (fun trial =>
                    participant_id trial = pid
                    /\ participant_passed_hearing_test trial = passed_hearing_test row
                    /\ crowd_data trial = default PyNone (session w !! "crowd_data"))
            new.
Proof.
  intros Hr Hs.
  destruct (evaluation_saved rq o w message trial_id Hs)
    as (c & pid' & items & new & Hc & Hcs & Hn & _ & Ht).
  rewrite (get_current_participant_found _ _ _ Hr) in Hc. injection Hc as <-.
  destruct (checked_submission_ok _ _ _ _ Hcs) as (Hsub & Hpk & Hit).
  injection Hpk as <-. split; [done|].
  exists items, new. split; [done|].
  pose proof (new_trials_each _ _ _ _ _ Hn) as HF.
  split; [symmetry; by eapply Forall2_length|]. split; [done|].
  clear -HF. induction HF as [|cd t items new Hnt HF IH]; constructor; [|done].
  destruct (new_trial_fields _ _ _ _ _ Hnt) as (Hp & Hcr & _ & _ & Hpass).
  simpl in Hpass. by injection Hpass as ->.
Qed.

(** X9. An evaluation POST is answered "Data is saved!" only for a
    submission that is a non-empty JSON array of objects, each with a
    [conditionID] that [int] accepts: an object, a string, a number, an
    empty array, or an item without that key never is. *)
Theorem evaluation_saved_only_well_formed rq o w message trial_id :
  (evaluation rq o w).1 = Ok (Json false message trial_id) ->
  exists items,
    completedConditionData rq = Some (Some (JArr items))
    /\ items <> []
    /\ Forall (fun cd => exists fields v n,
                 cd = JObj fields
                 /\ assoc "conditionID" fields = Some v
                 /\ int_of_json v = Ok n) items.
Proof.
  intros Hs.
  destruct (evaluation_saved rq o w message trial_id Hs)
    as (c & pid & items & new & _ & Hcs & Hn & Hne & _).
  destruct (checked_submission_ok _ _ _ _ Hcs) as (_ & _ & Hit).
  pose proof (new_trials_each _ _ _ _ _ Hn) as HF.
  assert (Hitems : Forall (fun cd => exists fields v n,
                     cd = JObj fields /\ assoc "conditionID" fields = Some v
                     /\ int_of_json v = Ok n) items).
  { clear -HF. induction HF as [|cd t items new Hnt HF IH]; constructor; [|done].
    destruct (new_trial_fields _ _ _ _ _ Hnt) as (_ & _ & Hid & _).
    unfold getitem in Hid. destruct cd; try discriminate.
    destruct (assoc "conditionID" fields) as [v|] eqn:Ev; [|discriminate].
    simpl in Hid. by exists fields, v, (condition_id t). }
  assert (Hnonempty : items <> []).
  { intros ->. inversion HF. subst. by destruct Hne. }
  unfold submitted_condition_data in Hit.
  destruct (completedConditionData rq) as [[doc|]|]; try discriminate.
  simpl in Hit. destruct doc; simpl in Hit; try discriminate;
    injection Hit as <-.
  - destruct s as [|a s]; [done|]. simpl in Hitems.
    apply Forall_cons in Hitems as [(? & ? & ? & ? & _) _]. discriminate.
  - by exists items0.
  - destruct fields as [|kv fields]; [done|]. simpl in Hitems.
    apply Forall_cons in Hitems as [(? & ? & ? & ? & _) _]. discriminate.
Qed.

(** X10. Whatever the submission, an evaluation POST changes no row of a
    participant and no key of the session, and it removes or alters no
    trial: the table after the request is the table before, followed by the
    trials of the request. *)
Theorem evaluation_footprint rq o w :
  participants (evaluation rq o w).2 = participants w
  /\ session (evaluation rq o w).2 = session w
  /\ exists new, trials (evaluation rq o w).2 = trials w ++ new.
Proof.
  destruct (get_current_participant w).1 as [c|e] eqn:Ec.
  - destruct (evaluation_returns rq o w c Ec) as (_ & Ht & Hp & Hs).
    split; [done|]. split; [done|].
    destruct (committed_trials c _ rq o) as [new|e].
    + by exists (keyed o new).
    + exists []. by rewrite app_nil_r.
  - rewrite (evaluation_lookup_raises rq o w e Ec). simpl.
    split; [done|]. split; [done|]. exists []. by rewrite app_nil_r.
Qed.

(** X11. A submission without items (an empty array, an empty object or an
    empty string), by the participant the session names, stores nothing and
    is answered with the JSON error: the error of the unbound name [trial]
    when the commit succeeds, the error of the database when it does not. *)
Theorem evaluation_empty_submission rq o w pid row :
  resolves w pid row ->
  submitted_participant_id rq = Ok pid ->
  (condition_data <- submitted_condition_data rq ;; iterate condition_data) = Ok [] ->
  (evaluation rq o w).1
    = Ok (Json true
            ("Error saving data. Error "
             ++ sign_data (PyStr (str_exn (if commit_succeeds o
                                           then NameError "trial"
                                           else DatabaseError))))%string
            None)
  /\ trials (evaluation rq o w).2 = trials w.
Proof.
  intros Hr Hn Hit.
  destruct (evaluation_returns rq o w (Found pid row)) as (Hf & Ht & _).
  { by rewrite (get_current_participant_found _ _ _ Hr). }
  assert (Ha : forall crowd,
             committed_trials (Found pid row) crowd rq o
             = Raise (if commit_succeeds o then NameError "trial" else DatabaseError)).
  { intros crowd. unfold committed_trials, checked_submission. rewrite Hn. simpl.
    rewrite Z.eqb_refl. simpl.
    destruct (submitted_condition_data rq) as [doc|]; [|done]. simpl in *.
    rewrite Hit. simpl. by destruct (commit_succeeds o). }
  rewrite Ha in Hf, Ht. by split.
Qed.

End SubmissionFacts.

(** ** The surveys and the steps after the evaluation *)

Section SurveyFacts.
Context `{Collaborators}.
Variable CONFIGURATION : Configuration.
Variable OPTIONS : Options.

Lemma store_form_found update form o w pid row :
  resolves w pid row ->
  commit_succeeds o = true ->
  Route.store_form update form o w
    = (Ok tt, set_participant pid (update (form_document form) row) w).
Proof.
  intros Hr Hc. unfold Route.store_form.
  rewrite (get_current_participant_found _ _ _ Hr). simpl.
  unfold commit_participant. by rewrite Hc.
Qed.

Lemma set_participant_resolves w pid row row' :
  resolves w pid row -> resolves (set_participant pid row' w) pid row'.
Proof.
  intros [Hs _]. split; [done|]. apply lookup_insert_eq.
Qed.

(** X12. A POST of the pre-test survey, by a participant the session names
    and with a commit that succeeds, stores the answers in the row of that
    participant whether they meet the inclusion criteria or not, in place of
    an earlier survey and with the other columns as they were; answers that
    do not meet the criteria get the page "inclusion criteria not met". *)
Theorem pre_test_survey_stored form o w pid row :
  resolves w pid row ->
  commit_succeeds o = true ->
  exists row',
    participants (Route.pre_test_survey CONFIGURATION POST form o w).2
      = <[pid := row']> (participants w)
    /\ pre_test_survey row' = Some (form_document form)
    /\ gave_consent row' = gave_consent row
    /\ hearing_test_attempts row' = hearing_test_attempts row
    /\ passed_hearing_test row' = passed_hearing_test row
    /\ (is_pre_test_survey_valid (form_document form)
          (pre_test_survey_inclusion_criteria CONFIGURATION) = false ->
        (Route.pre_test_survey CONFIGURATION POST form o w).1
          = Ok (Sorry inclusion_criteria_not_met)).
Proof.
  intros Hr Hc. unfold Route.pre_test_survey.
  rewrite (store_form_found _ form o w pid row Hr Hc).
  exists (with_pre_test_survey (form_document form) row).
  destruct (is_pre_test_survey_valid _ _); [|by split_and!].
  destruct (pre_evaluation_tasks_keeps_all CONFIGURATION o
              (set_participant pid (with_pre_test_survey (form_document form) row) w))
    as (Hp & _).
  rewrite Hp. by split_and!.
Qed.

(** X13. That POST is never answered by sending back to the survey; when
    the answers meet the criteria, conditions are assigned, and consent and
    the hearing test are met or not required, it is answered by the redirect
    to the evaluation. *)
Theorem pre_test_survey_moves_on form o w pid row :
  resolves w pid row ->
  commit_succeeds o = true ->
  (Route.pre_test_survey CONFIGURATION POST form o w).1
    <> Ok (Redirect "pre_test_survey")
  /\ (forall ids,
        is_pre_test_survey_valid (form_document form)
          (pre_test_survey_inclusion_criteria CONFIGURATION) = true ->
        assign_conditions o = Ok ids -> no_conditions ids = false ->
        obtain_consent CONFIGURATION && negb (gave_consent row) = false ->
        hearing_screening_test_enabled CONFIGURATION
          && negb (has_passed_hearing_test_recently
                     (with_pre_test_survey (form_document form) row) (now o)) = false ->
        (Route.pre_test_survey CONFIGURATION POST form o w).1
          = Ok (Redirect "evaluation")).
Proof.
  intros Hr Hc. unfold Route.pre_test_survey.
  rewrite (store_form_found _ form o w pid row Hr Hc).
  set (row' := with_pre_test_survey (form_document form) row).
  pose proof (set_participant_resolves w pid row row' Hr) as Hr'.
  destruct (is_pre_test_survey_valid _ _) eqn:Ev; [|by split].
  split.
  - destruct (assign_conditions o) as [ids|e] eqn:Ha.
    + rewrite (pre_evaluation_tasks_found CONFIGURATION o _ pid row' ids Hr' Ha). simpl.
      destruct (no_conditions ids); [discriminate|].
      unfold next_step. simpl. rewrite Ev.
      repeat case_match; discriminate.
    + by rewrite (pre_evaluation_tasks_raises CONFIGURATION o _ pid row' e Hr' Ha).
  - intros ids _ Ha Hno Hcon Hhear.
    rewrite (pre_evaluation_tasks_found CONFIGURATION o _ pid row' ids Hr' Ha), Hno.
    simpl. unfold next_step. simpl. rewrite Hcon, Hhear, Ev.
    by destruct (pre_test_survey_enabled CONFIGURATION).
Qed.

(** The steps after the evaluation that are still due. *)
Lemma post_evaluation_tasks_found w pid row :
  resolves w pid row ->
  Route.post_evaluation_tasks OPTIONS w
    = (if hearing_response_estimation_enabled OPTIONS
          && is_none (hearing_response_estimation row)
       then Ok (Plain (Redirect "hearing_response_estimation"))
       else if post_test_survey_enabled OPTIONS && is_none (post_test_survey row)
       then Ok (Plain (Redirect "post_test_survey"))
       else Route.redirect_to_end w,
       w).
Proof.
  intros Hr. unfold Route.post_evaluation_tasks.
  rewrite (get_current_participant_found _ _ _ Hr). simpl. f_equal.
  destruct (hearing_response_estimation_enabled OPTIONS),
    (hearing_response_estimation row); simpl; try done;
    destruct (post_test_survey_enabled OPTIONS), (post_test_survey row); done.
Qed.

Lemma redirect_to_end_no_platform w :
  session w !! "platform" = None \/ session w !! "platform" = Some PyNone ->
  Route.redirect_to_end w = Raise (BuildError "end").
Proof.
  unfold Route.redirect_to_end. by intros [-> | ->].
Qed.

Lemma redirect_to_end_not_back w step :
  Route.redirect_to_end w <> Ok (Plain (Redirect step)).
Proof.
  unfold Route.redirect_to_end. by destruct (default PyNone (session w !! "platform")).
Qed.

#[local] Set Warnings "-clear-no-such-hyp".

(** X14. For a participant the session names, [post_evaluation_tasks]
    changes nothing. It redirects to the hearing response estimation exactly
    when that is enabled and not recorded, and to the post-test survey
    exactly when the estimation is met and the survey is enabled and not
    recorded. When both are met it redirects to the end page of the platform
    that the session holds, and ends with a [BuildError] when the session
    holds none: the URL of the end page cannot be built without it. *)
Theorem post_evaluation_tasks_end w pid row :
  resolves w pid row ->
  let estimation_met :=
    hearing_response_estimation_enabled OPTIONS = false
    \/ is_Some (hearing_response_estimation row) in
  let survey_met :=
    post_test_survey_enabled OPTIONS = false \/ is_Some (post_test_survey row) in
  let no_platform :=
    session w !! "platform" = None \/ session w !! "platform" = Some PyNone in
  (Route.post_evaluation_tasks OPTIONS w).2 = w
  /\ ((Route.post_evaluation_tasks OPTIONS w).1
        = Ok (Plain (Redirect "hearing_response_estimation"))
      <-> ~ estimation_met)
  /\ ((Route.post_evaluation_tasks OPTIONS w).1
        = Ok (Plain (Redirect "post_test_survey"))
      <-> estimation_met /\ ~ survey_met)
  /\ ((Route.post_evaluation_tasks OPTIONS w).1 = Raise (BuildError "end")
      <-> estimation_met /\ survey_met /\ no_platform)
  /\ (forall platform,
        (Route.post_evaluation_tasks OPTIONS w).1
          = Ok (RedirectTo {| endpoint := "end";
                              values := [("platform", platform)] |} ∅)
        <-> estimation_met /\ survey_met
            /\ session w !! "platform" = Some platform /\ platform <> PyNone).
Proof.
  intros Hr estimation_met survey_met no_platform.
  subst estimation_met survey_met no_platform.
  rewrite (post_evaluation_tasks_found w pid row Hr). simpl.
  split; [done|]. unfold Route.redirect_to_end.
  destruct (session w !! "platform") as [[|n|name|l|d]|] eqn:Ep; simpl;
    destruct (hearing_response_estimation_enabled OPTIONS),
      (hearing_response_estimation row) as [e|],
      (post_test_survey_enabled OPTIONS), (post_test_survey row) as [s|]; simpl;
    unfold is_Some; naive_solver.
Qed.

(** X15. A POST of the hearing response estimation, by a participant the
    session names and with a commit that succeeds, stores the answers in the
    row of that participant and is never answered by sending back to the
    estimation: it goes on to the post-test survey when that is due, and to
    the end page otherwise. In a session without a platform the end page
    cannot be reached: the request then ends with a [BuildError], the
    answers being stored. *)
Theorem hearing_response_estimation_moves_on form o w pid row :
  resolves w pid row ->
  commit_succeeds o = true ->
  exists row',
    participants (Route.hearing_response_estimation OPTIONS form o w).2
      = <[pid := row']> (participants w)
    /\ hearing_response_estimation row' = Some (form_document form)
    /\ post_test_survey row' = post_test_survey row
    /\ (Route.hearing_response_estimation OPTIONS form o w).1
       = (if post_test_survey_enabled OPTIONS && is_none (post_test_survey row)
          then Ok (Plain (Redirect "post_test_survey"))
          else Route.redirect_to_end w)
    /\ (Route.hearing_response_estimation OPTIONS form o w).1
       <> Ok (Plain (Redirect "hearing_response_estimation"))
    /\ (post_test_survey_enabled OPTIONS && is_none (post_test_survey row) = false ->
        session w !! "platform" = None \/ session w !! "platform" = Some PyNone ->
        (Route.hearing_response_estimation OPTIONS form o w).1
          = Raise (BuildError "end")).
Proof.
  intros Hr Hc. unfold Route.hearing_response_estimation.
  rewrite (store_form_found _ form o w pid row Hr Hc).
  set (row' := with_hearing_response_estimation (form_document form) row).
  rewrite (post_evaluation_tasks_found _ pid row'
             (set_participant_resolves w pid row row' Hr)).
  exists row'. simpl. rewrite andb_false_r.
  change (Route.redirect_to_end (set_participant pid row' w))
    with (Route.redirect_to_end w).
  split_and!; try done.
  - destruct (post_test_survey_enabled OPTIONS && is_none (post_test_survey row));
      [done | apply redirect_to_end_not_back].
  - intros -> Hp. by apply redirect_to_end_no_platform.
Qed.

(** X16. A POST of the post-test survey, likewise, stores the answers and
    is never answered by sending back to that survey: it goes to the hearing
    response estimation when that is enabled and not recorded, and to the end
    page otherwise. In a session without a platform the end page cannot be
    reached: the request then ends with a [BuildError], the answers being
    stored. *)
Theorem post_test_survey_moves_on form o w pid row :
  resolves w pid row ->
  commit_succeeds o = true ->
  exists row',
    participants (Route.post_test_survey OPTIONS POST form o w).2
      = <[pid := row']> (participants w)
    /\ post_test_survey row' = Some (form_document form)
    /\ hearing_response_estimation row' = hearing_response_estimation row
    /\ (Route.post_test_survey OPTIONS POST form o w).1
       = (if hearing_response_estimation_enabled OPTIONS
             && is_none (hearing_response_estimation row)
          then Ok (Plain (Redirect "hearing_response_estimation"))
          else Route.redirect_to_end w)
    /\ (Route.post_test_survey OPTIONS POST form o w).1
       <> Ok (Plain (Redirect "post_test_survey"))
    /\ (hearing_response_estimation_enabled OPTIONS
          && is_none (hearing_response_estimation row) = false ->
        session w !! "platform" = None \/ session w !! "platform" = Some PyNone ->
        (Route.post_test_survey OPTIONS POST form o w).1 = Raise (BuildError "end")).
Proof.
  intros Hr Hc. unfold Route.post_test_survey.
  rewrite (store_form_found _ form o w pid row Hr Hc).
  set (row' := with_post_test_survey (form_document form) row).
  rewrite (post_evaluation_tasks_found _ pid row'
             (set_participant_resolves w pid row row' Hr)).
  exists row'. simpl. rewrite andb_false_r.
  change (Route.redirect_to_end (set_participant pid row' w))
    with (Route.redirect_to_end w).
  split_and!; try done.
  - destruct (hearing_response_estimation_enabled OPTIONS
              && is_none (hearing_response_estimation row));
      [done | apply redirect_to_end_not_back].
  - intros -> Hp. by apply redirect_to_end_no_platform.
Qed.

End SurveyFacts.

(** ** Entering the experiment *)

Section EntryFacts.
Context `{Collaborators} `{Platform}.
Variable CONFIGURATION : Configuration.
Variable OPTIONS : Options.

(** The crowd data that [create_participant] writes to the session. *)
Lemma create_participant_returning type worker remote_addr args o w directory id :
  Route.find_worker worker directory = Some id ->
  Route.create_participant CONFIGURATION type worker remote_addr args o w directory
  = (pre_evaluation_tasks CONFIGURATION o
       (set_session "crowd_data"
          (PyDict [("hit_id", args_get args "hitId" PyNone);
                   ("assignment_id",
                    args_get args "assignmentId" (PyStr "ASSIGNMENT_ID_NOT_AVAILABLE"));
                   ("turk_submit_to",
                    args_get args "turkSubmitTo" (PyStr "TURK_SUBMIT_TO_NOT_AVAILABLE"))])
          (set_session "participant_id" (PyInt id)
             (logger (LogInfo "Participant has returned") (clear_session w)))),
     directory).
Proof.
  intros Hf. unfold Route.create_participant. rewrite Hf.
  by destruct (pre_evaluation_tasks _ _ _).
Qed.

Lemma create_participant_new type worker remote_addr args o w directory :
  Route.find_worker worker directory = None ->
  commit_succeeds o = true ->
  Route.create_participant CONFIGURATION type worker remote_addr args o w directory
  = (pre_evaluation_tasks CONFIGURATION o
       (set_session "crowd_data"
          (PyDict [("hit_id", args_get args "hitId" PyNone);
                   ("assignment_id",
                    args_get args "assignmentId" (PyStr "ASSIGNMENT_ID_NOT_AVAILABLE"));
                   ("turk_submit_to",
                    args_get args "turkSubmitTo" (PyStr "TURK_SUBMIT_TO_NOT_AVAILABLE"))])
          (set_session "participant_id" (PyInt (primary_key o 0))
             (logger (LogInfo "New Participant")
                (set_participant (primary_key o 0)
                   (Participant_ type worker remote_addr) (clear_session w))))),
     directory ++ [(primary_key o 0,
                    {| participant_type := type; crowd_worker_id := worker;
                       ip_address := remote_addr |})]).
Proof.
  intros Hf Hc. unfold Route.create_participant. rewrite Hf, Hc.
  by destruct (pre_evaluation_tasks _ _ _).
Qed.

Lemma find_worker_added worker directory id identity :
  Route.find_worker worker directory = None ->
  crowd_worker_id identity = worker ->
  Route.find_worker worker (directory ++ [(id, identity)]) = Some id.
Proof.
  unfold Route.find_worker. intros Hf Hw.
  induction directory as [|[k i] directory IH]; simpl in *.
  - rewrite Hw, String.eqb_refl. done.
  - destruct (String.eqb (crowd_worker_id i) worker); [done|]. by apply IH.
Qed.

Lemma session_after_entry o w0 id crowd :
  session w0 = ∅ ->
  let w' := (pre_evaluation_tasks CONFIGURATION o
               (set_session "crowd_data" crowd
                  (set_session "participant_id" (PyInt id) w0))).2 in
  session w' !! "participant_id" = Some (PyInt id)
  /\ session w' !! "crowd_data" = Some crowd
  /\ (forall key, key <> "participant_id" -> key <> "crowd_data" ->
      key <> "condition_ids" -> session w' !! key = None)
  /\ participants w' = participants w0
  /\ trials w' = trials w0.
Proof.
  intros He w'. subst w'.
  destruct (pre_evaluation_tasks_keeps_all CONFIGURATION o
              (set_session "crowd_data" crowd
                 (set_session "participant_id" (PyInt id) w0)))
    as (Hp & Ht & _ & Hs).
  rewrite Hp, Ht. split_and!; try done.
  - rewrite Hs by done. simpl. by rewrite lookup_insert_ne, lookup_insert_eq.
  - rewrite Hs by done. simpl. by rewrite lookup_insert_eq.
  - intros key H1 H2 H3. rewrite Hs by done. simpl.
    by rewrite !lookup_insert_ne, He.
Qed.

Lemma known_worker_enters type worker remote_addr args o w directory id :
  Route.find_worker worker directory = Some id ->
  let after :=
    Route.create_participant CONFIGURATION type worker remote_addr args o w directory in
  after.2 = directory
  /\ participants after.1.2 = participants w
  /\ trials after.1.2 = trials w
  /\ session after.1.2 !! "participant_id" = Some (PyInt id)
  /\ forall key, key <> "participant_id" -> key <> "crowd_data" ->
       key <> "condition_ids" -> session after.1.2 !! key = None.
Proof.
  intros Hf after. subst after.
  rewrite (create_participant_returning _ _ _ _ _ _ _ _ Hf). simpl.
  destruct (session_after_entry o
              (logger (LogInfo "Participant has returned") (clear_session w)) id
              (PyDict [("hit_id", args_get args "hitId" PyNone);
                       ("assignment_id",
                        args_get args "assignmentId" (PyStr "ASSIGNMENT_ID_NOT_AVAILABLE"));
                       ("turk_submit_to",
                        args_get args "turkSubmitTo"
                          (PyStr "TURK_SUBMIT_TO_NOT_AVAILABLE"))]) eq_refl)
    as (Hid & _ & Hkeys & Hp & Ht).
  by split_and!.
Qed.

(** X17. [create_participant] for a worker id that a row of the table has
    adds no row: the table and its rows stay as they were, and the session
    is made anew for the first such row: it names that participant and holds
    nothing of an earlier visit (no challenge token, no other key) besides
    the crowd data and the condition ids of this one. *)
Theorem create_participant_known_worker type worker remote_addr args o w directory id :
  Route.find_worker worker directory = Some id ->
  let after :=
    Route.create_participant CONFIGURATION type worker remote_addr args o w directory in
  after.2 = directory
  /\ participants after.1.2 = participants w
  /\ trials after.1.2 = trials w
  /\ session after.1.2 !! "participant_id" = Some (PyInt id)
  /\ forall key, key <> "participant_id" -> key <> "crowd_data" ->
       key <> "condition_ids" -> session after.1.2 !! key = None.
Proof. apply known_worker_enters. Qed.

Lemma new_worker_enters type worker remote_addr args o w directory :
  Route.find_worker worker directory = None ->
  let after :=
    Route.create_participant CONFIGURATION type worker remote_addr args o w directory in
  if commit_succeeds o then
    after.2 = directory ++ [(primary_key o 0,
                             {| participant_type := type; crowd_worker_id := worker;
                                ip_address := remote_addr |})]
    /\ participants after.1.2
       = <[primary_key o 0 := Participant_ type worker remote_addr]> (participants w)
    /\ trials after.1.2 = trials w
    /\ session after.1.2 !! "participant_id" = Some (PyInt (primary_key o 0))
  else
    after.1.1 = Raise DatabaseError
    /\ after.2 = directory
    /\ participants after.1.2 = participants w.
Proof.
  intros Hf after. subst after. destruct (commit_succeeds o) eqn:Hc.
  - rewrite (create_participant_new _ _ _ _ _ _ _ Hf Hc). simpl.
    destruct (session_after_entry o
                (logger (LogInfo "New Participant")
                   (set_participant (primary_key o 0)
                      (Participant_ type worker remote_addr) (clear_session w)))
                (primary_key o 0)
                (PyDict [("hit_id", args_get args "hitId" PyNone);
                         ("assignment_id",
                          args_get args "assignmentId"
                            (PyStr "ASSIGNMENT_ID_NOT_AVAILABLE"));
                         ("turk_submit_to",
                          args_get args "turkSubmitTo"
                            (PyStr "TURK_SUBMIT_TO_NOT_AVAILABLE"))]) eq_refl)
      as (Hid & _ & _ & Hp & Ht).
    by split_and!.
  - unfold Route.create_participant. by rewrite Hf, Hc.
Qed.

(** X18. [create_participant] for a worker id that no row has, with a commit
    that succeeds, adds exactly one row, under the key the database gives
    and with the type, worker id and address of the request; the rows under
    other keys stay as they were and the session names the new participant.
    When the commit fails the request ends with the error of the database
    and no row is added. *)
Theorem create_participant_new_worker type worker remote_addr args o w directory :
  Route.find_worker worker directory = None ->
  let after :=
    Route.create_participant CONFIGURATION type worker remote_addr args o w directory in
  if commit_succeeds o then
    after.2 = directory ++ [(primary_key o 0,
                             {| participant_type := type; crowd_worker_id := worker;
                                ip_address := remote_addr |})]
    /\ participants after.1.2 !! primary_key o 0
       = Some (Participant_ type worker remote_addr)
    /\ (forall key, key <> primary_key o 0 ->
        participants after.1.2 !! key = participants w !! key)
    /\ trials after.1.2 = trials w
    /\ session after.1.2 !! "participant_id" = Some (PyInt (primary_key o 0))
  else
    after.1.1 = Raise DatabaseError
    /\ after.2 = directory
    /\ participants after.1.2 = participants w.
Proof.
  intros Hf after. subst after.
  pose proof (new_worker_enters type worker remote_addr args o w directory Hf) as Hn.
  simpl in Hn. destruct (commit_succeeds o); [|done].
  destruct Hn as (Hd & Hp & Ht & Hs). rewrite Hp. split_and!; try done.
  - apply lookup_insert_eq.
  - intros key Hk. by rewrite lookup_insert_ne.
Qed.

(** X19. Entering twice with one worker id gives one participant: after a
    first [create_participant] whose commit succeeds, a second one for the
    same worker id, whatever its type, address, arguments and oracle, adds
    no row, changes no row and names the same participant in the session. *)
Theorem create_participant_twice type worker remote_addr args o w directory
    type' remote_addr' args' o' :
  commit_succeeds o = true ->
  let first :=
    Route.create_participant CONFIGURATION type worker remote_addr args o w directory in
  let second :=
    Route.create_participant CONFIGURATION type' worker remote_addr' args' o'
      first.1.2 first.2 in
  second.2 = first.2
  /\ participants second.1.2 = participants first.1.2
  /\ session second.1.2 !! "participant_id" = session first.1.2 !! "participant_id".
Proof.
  intros Hc first second.
  assert (Hknown : exists id,
            Route.find_worker worker first.2 = Some id
            /\ session first.1.2 !! "participant_id" = Some (PyInt id)).
  { subst first second. destruct (Route.find_worker worker directory) as [id|] eqn:Hf.
    - exists id.
      destruct (known_worker_enters type worker remote_addr args o w
                  directory id Hf) as (Hd & _ & _ & Hs & _).
      by rewrite Hd.
    - exists (primary_key o 0).
      pose proof (new_worker_enters type worker remote_addr args o w
                    directory Hf) as Hn.
      rewrite Hc in Hn. destruct Hn as (Hd & _ & _ & Hs).
      rewrite Hd. split; [|done]. by apply find_worker_added. }
  destruct Hknown as (id & Hf & Hs).
  destruct (known_worker_enters type' worker remote_addr' args' o'
              first.1.2 first.2 id Hf) as (Hd & Hp & _ & Hs' & _).
  subst second. by rewrite Hs.
Qed.

(** X20. [create_participant] reads the crowd data from the arguments
    [hitId], [assignmentId] and [turkSubmitTo] of its request and from no
    other. The values that [mturk] gives to its redirect have other names,
    so a request whose arguments are named as those values leaves the
    defaults in the session: no hit id, and "not available" for the
    assignment id and the submission URL. *)
Theorem create_participant_crowd_data type worker remote_addr args o w directory
    mturk_args t query :
  Route.mturk mturk_args = Ok (RedirectTo t query) ->
  (forall key, is_Some (args !! key) -> key ∈ (values t).*1) ->
  commit_succeeds o = true ->
  session (Route.create_participant CONFIGURATION type worker remote_addr args o w
             directory).1.2 !! "crowd_data"
  = Some (PyDict [("hit_id", PyNone);
                  ("assignment_id", PyStr "ASSIGNMENT_ID_NOT_AVAILABLE");
                  ("turk_submit_to", PyStr "TURK_SUBMIT_TO_NOT_AVAILABLE")]).
Proof.
  intros Hm Hnames Hc.
  assert (Hvalues : (values t).*1
                    = ["platform"; "crowd_worker_id"; "submission_url";
                       "crowd_assignment_id"; "crowd_assignment_type"; "preview"]).
  { unfold Route.mturk in Hm. destruct (Route.args_getitem _ _); [|done].
    simpl in Hm. by destruct (_ || _); injection Hm as <- _. }
  assert (Habsent : forall key,
            key ∉ ["platform"; "crowd_worker_id"; "submission_url";
                   "crowd_assignment_id"; "crowd_assignment_type"; "preview"] ->
            args !! key = None).
  { intros key Hk. destruct (args !! key) eqn:Ek; [|done].
    destruct Hk. rewrite <- Hvalues. apply Hnames. by rewrite Ek. }
  assert (Hcrowd : forall d, args_get args "hitId" d = d
                             /\ args_get args "assignmentId" d = d
                             /\ args_get args "turkSubmitTo" d = d).
  { intros d. unfold args_get.
    rewrite !Habsent; [done|..]; rewrite !elem_of_cons, elem_of_nil;
      intros Hk; by repeat destruct Hk as [Hk|Hk]. }
  destruct (Route.find_worker worker directory) as [id|] eqn:Hf.
  - rewrite (create_participant_returning _ _ _ _ _ _ _ _ Hf). simpl.
    match goal with |- context [set_session "crowd_data" ?c ?w0] =>
      destruct (session_after_entry o
                  (logger (LogInfo "Participant has returned") (clear_session w))
                  id c eq_refl) as (_ & Hcd & _) end.
    rewrite Hcd. by rewrite !(proj1 (Hcrowd _)), !(proj1 (proj2 (Hcrowd _))),
                            !(proj2 (proj2 (Hcrowd _))).
  - rewrite (create_participant_new _ _ _ _ _ _ _ Hf Hc). simpl.
    match goal with |- context [set_session "crowd_data" ?c ?w0] =>
      destruct (session_after_entry o
                  (logger (LogInfo "New Participant")
                     (set_participant (primary_key o 0)
                        (Participant_ type worker remote_addr) (clear_session w)))
                  (primary_key o 0) c eq_refl) as (_ & Hcd & _) end.
    rewrite Hcd. by rewrite !(proj1 (Hcrowd _)), !(proj1 (proj2 (Hcrowd _))),
                            !(proj2 (proj2 (Hcrowd _))).
Qed.

End EntryFacts.

(** ** The MTurk entry, the begin page and the audio files *)

Section FileFacts.
Context `{Collaborators} `{Platform}.
Variable CONFIGURATION : Configuration.
Variable OPTIONS : Options.

(** X21. [mturk] needs the argument [assignmentId] (a bad request without
    it) and redirects to [begin]. The redirect is a preview, with the worker
    id "not available" and neither assignment id nor submission URL, exactly
    when the assignment id is "not available" or the worker id is missing or
    "not available"; otherwise it carries the worker id and the assignment
    id of the request and the submission URL joined to [turkSubmitTo]. *)
Theorem mturk_preview args :
  (args !! "assignmentId" = None ->
   Route.mturk args = Raise (BadRequestKeyError "assignmentId"))
  /\ forall assignment, args !! "assignmentId" = Some assignment ->
     let unavailable :=
       assignment = "ASSIGNMENT_ID_NOT_AVAILABLE"
       \/ args !! "workerId" = None
       \/ args !! "workerId" = Some "WORKER_ID_NOT_AVAILABLE" in
     exists t,
       Route.mturk args = Ok (RedirectTo t ∅)
       /\ endpoint t = "begin"
       /\ (unavailable ->
           assoc "preview" (values t) = Some (PyInt 1)
           /\ assoc "crowd_worker_id" (values t) = Some (PyStr "WORKER_ID_NOT_AVAILABLE")
           /\ assoc "crowd_assignment_id" (values t) = Some PyNone
           /\ assoc "submission_url" (values t) = Some PyNone)
       /\ (~ unavailable ->
           assoc "preview" (values t) = Some (PyInt 0)
           /\ assoc "crowd_assignment_id" (values t) = Some (PyStr assignment)
           /\ assoc "submission_url" (values t)
              = Some (PyStr (urljoin (default "TURK_SUBMIT_TO_NOT_AVAILABLE"
                                        (args !! "turkSubmitTo"))
                               "mturk/externalSubmit"))
           /\ exists worker,
                args !! "workerId" = Some worker
                /\ worker <> "WORKER_ID_NOT_AVAILABLE"
                /\ assoc "crowd_worker_id" (values t) = Some (PyStr worker)).
Proof.
  unfold Route.mturk, Route.args_getitem, args_get. split.
  - by intros ->.
  - intros assignment ->. simpl.
    destruct (String.eqb_spec assignment "ASSIGNMENT_ID_NOT_AVAILABLE") as [->|Ha];
      simpl.
    { eexists. split; [done|]. split; [done|]. split; [done|].
      intros Hn. destruct Hn. by left. }
    destruct (args !! "workerId") as [worker|] eqn:Ew; simpl.
    + destruct (String.eqb_spec worker "WORKER_ID_NOT_AVAILABLE") as [->|Hw].
      * eexists. split; [done|]. split; [done|]. split; [done|].
        intros Hn. destruct Hn. by right; right.
      * eexists. split; [done|]. split; [done|]. split.
        -- intros [?|[?|[= ?]]]; done.
        -- intros _. split_and!; try done. by exists worker.
    + eexists. split; [done|]. split; [done|]. split; [done|].
      intros Hn. destruct Hn. by right; left.
Qed.

(** X22. [begin] hands out the way to [create_participant], as a link or
    as a redirect, only to a browser of the allowlist (when there is one),
    with conditions available and when the request is no preview (its
    [preview] argument is missing or an integer that is zero); the link then
    names the platform and the worker id of the URL. *)
Theorem begin_offers_entry platform worker browser available args r t :
  Route.begin OPTIONS platform worker browser available args = Ok r ->
  offers r t ->
  browser_accepted OPTIONS browser
  /\ available <> 0
  /\ int_of_pyval (args_get args "preview" (PyInt 0)) = Ok 0
  /\ t = {| endpoint := "create_participant";
            values := [("participant_type", PyStr platform);
                       ("crowd_worker_id", PyStr worker)] |}.
Proof.
  unfold Route.begin, browser_accepted, offers, Route.create_participant_url.
  intros Hb Ho.
  assert (Hbrowser :
    match acceptable_browsers OPTIONS, browser with
    | None, _ => false
    | Some accepted, Some b => negb (existsb (String.eqb b) accepted)
    | Some accepted, None => true
    end = false ->
    match acceptable_browsers OPTIONS with
    | None => True
    | Some accepted => exists b, browser = Some b /\ b ∈ accepted
    end).
  { destruct (acceptable_browsers OPTIONS) as [accepted|]; [|done].
    destruct browser as [b|]; [|done]. intros Hn. exists b. split; [done|].
    apply negb_false_iff, existsb_exists in Hn as (b' & Hin & Heq).
    apply String.eqb_eq in Heq as ->. by apply list_elem_of_In. }
  destruct (match acceptable_browsers OPTIONS, browser with
            | None, _ => false
            | Some accepted, Some b => negb (existsb (String.eqb b) accepted)
            | Some accepted, None => true
            end) eqn:Eb.
  { injection Hb as <-. by destruct Ho as [(? & ?)|(? & ? & ?)]. }
  specialize (Hbrowser eq_refl).
  destruct (Z.eqb_spec available 0) as [|Hav].
  { injection Hb as <-. by destruct Ho as [(? & ?)|(? & ? & ?)]. }
  destruct (int_of_pyval (args_get args "preview" (PyInt 0))) as [preview|];
    simpl in Hb; [|done].
  destruct (Z.eqb_spec preview 0) as [Hz|Hp]; simpl in Hb.
  - rewrite Hz. repeat case_match; simplify_eq; simpl in *;
      destruct Ho as [(? & ?)|(? & ? & ?)]; by simplify_eq.
  - repeat case_match; simplify_eq;
      destruct Ho as [(? & ?)|(? & ? & ?)]; by simplify_eq.
Qed.

(** X23. A request to [begin] that is no preview and has a query argument
    named [participant_type] or [crowd_worker_id] ends with a [TypeError]
    (the name is given twice to [url_for]), once the browser and the
    available conditions have passed their checks. *)
Theorem begin_argument_twice platform worker browser available args :
  Route.begin OPTIONS platform worker browser available args
    <> Ok (Plain (Sorry browser_not_supported)) ->
  available <> 0 ->
  int_of_pyval (args_get args "preview" (PyInt 0)) = Ok 0 ->
  is_Some (args !! "participant_type") \/ is_Some (args !! "crowd_worker_id") ->
  Route.begin OPTIONS platform worker browser available args = Raise TypeError.
Proof.
  unfold Route.begin. intros Hb Hav Hp Hk.
  destruct (match acceptable_browsers OPTIONS, browser with
            | None, _ => false
            | Some accepted, Some b => negb (existsb (String.eqb b) accepted)
            | Some accepted, None => true
            end); [done|].
  destruct (Z.eqb_spec available 0); [done|]. rewrite Hp. simpl.
  assert (Hurl : Route.create_participant_url platform worker args = Raise TypeError).
  { unfold Route.create_participant_url, Route.collides. simpl.
    destruct Hk as [Hk|Hk]; rewrite !(bool_decide_eq_true_2 _ Hk);
      by rewrite ?orb_true_r. }
  rewrite Hurl. simpl. by repeat case_match.
Qed.

Lemma py_eqb_int p n : py_eqb p (PyInt n) = true -> p = PyInt n.
Proof.
  destruct p; simpl; try done. intros Hn. by apply Z.eqb_eq in Hn as ->.
Qed.

Lemma py_in_int_list c l :
  py_in c (PyIntList l) = Ok true -> exists n, c = PyInt n /\ n ∈ l.
Proof.
  simpl. intros [= Hex]. apply existsb_exists in Hex as (n & Hin & Heq).
  exists n. split; [by apply py_eqb_int | by apply list_elem_of_In].
Qed.

#[local] Opaque py_in py_eqb.

(** X24. [audio] gives out a file only for the session it was made for: in
    a session that names participant [pid] and holds the condition ids
    [ids], the decoded key is a dict whose [p_id] is [pid] and whose [c_id]
    is one of [ids], and the file is its [URL]; in a session without
    participant or without condition ids, [audio] gives out nothing. *)
Theorem audio_only_for_session audio_file_key w :
  (forall pid ids url,
     session w !! "participant_id" = Some (PyInt pid) ->
     session w !! "condition_ids" = Some (PyIntList ids) ->
     Route.audio audio_file_key w = Ok url ->
     exists audio_file_dict c_id,
       decrypt_data (PyStr audio_file_key) = Ok (PyDict audio_file_dict)
       /\ assoc "p_id" audio_file_dict = Some (PyInt pid)
       /\ assoc "c_id" audio_file_dict = Some (PyInt c_id)
       /\ c_id ∈ ids
       /\ assoc "URL" audio_file_dict = Some url)
  /\ (session w !! "participant_id" = None
      \/ session w !! "condition_ids" = None
      \/ session w !! "condition_ids" = Some PyNone ->
      exists e, Route.audio audio_file_key w = Raise e).
Proof.
  unfold Route.audio, session_getitem, py_getitem. split.
  - intros pid ids url Hp Hc. rewrite Hp, Hc. simpl.
    destruct (decrypt_data (PyStr audio_file_key)) as [[| | | |d]|]; simpl; try done.
    destruct (assoc "p_id" d) as [p_id|] eqn:Ep; simpl; [|done].
    destruct (py_eqb p_id (PyInt pid)) eqn:Eq; simpl; [|done].
    apply py_eqb_int in Eq as ->.
    destruct (assoc "c_id" d) as [c_id|] eqn:Ec; simpl; [|done].
    assert (Hin : forall b, py_in c_id (PyIntList ids) = Ok b -> b = true ->
                            exists n, c_id = PyInt n /\ n ∈ ids).
    { intros b Hb ->. by apply py_in_int_list. }
    destruct (py_in c_id (PyIntList ids)) as [[|]|]; simpl; try done.
    destruct (Hin true eq_refl eq_refl) as (n & -> & Hn).
    destruct (assoc "URL" d) as [u|] eqn:Eu; [|done].
    intros [= <-]. by exists d, n.
  - intros Hm.
    destruct (decrypt_data (PyStr audio_file_key)) as [[| | | |d]|]; simpl; eauto.
    destruct (assoc "p_id" d) as [p_id|]; simpl; eauto.
    destruct (session w !! "participant_id") as [sp|] eqn:Es; simpl; eauto.
    destruct (py_eqb p_id sp); simpl; eauto.
    destruct (assoc "c_id" d) as [c_id|]; simpl; eauto.
    destruct Hm as [?|[Hm|Hm]]; [done|rewrite Hm; simpl; eauto..].
Qed.

#[local] Transparent py_in py_eqb.

(** X25. The file [hearing_test_audio] opens for a slot of the challenge has
    the number of tones that the POST of the hearing test expects for that
    slot: for the index the token of the slot decodes to, the file is
    [tones<t>_<f>] with [t] the expected count and [index = t * K + f], with
    [0 <= f < K] for a positive [K = HEARING_TEST_AUDIO_FILES_PER_TONES].
    The example "0" is the calibration tone, with or without a challenge. *)
Theorem hearing_test_audio_tones example_num w :
  Route.hearing_test_audio "0" w = (Ok Calibration, w)
  /\ forall t f,
       example_num <> "0" ->
       (Route.hearing_test_audio example_num w).1 = Ok (Tones t f) ->
       exists token index,
         session w !! ("hearing_test_audio_index" ++ example_num)%string = Some token
         /\ decoded_index token = Ok index
         /\ expected_tones token = Ok t
         /\ index = t * HEARING_TEST_AUDIO_FILES_PER_TONES + f
         /\ (0 < HEARING_TEST_AUDIO_FILES_PER_TONES ->
             0 <= f < HEARING_TEST_AUDIO_FILES_PER_TONES).
Proof.
  split; [done|]. intros t f Hn. unfold Route.hearing_test_audio.
  destruct (String.eqb_spec example_num "0"); [done|].
  unfold session_getitem, expected_tones, floordiv, modulo.
  destruct (session w !! _) as [token|]; simpl; [|done].
  destruct (decoded_index token) as [index|] eqn:Ed; simpl; [|done].
  destruct (Z.eqb_spec HEARING_TEST_AUDIO_FILES_PER_TONES 0) as [|HK]; simpl; [done|].
  intros [= <- <-]. exists token, index.
  split; [done|]. split; [done|]. split; [by rewrite Ed|]. split.
  - rewrite Z.mul_comm. by apply Z.div_mod.
  - intros Hpos. by apply Z.mod_pos_bound.
Qed.

(** X26. The two files of one challenge differ: when decoding undoes
    encoding on the indices of the range, after a GET of the hearing test
    that issues a challenge, [hearing_test_audio] opens a file of tones for
    the slot "1" and another one for the slot "2". *)
Theorem hearing_test_audio_two_files fuel form0 o w w' pid row :
  resolves w pid row ->
  draws_in_range o ->
  (forall index,
     MIN_HEARING_TEST_AUDIO_INDEX <= index <= MAX_HEARING_TEST_AUDIO_INDEX ->
     decoded_index (PyStr (encrypt_data index)) = Ok index) ->
  HEARING_TEST_AUDIO_FILES_PER_TONES <> 0 ->
  hearing_test CONFIGURATION fuel GET form0 o w
    = Some (Ok (Render "hearing_screening.html"), w') ->
  exists t1 f1 t2 f2,
    (Route.hearing_test_audio "1" w').1 = Ok (Tones t1 f1)
    /\ (Route.hearing_test_audio "2" w').1 = Ok (Tones t2 f2)
    /\ Tones t1 f1 <> Tones t2 f2.
Proof.
  intros Hr Hrange Hround HK Hget.
  destruct (hearing_test_GET_issued CONFIGURATION fuel form0 o w w' pid row
              Hr Hrange Hget) as (i1 & i2 & Hne & R1 & R2 & Ht1 & Ht2 & _).
  set (K := HEARING_TEST_AUDIO_FILES_PER_TONES) in *.
  exists (i1 / K), (i1 mod K), (i2 / K), (i2 mod K).
  unfold Route.hearing_test_audio, session_getitem, floordiv, modulo.
  change (String.eqb "1" "0") with false. change (String.eqb "2" "0") with false.
  change ("hearing_test_audio_index" ++ "1")%string with "hearing_test_audio_index1".
  change ("hearing_test_audio_index" ++ "2")%string with "hearing_test_audio_index2".
  cbv iota. rewrite Ht1, Ht2. simpl. rewrite (Hround i1 R1), (Hround i2 R2). simpl.
  fold K. destruct (Z.eqb_spec K 0); [done|]. simpl.
  split; [done|]. split; [done|]. intros [= Hd Hm].
  apply Hne. rewrite (Z.div_mod i1 K), (Z.div_mod i2 K) by done. by rewrite Hd, Hm.
Qed.

End FileFacts.

(** ** Trial statistics *)

Section StatisticsFacts.

Lemma map_as_fmap {A B} (f : A -> B) (l : list A) : map f l = f <$> l.
Proof. reflexivity. Qed.

Lemma zero_counts_lookup (conditions : list Z) (c : Z) :
  (list_to_map (map (fun cond => (cond, 0)) conditions) : gmap Z Z) !! c
  = if bool_decide (c ∈ conditions) then Some 0 else None.
Proof.
  induction conditions as [|x l IH]; simpl.
  - by rewrite lookup_empty.
  - rewrite lookup_insert. destruct (decide (x = c)) as [->|Hne].
    + rewrite bool_decide_eq_true_2; [done | by left].
    + rewrite IH. destruct (decide (c ∈ l)).
      * rewrite !bool_decide_eq_true_2; [done | by right | done].
      * rewrite !bool_decide_eq_false_2; [done | | done].
        intros [?|?]%elem_of_cons; congruence.
Qed.

Lemma tally_cons passed c k t all :
  tally passed c ((k, t) :: all)
  = (if (condition_id t =? c)
        && Bool.eqb (default false (participant_passed_hearing_test t)) passed
     then 1 else 0) + tally passed c all.
Proof.
  unfold tally. simpl. destruct (_ && _); simpl; lia.
Qed.

Lemma count_one_lookup c counts counts' :
  count_one c counts = Ok counts' ->
  exists n, counts !! c = Some n /\ counts' = <[c := n + 1]> counts.
Proof.
  unfold count_one. destruct (counts !! c) as [n|]; [|done].
  intros [= <-]. by exists n.
Qed.

(** What the loop leaves in the two dicts. *)
Lemma count_trials_counts all : forall passed failed,
  (forall c, is_Some (passed !! c) <-> is_Some (failed !! c)) ->
  match count_trials all passed failed with
  | Ok (passed', failed') =>
      Forall (fun kt => is_Some (passed !! condition_id kt.2)) all
      /\ (forall c, passed' !! c = (fun n => n + tally true c all) <$> passed !! c)
      /\ (forall c, failed' !! c = (fun n => n + tally false c all) <$> failed !! c)
  | Raise e =>
      exists kt, kt ∈ all /\ passed !! condition_id kt.2 = None
                 /\ e = KeyError (pretty (condition_id kt.2))
  end.
Proof.
  induction all as [|[k t] all IH]; intros passed failed Hdom; simpl.
  - split; [done|]. split; intros c; [destruct (passed !! c)|destruct (failed !! c)];
      simpl; try done; f_equal; unfold tally; simpl; lia.
  - destruct (default false (participant_passed_hearing_test t)) eqn:Eflag.
    + destruct (count_one (condition_id t) passed) as [passed1|e] eqn:E1; simpl.
      * apply count_one_lookup in E1 as (n & Hn & ->).
        assert (Hdom1 : forall c, is_Some (<[condition_id t := n + 1]> passed !! c)
                                  <-> is_Some (failed !! c)).
        { intros c. rewrite <- Hdom, lookup_insert. case_decide; [subst|done].
          by rewrite Hn. }
        specialize (IH _ failed Hdom1).
        destruct (count_trials all _ failed) as [[p' f']|e].
        -- destruct IH as (HF & Hp & Hf). split_and!.
           ++ constructor; [simpl; by rewrite Hn|].
              eapply Forall_impl; [exact HF|]. intros kt. simpl.
              rewrite lookup_insert. case_decide as Hc; [by rewrite <- Hc, Hn | done].
           ++ intros c. rewrite Hp, tally_cons, Eflag, lookup_insert. simpl.
              case_decide as Hc.
              ** subst. rewrite Hn, Z.eqb_refl. simpl. f_equal. lia.
              ** destruct (Z.eqb_spec (condition_id t) c); [done|]. simpl.
                 destruct (passed !! c); simpl; [f_equal; lia | done].
           ++ intros c. rewrite Hf, tally_cons, Eflag. simpl.
              rewrite andb_false_r. by destruct (failed !! c).
        -- destruct IH as (kt & Hin & Hnone & ->). exists kt.
           split; [by right|]. split; [|done].
           rewrite lookup_insert in Hnone. by case_decide.
      * unfold count_one in E1. destruct (passed !! condition_id t) eqn:En; [done|].
        injection E1 as <-. exists (k, t). split; [by left|]. by split.
    + destruct (count_one (condition_id t) failed) as [failed1|e] eqn:E1; simpl.
      * apply count_one_lookup in E1 as (n & Hn & ->).
        assert (Hdom1 : forall c, is_Some (passed !! c)
                                  <-> is_Some (<[condition_id t := n + 1]> failed !! c)).
        { intros c. rewrite Hdom, lookup_insert. case_decide; [subst|done].
          by rewrite Hn. }
        specialize (IH passed _ Hdom1).
        destruct (count_trials all passed _) as [[p' f']|e].
        -- destruct IH as (HF & Hp & Hf). split_and!.
           ++ constructor; [|done]. simpl. apply Hdom. by rewrite Hn.
           ++ intros c. rewrite Hp, tally_cons, Eflag. simpl.
              rewrite andb_false_r. by destruct (passed !! c).
           ++ intros c. rewrite Hf, tally_cons, Eflag, lookup_insert. simpl.
              case_decide as Hc.
              ** subst. rewrite Hn, Z.eqb_refl. simpl. f_equal. lia.
              ** destruct (Z.eqb_spec (condition_id t) c); [done|]. simpl.
                 destruct (failed !! c); simpl; [f_equal; lia | done].
        -- destruct IH as (kt & Hin & Hnone & ->). exists kt.
           split; [by right|]. by split.
      * unfold count_one in E1. destruct (failed !! condition_id t) eqn:En; [done|].
        injection E1 as <-. exists (k, t). split; [by left|]. split; [|done].
        simpl. destruct (passed !! condition_id t) eqn:Ep; [|done].
        assert (is_Some (failed !! condition_id t)) as [? ?]; [|congruence].
        apply Hdom. by rewrite Ep.
Qed.

Lemma stat_rows_rows ids passed failed :
  Forall (fun i => is_Some (passed !! i) /\ is_Some (failed !! i)) ids ->
  exists rows,
    stat_rows ids passed failed = Ok rows
    /\ map (fun r => r.1.1) rows = ids
    /\ Forall (fun r => passed !! r.1.1 = Some r.1.2 /\ failed !! r.1.1 = Some r.2) rows.
Proof.
  induction 1 as [|i ids [[p Hp] [f Hf]] _ (rows & Hr & Hids & HF)]; simpl.
  - by exists [].
  - unfold count_of. rewrite Hp, Hf, Hr. simpl.
    exists ((i, p, f) :: rows). split; [done|]. split; [by rewrite <- Hids|].
    by constructor.
Qed.

(** The rows of [admin_stats] when no trial is of an unknown condition. *)
Lemma admin_stats_known conditions w :
  Forall (fun kt => condition_id kt.2 ∈ conditions) (trials w) ->
  exists rows,
    admin_stats conditions w = Ok rows
    /\ StronglySorted Z.le (map (fun r => r.1.1) rows)
    /\ NoDup (map (fun r => r.1.1) rows)
    /\ (forall c, c ∈ map (fun r => r.1.1) rows <-> c ∈ conditions)
    /\ Forall (fun r => r.1.2 = tally true r.1.1 (trials w)
                        /\ r.2 = tally false r.1.1 (trials w)) rows.
Proof.
  intros Hknown. unfold admin_stats.
  set (zero := list_to_map (map (fun cond => (cond, 0)) conditions) : gmap Z Z).
  pose proof (count_trials_counts (trials w) zero zero (fun c => reflexivity _)) as Hc.
  destruct (count_trials (trials w) zero zero) as [[p' f']|e]; simpl.
  - destruct Hc as (_ & Hp & Hf).
    assert (Hkeys : forall c, c ∈ (map_to_list p').*1 <-> c ∈ conditions).
    { intros c. rewrite list_elem_of_fmap. split.
      - intros ([c' n] & -> & Hin). apply elem_of_map_to_list in Hin. simpl.
        rewrite Hp in Hin. subst zero. rewrite zero_counts_lookup in Hin.
        by case_bool_decide.
      - intros Hin. exists (c, 0 + tally true c (trials w)). split; [done|].
        apply elem_of_map_to_list. rewrite Hp. subst zero.
        rewrite zero_counts_lookup. by rewrite bool_decide_eq_true_2. }
    set (ids := merge_sort Z.le (map fst (map_to_list p'))).
    assert (Hperm : ids ≡ₚ (map_to_list p').*1)
      by (subst ids; rewrite map_as_fmap; apply merge_sort_Permutation).
    destruct (stat_rows_rows ids p' f') as (rows & Hr & Hids & HF).
    { apply Forall_forall. intros c Hin. rewrite Hperm in Hin. apply Hkeys in Hin.
      rewrite Hp, Hf. subst zero. rewrite zero_counts_lookup.
      rewrite bool_decide_eq_true_2 by done. by split. }
    exists rows. split; [done|]. rewrite Hids. split_and!.
    + apply StronglySorted_merge_sort; apply _.
    + rewrite Hperm. apply NoDup_fst_map_to_list.
    + intros c. by rewrite Hperm.
    + eapply Forall_impl; [exact HF|]. intros [[c p] f]. simpl.
      rewrite Hp, Hf. subst zero. rewrite zero_counts_lookup.
      case_bool_decide; simpl; [|by intros [? ?]].
      intros [[= <-] [= <-]]. split; lia.
  - destruct Hc as (kt & Hin & Hnone & _).
    rewrite Forall_forall in Hknown. specialize (Hknown kt Hin).
    subst zero. rewrite zero_counts_lookup in Hnone.
    by rewrite bool_decide_eq_true_2 in Hnone.
Qed.

(** X27. [admin_stats] answers exactly when every trial is of a condition
    of the table of conditions; a trial of another condition ends it with
    the [KeyError] of that condition. *)
Theorem admin_stats_key_error conditions w :
  (Forall (fun kt => condition_id kt.2 ∈ conditions) (trials w)
   <-> exists rows, admin_stats conditions w = Ok rows)
  /\ (forall e, admin_stats conditions w = Raise e ->
      exists kt, kt ∈ trials w /\ (condition_id kt.2 ∉ conditions)
                 /\ e = KeyError (pretty (condition_id kt.2))).
Proof.
  assert (Hraise : forall e, admin_stats conditions w = Raise e ->
            exists kt, kt ∈ trials w /\ (condition_id kt.2 ∉ conditions)
                       /\ e = KeyError (pretty (condition_id kt.2))).
  { intros e. unfold admin_stats.
    set (zero := list_to_map (map (fun cond => (cond, 0)) conditions) : gmap Z Z).
    pose proof (count_trials_counts (trials w) zero zero (fun c => reflexivity _)) as Hc.
    destruct (count_trials (trials w) zero zero) as [[p' f']|e']; simpl.
    - destruct Hc as (HF & Hp & Hf). intros Hr.
      destruct (stat_rows_rows (merge_sort Z.le (map fst (map_to_list p'))) p' f')
        as (rows & Hrows & _); [|congruence].
      apply Forall_forall. intros c Hin.
      rewrite merge_sort_Permutation, map_as_fmap in Hin.
      apply list_elem_of_fmap in Hin as ([c' n] & -> & Hin).
      apply elem_of_map_to_list in Hin. simpl.
      assert (Hz : is_Some (zero !! c')).
      { rewrite Hp in Hin. destruct (zero !! c'); [done|discriminate]. }
      rewrite Hp, Hf. destruct Hz as [z ->]. by split.
    - intros [= <-]. destruct Hc as (kt & Hin & Hnone & ->). exists kt.
      split; [done|]. split; [|done]. subst zero.
      rewrite zero_counts_lookup in Hnone. by case_bool_decide. }
  split; [|done]. split.
  - intros Hknown. destruct (admin_stats_known conditions w Hknown) as (rows & Hr & _).
    by exists rows.
  - intros (rows & Hr). apply Forall_forall. intros kt Hin.
    destruct (decide (condition_id kt.2 ∈ conditions)) as [|Hout]; [done|].
    exfalso. clear Hraise. revert Hr. unfold admin_stats.
    set (zero := list_to_map (map (fun cond => (cond, 0)) conditions) : gmap Z Z).
    pose proof (count_trials_counts (trials w) zero zero (fun c => reflexivity _)) as Hc.
    destruct (count_trials (trials w) zero zero) as [[p' f']|e']; simpl; [|done].
    destruct Hc as (HF & _). rewrite Forall_forall in HF. specialize (HF kt Hin).
    subst zero. rewrite zero_counts_lookup in HF.
    rewrite bool_decide_eq_false_2 in HF by done. by destruct HF.
Qed.

(** X28. When [admin_stats] answers, its rows are the conditions of the
    table, each once and in increasing order, and the two counts of a row
    are the numbers of trials of that condition whose participant had
    passed the hearing test, and had not (failed or never taken). *)
Theorem admin_stats_rows conditions w rows :
  admin_stats conditions w = Ok rows ->
  StronglySorted Z.le (map (fun r => r.1.1) rows)
  /\ NoDup (map (fun r => r.1.1) rows)
  /\ (forall c, c ∈ map (fun r => r.1.1) rows <-> c ∈ conditions)
  /\ Forall (fun r => r.1.2 = tally true r.1.1 (trials w)
                      /\ r.2 = tally false r.1.1 (trials w)) rows.
Proof.
  intros Hr.
  assert (Hknown : Forall (fun kt => condition_id kt.2 ∈ conditions) (trials w)).
  { apply Forall_forall. intros kt Hin.
    destruct (decide (condition_id kt.2 ∈ conditions)) as [|Hout]; [done|].
    exfalso. revert Hr. unfold admin_stats.
    set (zero := list_to_map (map (fun cond => (cond, 0)) conditions) : gmap Z Z).
    pose proof (count_trials_counts (trials w) zero zero (fun c => reflexivity _)) as Hc.
    destruct (count_trials (trials w) zero zero) as [[p' f']|e']; simpl; [|done].
    destruct Hc as (HF & _). rewrite Forall_forall in HF. specialize (HF kt Hin).
    subst zero. rewrite zero_counts_lookup in HF.
    rewrite bool_decide_eq_false_2 in HF by done. by destruct HF. }
  destruct (admin_stats_known conditions w Hknown) as (rows' & Hr' & Hrows).
  rewrite Hr in Hr'. by injection Hr' as <-.
Qed.

End StatisticsFacts.

(** ** Closed instances of the further properties *)

Import Tour.

(** The tokens of the sample collaborators decode to the index they were
    made from, on the whole range of indices. *)
Lemma sample_tokens_decode index :
  @MIN_HEARING_TEST_AUDIO_INDEX collaborators <= index
    <= @MAX_HEARING_TEST_AUDIO_INDEX collaborators ->
  @decoded_index collaborators (PyStr (@encrypt_data collaborators index)) = Ok index.
Proof.
  simpl. intros Hi.
  assert (Hc : index = 0 \/ index = 1 \/ index = 2 \/ index = 3 \/ index = 4
               \/ index = 5 \/ index = 6 \/ index = 7) by lia.
  destruct Hc as [->|[->|[->|[->|[->|[->|[->| ->]]]]]]]; reflexivity.
Qed.

Lemma three_five_in_range :
  @draws_in_range collaborators (oracle (Some [1]) three_five).
Proof. intros k. simpl. lia. Qed.

Lemma pre_evaluation_tasks_gates_witness :
  resolves (visit (screened (Some with_headphones)) []) 5
    (screened (Some with_headphones))
  /\ (@pre_evaluation_tasks collaborators configuration (oracle (Some [1]) three_five)
        (visit (screened (Some with_headphones)) [])).1
     = Ok (Redirect "evaluation")
  /\ (exists answers,
        pre_test_survey (screened (Some with_headphones)) = Some answers
        /\ valid answers (pre_test_survey_inclusion_criteria configuration) = true)
  /\ exists ids,
       assign_conditions (oracle (Some [1]) three_five) = Ok (Some ids) /\ ids <> [].
Proof.
  assert (Hr : resolves (visit (screened (Some with_headphones)) []) 5
                 (screened (Some with_headphones))) by (split; reflexivity).
  split; [exact Hr|]. split; [reflexivity|].
  destruct (@pre_evaluation_tasks_gates collaborators configuration
              (oracle (Some [1]) three_five) _ 5 _ Hr) as (_ & _ & Hg).
  destruct (Hg eq_refl) as (_ & _ & [Hs|Hs] & Hids); [discriminate Hs|].
  split; [exact Hs | exact Hids].
Defined.

Lemma pre_evaluation_tasks_footprint_witness :
  session (@pre_evaluation_tasks collaborators configuration
             (oracle (Some [1; 2]) three_five) (challenged (screened None))).2
    !! "hearing_test_audio_index1"
  = session (challenged (screened None)) !! "hearing_test_audio_index1".
Proof.
  apply (@pre_evaluation_tasks_footprint collaborators configuration
           (oracle (Some [1; 2]) three_five) (challenged (screened None))).
  discriminate.
Defined.

Lemma consent_agree_recorded_witness :
  resolves (visit newcomer []) 5 newcomer
  /\ exists row',
       participants (@consent collaborators configuration POST {[ "consent" := "agree" ]}
                       (oracle (Some [1]) three_five) (visit newcomer [])).2
       = <[5 := row']> (participants (visit newcomer []))
       /\ gave_consent row' = true
       /\ (@consent collaborators configuration POST {[ "consent" := "agree" ]}
             (oracle (Some [1]) three_five) (visit newcomer [])).1
          <> Ok (Redirect "consent").
Proof.
  assert (Hr : resolves (visit newcomer []) 5 newcomer) by (split; reflexivity).
  split; [exact Hr|].
  assert (Hf : ({[ "consent" := "agree" ]} : gmap string string) !! "consent"
               = Some "agree") by reflexivity.
  destruct (@consent_agree_recorded collaborators configuration {[ "consent" := "agree" ]}
              (oracle (Some [1]) three_five) _ 5 _ Hr Hf eq_refl)
    as (row' & Hp & Hg & _ & _ & _ & Hn).
  exists row'. split; [exact Hp|]. split; [exact Hg | exact Hn].
Defined.

Lemma consent_not_agreed_witness :
  ({[ "consent" := "disagree" ]} : gmap string string) !! "consent" <> Some "agree"
  /\ @consent collaborators configuration POST {[ "consent" := "disagree" ]}
       (oracle (Some [1]) three_five) (visit newcomer [])
     = (Ok (Sorry thank_you_for_your_interest), visit newcomer []).
Proof.
  assert (Hf : ({[ "consent" := "disagree" ]} : gmap string string) !! "consent"
               <> Some "agree") by (intros Hx; vm_compute in Hx; discriminate Hx).
  split; [exact Hf|].
  destruct (@consent_not_agreed collaborators configuration POST
              {[ "consent" := "disagree" ]} (oracle (Some [1]) three_five)
              (visit newcomer []) (or_intror Hf)) as (Hw & Hd & _).
  apply injective_projections; [apply Hd; reflexivity | exact Hw].
Defined.

Lemma hearing_test_challenge_answered_witness :
  resolves (visit (failed 1) []) 5 (failed 1)
  /\ exists w' index1 index2,
       @hearing_test collaborators configuration 1 GET ∅ (oracle (Some [1]) three_five)
         (visit (failed 1) [])
       = Some (Ok (Render "hearing_screening.html"), w')
       /\ index1 <> index2
       /\ exists r w'',
            @hearing_test collaborators configuration 0 POST (answers "1" "2")
              (oracle (Some [1]) three_five) w' = Some (r, w'')
            /\ participants w'' !! 5
               = Some (set_passed_hearing_test
                         (bool_decide (1 = index1 / 2 /\ 2 = index2 / 2)) 200 (failed 1)).
Proof.
  assert (Hr : resolves (visit (failed 1) []) 5 (failed 1)) by (split; reflexivity).
  split; [exact Hr|].
  destruct (@hearing_test collaborators configuration 1 GET ∅
              (oracle (Some [1]) three_five) (visit (failed 1) []))
    as [[r0 w']|] eqn:Eg; [|vm_compute in Eg; discriminate Eg].
  assert (Er : r0 = Ok (Render "hearing_screening.html")).
  { vm_compute in Eg. by injection Eg as <- _. }
  rewrite Er in Eg. rewrite Er. clear Er.
  destruct (@hearing_test_challenge_answered collaborators configuration 1 ∅
              (oracle (Some [1]) three_five) _ w' 5 _ Hr three_five_in_range
              sample_tokens_decode ltac:(discriminate) Eg)
    as (index1 & index2 & Hne & Hpost).
  exists w', index1, index2. split; [reflexivity|]. split; [exact Hne|].
  apply (Hpost 0%nat (answers "1" "2") (oracle (Some [1]) three_five) 1 2);
    reflexivity.
Defined.

Lemma hearing_test_first_answer_wrong_witness :
  resolves (challenged (failed 1)) 5 (failed 1)
  /\ reported_tones (answers "3" "many") "audiofile1_tones" = Ok 3
  /\ @expected_tones collaborators (read_challenge (challenged (failed 1))).1.1
     = Ok 1
  /\ exists r w',
       @hearing_test collaborators configuration 0 POST (answers "3" "many")
         (oracle (Some [1]) three_five) (challenged (failed 1)) = Some (r, w')
       /\ participants w' !! 5 = Some (set_passed_hearing_test false 200 (failed 1)).
Proof.
  assert (Hr : resolves (challenged (failed 1)) 5 (failed 1)) by (split; reflexivity).
  split; [exact Hr|]. split; [reflexivity|]. split; [reflexivity|].
  apply (@hearing_test_first_answer_wrong collaborators configuration 0
           (answers "3" "many") (oracle (Some [1]) three_five) _ 5 _ 3 1 Hr);
    try reflexivity.
  discriminate.
Defined.

Lemma hearing_test_footprint_witness :
  exists r w',
    @hearing_test collaborators configuration 0 POST (answers "1" "2")
      (oracle (Some [1]) three_five) (challenged (failed 1)) = Some (r, w')
    /\ trials w' = trials (challenged (failed 1))
    /\ (participants w' = participants (challenged (failed 1))
        \/ exists pid row passed,
             resolves (challenged (failed 1)) pid row
             /\ participants w'
                = <[pid := set_passed_hearing_test passed 200 row]>
                    (participants (challenged (failed 1)))).
Proof.
  destruct (@hearing_test collaborators configuration 0 POST (answers "1" "2")
              (oracle (Some [1]) three_five) (challenged (failed 1)))
    as [[r w']|] eqn:Eh; [|vm_compute in Eh; discriminate Eh].
  exists r, w'. split; [reflexivity|].
  destruct (@hearing_test_footprint collaborators configuration 0 POST
              (answers "1" "2") (oracle (Some [1]) three_five) _ r w' Eh)
    as (Ht & _ & Hp).
  split; [exact Ht | exact Hp].
Defined.

Lemma evaluation_trials_of_submitter_witness :
  resolves assigned_one 5 (screened (Some with_headphones))
  /\ (@evaluation collaborators (submission "5") (oracle None three_five)
        assigned_one).1
     = Ok (Json false "Data is saved!" (Some (sign (PyInt 1))))
  /\ exists new,
       trials (@evaluation collaborators (submission "5") (oracle None three_five)
                 assigned_one).2
       = trials assigned_one ++ keyed (oracle None three_five) new
       /\ Forall (fun trial =>
                    participant_id trial = 5
                    /\ participant_passed_hearing_test trial = Some true
                    /\ crowd_data trial = PyNone) new.
Proof.
  assert (Hr : resolves assigned_one 5 (screened (Some with_headphones)))
    by (split; reflexivity).
  assert (He : (@evaluation collaborators (submission "5") (oracle None three_five)
                  assigned_one).1
               = Ok (Json false "Data is saved!" (Some (sign (PyInt 1)))))
    by (by vm_compute).
  split; [exact Hr|]. split; [exact He|].
  destruct (@evaluation_trials_of_submitter collaborators (submission "5")
              (oracle None three_five) assigned_one 5 _ _ _ Hr He)
    as (_ & items & new & _ & _ & Ht & HF).
  exists new. split; [exact Ht | exact HF].
Defined.

Lemma evaluation_saved_only_well_formed_witness :
  (@evaluation collaborators (submission "5") (oracle None three_five) assigned_one).1
  = Ok (Json false "Data is saved!" (Some (sign (PyInt 1))))
  /\ exists items,
       completedConditionData (submission "5") = Some (Some (JArr items))
       /\ items <> []
       /\ Forall (fun cd => exists fields v n,
                    cd = JObj fields
                    /\ assoc "conditionID" fields = Some v
                    /\ int_of_json v = Ok n) items.
Proof.
  assert (He : (@evaluation collaborators (submission "5") (oracle None three_five)
                  assigned_one).1
               = Ok (Json false "Data is saved!" (Some (sign (PyInt 1)))))
    by (by vm_compute).
  split; [exact He|].
  apply (@evaluation_saved_only_well_formed collaborators (submission "5")
           (oracle None three_five) assigned_one _ _ He).
Defined.

Lemma evaluation_empty_submission_witness :
  resolves assigned_one 5 (screened (Some with_headphones))
  /\ (@evaluation collaborators
        {| participant_id_value := Some "5";
           completedConditionData := Some (Some (JArr [])) |}
        (oracle None three_five) assigned_one).1
     = Ok (Json true
             ("Error saving data. Error " ++ sign (PyStr (str_exn (NameError "trial"))))%string
             None)
  /\ trials (@evaluation collaborators
               {| participant_id_value := Some "5";
                  completedConditionData := Some (Some (JArr [])) |}
               (oracle None three_five) assigned_one).2
     = trials assigned_one.
Proof.
  assert (Hr : resolves assigned_one 5 (screened (Some with_headphones)))
    by (split; reflexivity).
  split; [exact Hr|].
  apply (@evaluation_empty_submission collaborators
           {| participant_id_value := Some "5";
              completedConditionData := Some (Some (JArr [])) |}
           (oracle None three_five) assigned_one 5 _ Hr); reflexivity.
Defined.

Lemma pre_test_survey_stored_witness :
  resolves (visit (screened None) []) 5 (screened None)
  /\ exists row',
       participants (@Route.pre_test_survey collaborators configuration POST
                       {[ "age" := "30" ]} (oracle (Some [1]) three_five)
                       (visit (screened None) [])).2
       = <[5 := row']> (participants (visit (screened None) []))
       /\ pre_test_survey row' = Some (form_document {[ "age" := "30" ]})
       /\ (@Route.pre_test_survey collaborators configuration POST
             {[ "age" := "30" ]} (oracle (Some [1]) three_five)
             (visit (screened None) [])).1
          = Ok (Sorry inclusion_criteria_not_met).
Proof.
  assert (Hr : resolves (visit (screened None) []) 5 (screened None))
    by (split; reflexivity).
  split; [exact Hr|].
  destruct (@pre_test_survey_stored collaborators configuration {[ "age" := "30" ]}
              (oracle (Some [1]) three_five) _ 5 _ Hr eq_refl)
    as (row' & Hp & Hs & _ & _ & _ & Hn).
  exists row'. split; [exact Hp|]. split; [exact Hs|].
  apply Hn. by vm_compute.
Defined.

Lemma pre_test_survey_moves_on_witness :
  resolves (visit (screened None) []) 5 (screened None)
  /\ valid (form_document {[ "headphones" := "yes" ]})
       (pre_test_survey_inclusion_criteria configuration) = true
  /\ (@Route.pre_test_survey collaborators configuration POST
        {[ "headphones" := "yes" ]} (oracle (Some [1]) three_five)
        (visit (screened None) [])).1
     = Ok (Redirect "evaluation").
Proof.
  assert (Hr : resolves (visit (screened None) []) 5 (screened None))
    by (split; reflexivity).
  assert (Hv : valid (form_document {[ "headphones" := "yes" ]})
                 (pre_test_survey_inclusion_criteria configuration) = true)
    by (by vm_compute).
  split; [exact Hr|]. split; [exact Hv|].
  destruct (@pre_test_survey_moves_on collaborators configuration
              {[ "headphones" := "yes" ]} (oracle (Some [1]) three_five) _ 5 _ Hr eq_refl)
    as (_ & Hgo).
  apply (Hgo (Some [1]) Hv); reflexivity.
Defined.

Lemma post_evaluation_tasks_end_witness :
  resolves (visit estimated []) 5 estimated
  /\ is_Some (hearing_response_estimation estimated)
  /\ post_test_survey estimated = None
  /\ Route.post_evaluation_tasks options (visit estimated [])
     = (Ok (Plain (Redirect "post_test_survey")), visit estimated []).
Proof.
  assert (Hr : resolves (visit estimated []) 5 estimated) by (split; reflexivity).
  assert (He : is_Some (hearing_response_estimation estimated))
    by (eexists; reflexivity).
  split; [exact Hr|]. split; [exact He|]. split; [reflexivity|].
  destruct (post_evaluation_tasks_end options _ 5 _ Hr) as (Hw & _ & Hs & _).
  apply injective_projections; [|exact Hw].
  apply Hs. split; [right; exact He|].
  intros [Hx|[x Hx]]; discriminate Hx.
Defined.

Lemma hearing_response_estimation_moves_on_witness :
  resolves (visit (screened (Some with_headphones)) []) 5
    (screened (Some with_headphones))
  /\ exists row',
       participants (Route.hearing_response_estimation options {[ "f0" := "3" ]}
                       (oracle (Some [1]) three_five)
                       (visit (screened (Some with_headphones)) [])).2
       = <[5 := row']> (participants (visit (screened (Some with_headphones)) []))
       /\ hearing_response_estimation row' = Some (form_document {[ "f0" := "3" ]})
       /\ (Route.hearing_response_estimation options {[ "f0" := "3" ]}
             (oracle (Some [1]) three_five)
             (visit (screened (Some with_headphones)) [])).1
          = Ok (Plain (Redirect "post_test_survey")).
Proof.
  assert (Hr : resolves (visit (screened (Some with_headphones)) []) 5
                 (screened (Some with_headphones))) by (split; reflexivity).
  split; [exact Hr|].
  destruct (hearing_response_estimation_moves_on options {[ "f0" := "3" ]}
              (oracle (Some [1]) three_five) _ 5 _ Hr eq_refl)
    as (row' & Hp & He & _ & Hgo & _).
  exists row'. split; [exact Hp|]. split; [exact He | exact Hgo].
Defined.

Lemma post_test_survey_moves_on_witness :
  resolves (visit estimated []) 5 estimated
  /\ session (visit estimated []) !! "platform" = None
  /\ exists row',
       participants (Route.post_test_survey options POST {[ "comments" := "none" ]}
                       (oracle (Some [1]) three_five) (visit estimated [])).2
       = <[5 := row']> (participants (visit estimated []))
       /\ post_test_survey row' = Some (form_document {[ "comments" := "none" ]})
       /\ (Route.post_test_survey options POST {[ "comments" := "none" ]}
             (oracle (Some [1]) three_five) (visit estimated [])).1
          = Raise (BuildError "end").
Proof.
  assert (Hr : resolves (visit estimated []) 5 estimated) by (split; reflexivity).
  assert (Hn : session (visit estimated []) !! "platform" = None) by reflexivity.
  split; [exact Hr|]. split; [exact Hn|].
  destruct (post_test_survey_moves_on options {[ "comments" := "none" ]}
              (oracle (Some [1]) three_five) _ 5 _ Hr eq_refl)
    as (row' & Hp & Hs & _ & _ & _ & Hend).
  exists row'. split; [exact Hp|]. split; [exact Hs|].
  apply Hend; [reflexivity | left; exact Hn].
Defined.

Lemma create_participant_known_worker_witness :
  Route.find_worker "W5" directory = Some 5
  /\ (@Route.create_participant collaborators platform configuration "mturk" "W5"
        "10.0.0.9" accepted_hit registrar (challenged (screened None)) directory).2
     = directory
  /\ session (@Route.create_participant collaborators platform configuration "mturk" "W5"
                "10.0.0.9" accepted_hit registrar (challenged (screened None))
                directory).1.2 !! "hearing_test_audio_index1"
     = None.
Proof.
  split; [reflexivity|].
  destruct (@create_participant_known_worker collaborators platform configuration
              "mturk" "W5" "10.0.0.9" accepted_hit registrar
              (challenged (screened None)) directory 5 eq_refl)
    as (Hd & _ & _ & _ & Hs).
  split; [exact Hd|]. apply Hs; discriminate.
Defined.

Lemma create_participant_new_worker_witness :
  Route.find_worker "W6" directory = None
  /\ (@Route.create_participant collaborators platform configuration "mturk" "W6"
        "10.0.0.6" accepted_hit registrar (visit newcomer []) directory).2
     = directory ++ [(9, {| participant_type := "mturk"; crowd_worker_id := "W6";
                            ip_address := "10.0.0.6" |})]
  /\ participants
       (@Route.create_participant collaborators platform configuration "mturk" "W6"
          "10.0.0.6" accepted_hit registrar (visit newcomer []) directory).1.2 !! 9
     = Some newcomer.
Proof.
  split; [reflexivity|].
  destruct (@create_participant_new_worker collaborators platform configuration
              "mturk" "W6" "10.0.0.6" accepted_hit registrar (visit newcomer [])
              directory eq_refl)
    as (Hd & Hp & _).
  split; [exact Hd | exact Hp].
Defined.

Lemma create_participant_twice_witness :
  let first :=
    @Route.create_participant collaborators platform configuration "mturk" "W6"
      "10.0.0.6" ∅ registrar (visit newcomer []) directory in
  let second :=
    @Route.create_participant collaborators platform configuration "anonymous" "W6"
      "10.0.0.7" accepted_hit (oracle (Some [2]) three_five) first.1.2 first.2 in
  commit_succeeds registrar = true
  /\ second.2 = first.2
  /\ participants second.1.2 = participants first.1.2
  /\ session second.1.2 !! "participant_id" = Some (PyInt 9).
Proof.
  intros first second. split; [reflexivity|].
  destruct (@create_participant_twice collaborators platform configuration "mturk" "W6"
              "10.0.0.6" ∅ registrar (visit newcomer []) directory
              "anonymous" "10.0.0.7" accepted_hit (oracle (Some [2]) three_five)
              eq_refl)
    as (Hd & Hp & Hs).
  split; [exact Hd|]. split; [exact Hp|].
  etransitivity; [exact Hs|]. by vm_compute.
Defined.

Lemma create_participant_crowd_data_witness :
  exists t,
    @Route.mturk platform accepted_hit = Ok (RedirectTo t ∅)
    /\ assoc "crowd_assignment_id" (values t) = Some (PyStr "A1")
    /\ session (@Route.create_participant collaborators platform configuration "mturk"
                  "W5" "10.0.0.5"
                  {[ "crowd_assignment_id" := "A1"; "crowd_assignment_type" := "H1" ]}
                  registrar (visit newcomer []) directory).1.2 !! "crowd_data"
       = Some (PyDict [("hit_id", PyNone);
                       ("assignment_id", PyStr "ASSIGNMENT_ID_NOT_AVAILABLE");
                       ("turk_submit_to", PyStr "TURK_SUBMIT_TO_NOT_AVAILABLE")]).
Proof.
  eexists. split; [reflexivity|]. split; [reflexivity|].
  eapply (@create_participant_crowd_data collaborators platform configuration "mturk"
            "W5" "10.0.0.5" _ registrar (visit newcomer []) directory accepted_hit);
    [reflexivity| |reflexivity].
  intros key [v Hv].
  apply lookup_insert_Some in Hv as [[<- _]|[_ Hv]];
    [|apply lookup_singleton_Some in Hv as [<- _]];
    apply list_elem_of_In; simpl; tauto.
Defined.

Lemma mturk_preview_witness :
  exists t,
    @Route.mturk platform accepted_hit = Ok (RedirectTo t ∅)
    /\ assoc "preview" (values t) = Some (PyInt 0)
    /\ assoc "crowd_assignment_id" (values t) = Some (PyStr "A1")
    /\ assoc "crowd_worker_id" (values t) = Some (PyStr "W5").
Proof.
  destruct (@mturk_preview platform accepted_hit) as (_ & Ha).
  destruct (Ha "A1" eq_refl) as (t & Hm & _ & _ & Hnot).
  destruct Hnot as (Hp & Hc & _ & worker & Hw & _ & Hcw).
  { intros [Hx|[Hx|Hx]]; vm_compute in Hx; discriminate Hx. }
  exists t. split; [exact Hm|]. split; [exact Hp|]. split; [exact Hc|].
  vm_compute in Hw. injection Hw as <-. exact Hcw.
Defined.

Lemma begin_offers_entry_witness :
  Route.begin options "mturk" "W5" (Some "chrome") 3 {[ "crowd_assignment_id" := "A1" ]}
  = Ok (RenderLink "mturk/begin.html"
          (Some {| endpoint := "create_participant";
                   values := [("participant_type", PyStr "mturk");
                              ("crowd_worker_id", PyStr "W5")] |})
          {[ "crowd_assignment_id" := "A1" ]})
  /\ browser_accepted options (Some "chrome")
  /\ int_of_pyval (args_get ({[ "crowd_assignment_id" := "A1" ]} : gmap string string)
                     "preview" (PyInt 0)) = Ok 0.
Proof.
  assert (Hb : Route.begin options "mturk" "W5" (Some "chrome") 3
                 {[ "crowd_assignment_id" := "A1" ]}
               = Ok (RenderLink "mturk/begin.html"
                       (Some {| endpoint := "create_participant";
                                values := [("participant_type", PyStr "mturk");
                                           ("crowd_worker_id", PyStr "W5")] |})
                       {[ "crowd_assignment_id" := "A1" ]})) by (by vm_compute).
  split; [exact Hb|].
  destruct (begin_offers_entry options "mturk" "W5" (Some "chrome") 3
              {[ "crowd_assignment_id" := "A1" ]} _ _ Hb
              (or_intror (ex_intro _ _ (ex_intro _ _ eq_refl))))
    as (Ha & _ & Hp & _).
  split; [exact Ha | exact Hp].
Defined.

Lemma begin_argument_twice_witness :
  is_Some (({[ "crowd_worker_id" := "W7" ]} : gmap string string) !! "crowd_worker_id")
  /\ Route.begin options "mturk" "W5" (Some "chrome") 3 {[ "crowd_worker_id" := "W7" ]}
     = Raise TypeError.
Proof.
  assert (Hs : is_Some (({[ "crowd_worker_id" := "W7" ]} : gmap string string)
                          !! "crowd_worker_id")) by (eexists; reflexivity).
  split; [exact Hs|].
  apply (begin_argument_twice options "mturk" "W5" (Some "chrome") 3
           {[ "crowd_worker_id" := "W7" ]}).
  - intros Hx. vm_compute in Hx. discriminate Hx.
  - discriminate.
  - reflexivity.
  - right. exact Hs.
Defined.

Lemma audio_only_for_session_witness :
  @Route.audio keyholders "key" assigned_one = Ok (PyStr "stimuli/a.wav")
  /\ exists audio_file_dict c_id,
       @decrypt_data keyholders (PyStr "key") = Ok (PyDict audio_file_dict)
       /\ assoc "p_id" audio_file_dict = Some (PyInt 5)
       /\ assoc "c_id" audio_file_dict = Some (PyInt c_id)
       /\ c_id ∈ [1].
Proof.
  split; [reflexivity|].
  destruct (@audio_only_for_session keyholders "key" assigned_one) as (Hf & _).
  destruct (Hf 5 [1] (PyStr "stimuli/a.wav") eq_refl eq_refl eq_refl)
    as (d & c & Hd & Hp & Hc & Hin & _).
  exists d, c. split; [exact Hd|]. split; [exact Hp|]. split; [exact Hc | exact Hin].
Defined.

Lemma hearing_test_audio_tones_witness :
  (@Route.hearing_test_audio collaborators "1" (challenged (failed 1))).1
  = Ok (Tones 1 1)
  /\ exists token index,
       session (challenged (failed 1)) !! "hearing_test_audio_index1" = Some token
       /\ @decoded_index collaborators token = Ok index
       /\ @expected_tones collaborators token = Ok 1
       /\ index = 1 * 2 + 1.
Proof.
  split; [reflexivity|].
  destruct (@hearing_test_audio_tones collaborators "1" (challenged (failed 1)))
    as (_ & Ht).
  destruct (Ht 1 1 ltac:(discriminate) eq_refl)
    as (token & index & Hs & Hd & He & Hi & _).
  exists token, index. split; [exact Hs|]. split; [exact Hd|].
  split; [exact He | exact Hi].
Defined.

Lemma hearing_test_audio_two_files_witness :
  resolves (visit (failed 1) []) 5 (failed 1)
  /\ exists w' t1 f1 t2 f2,
       @hearing_test collaborators configuration 1 GET ∅ (oracle (Some [1]) three_five)
         (visit (failed 1) [])
       = Some (Ok (Render "hearing_screening.html"), w')
       /\ (@Route.hearing_test_audio collaborators "1" w').1 = Ok (Tones t1 f1)
       /\ (@Route.hearing_test_audio collaborators "2" w').1 = Ok (Tones t2 f2)
       /\ Tones t1 f1 <> Tones t2 f2.
Proof.
  assert (Hr : resolves (visit (failed 1) []) 5 (failed 1)) by (split; reflexivity).
  split; [exact Hr|].
  destruct (@hearing_test collaborators configuration 1 GET ∅
              (oracle (Some [1]) three_five) (visit (failed 1) []))
    as [[r0 w']|] eqn:Eg; [|vm_compute in Eg; discriminate Eg].
  assert (Er : r0 = Ok (Render "hearing_screening.html")).
  { vm_compute in Eg. by injection Eg as <- _. }
  rewrite Er in Eg. rewrite Er. clear Er.
  destruct (@hearing_test_audio_two_files collaborators configuration 1 ∅
              (oracle (Some [1]) three_five) _ w' 5 _ Hr three_five_in_range
              sample_tokens_decode ltac:(discriminate) Eg)
    as (t1 & f1 & t2 & f2 & H1 & H2 & Hne).
  exists w', t1, f1, t2, f2. split; [reflexivity|]. split; [exact H1|].
  split; [exact H2 | exact Hne].
Defined.

Lemma admin_stats_key_error_witness :
  admin_stats [1; 2] (tried [(3, trial_of 7 None)]) = Raise (KeyError "7")
  /\ exists kt,
       kt ∈ trials (tried [(3, trial_of 7 None)])
       /\ (condition_id kt.2 ∉ [1; 2])
       /\ KeyError "7" = KeyError (pretty (condition_id kt.2)).
Proof.
  assert (He : admin_stats [1; 2] (tried [(3, trial_of 7 None)])
               = Raise (KeyError "7")) by (by vm_compute).
  split; [exact He|].
  destruct (admin_stats_key_error [1; 2] (tried [(3, trial_of 7 None)]))
    as (_ & Hraise).
  exact (Hraise _ He).
Defined.

Lemma admin_stats_rows_witness :
  admin_stats [2; 1] (tried []) = Ok [(1, 1, 1); (2, 0, 0)]
  /\ StronglySorted Z.le [1; 2]
  /\ Forall (fun r => r.1.2 = tally true r.1.1 (trials (tried []))
                      /\ r.2 = tally false r.1.1 (trials (tried [])))
       [(1, 1, 1); (2, 0, 0)].
Proof.
  assert (Hs : admin_stats [2; 1] (tried []) = Ok [(1, 1, 1); (2, 0, 0)])
    by (by vm_compute).
  split; [exact Hs|].
  destruct (admin_stats_rows [2; 1] (tried []) _ Hs) as (Hsorted & _ & _ & HF).
  split; [exact Hsorted | exact HF].
Defined.
